(** * MARCUS: backtest engine, strategy kernels, complementarity scorer, daemon state

    A shallow embedding of the parts of the MARCUS research engine that the
    specification's testable properties talk about:

    - [Engine]    : [VectorEngine.run]            (src/backtesting/vector_engine.py)
    - [ORB]       : [_numba_orb_logic]            (src/backtesting/vector_engine.py)
    - [Overnight] : [_numba_overnight_logic]      (src/backtesting/vector_engine.py)
    - [Scorer]    : [get_strategy_time_window], [compute_time_overlap],
                    [get_complementary_score]     (src/backtesting/nqmain_analyzer.py)
    - [Daemon]    : [_save_state], [_load_state], the head of [start]
                                                  (src/backtesting/marcus_daemon.py)

    Numbers.  Python [float] / numpy [float64] values are embedded as exact
    rationals [Q]; equality of computed numbers is [Qeq] ([==]).  Rounding and
    the non-finite values (NaN produced by arithmetic, infinities) are outside
    the embedding; the NaN that pandas uses for a *missing* entry (after
    [shift], [diff], [pct_change], [replace(0, nan)]) is embedded as [None].
    The engine divides in two places, by the previous close ([pct_change])
    and by the notional ([cost_pct]); a zero divisor gives an infinity or a
    NaN in the code and has no counterpart here, so every statement about
    returns, costs or equity that is not an equation between two such
    expressions is made for inputs without a zero divisor
    ([EngineExamples.finite_run]).
    Python [int] values are [Z]; minute-of-day indices are [nat]. *)

From Stdlib Require Import ZArith QArith Qabs Qminmax Lia Lqa.
From Stdlib Require Import Ascii String.
From stdpp Require Import gmap strings list.

Open Scope Q_scope.

(** ** Comparisons on rationals, as booleans *)

Definition Qleb (x y : Q) : bool := Qle_bool x y.
Definition Qltb (x y : Q) : bool := negb (Qle_bool y x).
Definition Qgeb (x y : Q) : bool := Qle_bool y x.
Definition Qgtb (x y : Q) : bool := negb (Qle_bool x y).
Definition Qeqb (x y : Q) : bool := Qeq_bool x y.

(** ** pandas Series operations used by the engine

    A Series is a list; a Series that may hold missing entries (NaN) is a
    list of options. *)

Module Series.

(** [s.shift(1)]: every entry moves one place down, the first is missing. *)
Definition shift1 {A} (s : list A) : list (option A) :=
  take (length s) (None :: map Some s).

(** [s.fillna(d)] *)
Definition fillna {A} (d : A) (s : list (option A)) : list A :=
  map (default d) s.

(** [s.diff()]: [s[i] - s[i-1]], missing at index 0. *)
Definition diff (s : list Q) : list (option Q) :=
  zip_with (fun x p => (fun y => x - y) <$> p) s (shift1 s).

(** [s.pct_change()]: [s[i] / s[i-1] - 1], missing at index 0.  For
    [s[i-1] = 0] pandas gives an infinity (or NaN for 0/0), which [Q] does
    not have: the entry is meaningful only after a non-zero [s[i-1]]. *)
Definition pct_change (s : list Q) : list (option Q) :=
  zip_with (fun x p => (fun y => x / y - 1) <$> p) s (shift1 s).

(** [s.abs()] on a Series with missing entries. *)
Definition abs (s : list (option Q)) : list (option Q) :=
  map (fmap Qabs) s.

(** [s.replace(0, np.nan)] *)
Definition replace0_nan (s : list Q) : list (option Q) :=
  map (fun x => if Qeqb x 0 then None else Some x) s.

(** [s.ffill()]: a missing entry takes the last present value before it. *)
Fixpoint ffill_from {A} (last : option A) (s : list (option A)) : list (option A) :=
  match s with
  | [] => []
  | x :: r =>
      let cur := match x with Some v => Some v | None => last end in
      cur :: ffill_from cur r
  end.
Definition ffill {A} (s : list (option A)) : list (option A) := ffill_from None s.

(** [s.cumprod()] *)
Fixpoint cumprod_from (acc : Q) (s : list Q) : list Q :=
  match s with
  | [] => []
  | x :: r => let a := acc * x in a :: cumprod_from a r
  end.
Definition cumprod (s : list Q) : list Q :=
  match s with
  | [] => []
  | x :: r => x :: cumprod_from x r
  end.

(** Element-wise arithmetic of two aligned Series.  An entry of [div] is
    meaningful only over a non-zero divisor (pandas gives an infinity or NaN
    over zero). *)
Definition mul (a b : list Q) : list Q := zip_with Qmult a b.
Definition sub (a b : list Q) : list Q := zip_with Qminus a b.
Definition div (a b : list Q) : list Q := zip_with Qdiv a b.

(** [s[i]], read as 0 outside the index (used only inside the index). *)
Definition at_ (s : list Q) (i : nat) : Q := default 0 (s !! i).

End Series.

(** ** [VectorEngine.run] *)

Module Engine.
Import Series.

(** One row of the bar DataFrame, after the column names are normalised to
    [Close], [High], [Low].  A bar table always has the three columns; the
    engine's fallback for a frame without [High] or [Low] (use [Close]) is
    the case [High = Low = Close]. *)
Record bar := Bar { Close : Q; High : Q; Low : Q }.

(** The engine's constructor arguments. *)
Record config := Config {
  initial_capital : Q;
  commission_per_unit : Q;
  slippage_per_unit : Q;
  volatility_factor : Q;
  point_value : Q
}.

(** The defaults of [VectorEngine.__init__]. *)
Definition default_config : config :=
  Config 100000 1 1 0.01 20.

Section Run.
Variable E : config.
Variable df : list bar.
(** [signals = self.strategy.generate_signals(df)], a Series of integers
    on the index of [df]. *)
Variable signals : list Z.

Definition prices : list Q := map Close df.
Definition highs : list Q := map High df.
Definition lows : list Q := map Low df.

(** [returns = df['Close'].pct_change().fillna(0)] *)
Definition returns : list Q := fillna 0 (pct_change prices).

(** [pos = signals.shift(1).fillna(0)] *)
Definition pos : list Q := fillna 0 (shift1 (map inject_Z signals)).

(** [volatility = (highs - lows).abs()] *)
Definition volatility : list Q := map Qabs (sub highs lows).

(** [vol_slippage = volatility * self.volatility_factor] *)
Definition vol_slippage : list Q :=
  map (fun v => v * volatility_factor E) volatility.

(** [total_cost_dollars = commission + slippage + vol_slippage] *)
Definition total_cost_dollars : list Q :=
  map (fun v => commission_per_unit E + slippage_per_unit E + v) vol_slippage.

(** [safe_prices = prices.replace(0, np.nan).ffill().fillna(1.0)] *)
Definition safe_prices : list Q := fillna 1 (ffill (replace0_nan prices)).

(** [notional = safe_prices * self.point_value] *)
Definition notional : list Q := map (fun p => p * point_value E) safe_prices.

(** [cost_pct = total_cost_dollars / notional] *)
Definition cost_pct : list Q := div total_cost_dollars notional.

(** [turnover = pos.diff().abs().fillna(0)] *)
Definition turnover : list Q := fillna 0 (abs (diff pos)).

(** [transaction_costs = turnover * cost_pct] *)
Definition transaction_costs : list Q := mul turnover cost_pct.

(** [strat_returns = pos * returns] *)
Definition strat_returns : list Q := mul pos returns.

(** [net_returns = strat_returns - transaction_costs] *)
Definition net_returns : list Q := sub strat_returns transaction_costs.

(** [equity_curve = self.initial_capital * (1 + net_returns).cumprod()] *)
Definition equity_curve : list Q :=
  map (fun c => initial_capital E * c) (cumprod (map (fun r => 1 + r) net_returns)).

(** The position and turnover as the specification words them:
    [position[i] = signals[i-1]], flat on the first bar. *)
Definition spec_position (i : nat) : Q :=
  match i with
  | O => 0
  | S j => inject_Z (default 0%Z (signals !! j))
  end.

Definition spec_turnover (i : nat) : Q :=
  match i with
  | O => 0
  | S j => Qabs (spec_position i - spec_position j)
  end.

(** The result dictionary of [run]. *)
Record result := Result {
  r_equity_curve : list Q;
  r_signals : list Z;
  r_returns : list Q;
  r_turnover : list Q
}.

(** [normalize_returns] (type_utils, not part of these sources) only
    converts the four containers to pandas Series on [df.index]. *)
Definition run : result :=
  Result equity_curve signals net_returns turnover.
End Run.

End Engine.

(** ** The bar loop shared by the kernels

    Both kernels run [for i in range(1, n)] over the rows, compare
    [day_ids[i]] with [day_ids[i - 1]], and leave index 0 untouched. *)

Module BarLoop.
Section Loop.
Context {R St O : Type}.
(** The day ordinal of a row. *)
Variable day : R -> Z.
(** The loop body: previous day ordinal, current row, state before. *)
Variable body : Z -> R -> St -> O.
(** The state carried to the next iteration. *)
Variable next : O -> St.

Fixpoint loop (prev_day : Z) (rows : list R) (s : St) : list O :=
  match rows with
  | [] => []
  | r :: rest =>
      let o := body prev_day r s in o :: loop (day r) rest (next o)
  end.

(** Entry [i] is the outcome of iteration [i]; entry 0 is [o0], what the
    variables hold before the loop. *)
Definition trace (o0 : O) (rows : list R) : list O :=
  match rows with
  | [] => []
  | r0 :: rest => o0 :: loop (day r0) rest (next o0)
  end.
End Loop.
End BarLoop.

(** ** [_numba_orb_logic]: the opening-range-breakout kernel *)

Module ORB.

(** Row [i] of the parallel input arrays ([day_ids], [times], [closes],
    [highs], [lows], [ema], [atr], [daily_ma], [rvol], [hurst], [adx]);
    all arrays are columns computed from one DataFrame and have its
    length. *)
Record row := Row {
  day_id : Z;
  time : Z;
  close : Q;
  high : Q;
  low : Q;
  ema : Q;
  atr : Q;
  daily_ma : Q;
  rvol : Q;
  hurst : Q;
  adx : Q
}.

(** The scalar arguments of the kernel. *)
Record params := Params {
  start_min : Z;
  end_min : Z;
  exit_min : Z;
  atr_max_mult : Q;
  sl_mult : Q;
  tp_mult : Q;
  use_htf : bool;
  use_rvol : bool;
  rvol_thresh : Q;
  use_hurst : bool;
  hurst_thresh : Q;
  use_adx : bool;
  adx_thresh : Q;
  use_ts : bool;
  ts_mult : Q
}.

(** The local variables that live across loop iterations. *)
Record state := State {
  orb_high : Q;
  orb_low : Q;
  traded_today : bool;
  in_pos : Z;
  entry_price : Q;
  sl_price : Q;
  tp_price : Q
}.

Definition init : state := State (-1) 1000000000 false 0 0 0 0.

Section Kernel.
Variable p : params.

(** "1. Detect New Trading Day": [day_ids[i] != day_ids[i - 1]]. *)
Definition new_day (prev_day : Z) (r : row) (s : state) : state :=
  if negb (day_id r =? prev_day)%Z
  then State (-1) 1000000000 false 0 (entry_price s) (sl_price s) (tp_price s)
  else s.

(** "ORB Calculation Window" body. *)
Definition orb_window (r : row) (s : state) : state :=
  if Qeqb (orb_high s) (-1)
  then State (high r) (low r) (traded_today s) (in_pos s)
             (entry_price s) (sl_price s) (tp_price s)
  else
    let oh := if Qgtb (high r) (orb_high s) then high r else orb_high s in
    let ol := if Qltb (low r) (orb_low s) then low r else orb_low s in
    State oh ol (traded_today s) (in_pos s)
          (entry_price s) (sl_price s) (tp_price s).

(** "Check Exits First", long side.  Returns the new stop and position. *)
Definition long_exit (r : row) (s : state) : state :=
  let sl1 :=
    if use_ts p
    then let new_sl := high r - atr r * ts_mult p in
         if Qgtb new_sl (sl_price s) then new_sl else sl_price s
    else sl_price s in
  let pos1 :=
    if Qleb (low r) sl1 then 0%Z
    else if negb (use_ts p) && Qgeb (high r) (tp_price s) then 0%Z
    else in_pos s in
  State (orb_high s) (orb_low s) (traded_today s) pos1
        (entry_price s) sl1 (tp_price s).

(** "Check Exits First", short side. *)
Definition short_exit (r : row) (s : state) : state :=
  let sl1 :=
    if use_ts p
    then let new_sl := low r + atr r * ts_mult p in
         if Qltb new_sl (sl_price s) then new_sl else sl_price s
    else sl_price s in
  let pos1 :=
    if Qgeb (high r) sl1 then 0%Z
    else if negb (use_ts p) && Qleb (low r) (tp_price s) then 0%Z
    else in_pos s in
  State (orb_high s) (orb_low s) (traded_today s) pos1
        (entry_price s) sl1 (tp_price s).

Definition check_exits (r : row) (s : state) : state :=
  if (in_pos s =? 0)%Z then s
  else if (in_pos s =? 1)%Z then long_exit r s
  else if (in_pos s =? -1)%Z then short_exit r s
  else s.

(** The [valid] flag of the long entry. *)
Definition long_filters (r : row) : bool :=
  negb (use_htf p && Qleb (close r) (daily_ma r))
  && negb (use_rvol p && Qleb (rvol r) (rvol_thresh p))
  && negb (use_hurst p && Qleb (hurst r) (hurst_thresh p))
  && negb (use_adx p && Qleb (adx r) (adx_thresh p)).

(** The [valid] flag of the short entry. *)
Definition short_filters (r : row) : bool :=
  negb (use_htf p && Qgeb (close r) (daily_ma r))
  && negb (use_rvol p && Qleb (rvol r) (rvol_thresh p))
  && negb (use_hurst p && Qleb (hurst r) (hurst_thresh p))
  && negb (use_adx p && Qleb (adx r) (adx_thresh p)).

(** "Check Entries" *)
Definition check_entries (r : row) (s : state) : state :=
  if (in_pos s =? 0)%Z && negb (traded_today s) && negb (Qeqb (orb_high s) (-1))
  then
    let range_size := orb_high s - orb_low s in
    let cur_atr := atr r in
    if Qgtb range_size 0 && Qgtb cur_atr 0
       && Qleb range_size (cur_atr * atr_max_mult p)
    then
      if Qgtb (close r) (orb_high s) && Qgtb (close r) (ema r)
      then
        if long_filters r
        then State (orb_high s) (orb_low s) true 1 (close r)
                   (close r - cur_atr * sl_mult p)
                   (close r + cur_atr * tp_mult p)
        else s
      else if Qltb (close r) (orb_low s) && Qltb (close r) (ema r)
      then
        if short_filters r
        then State (orb_high s) (orb_low s) true (-1) (close r)
                   (close r + cur_atr * sl_mult p)
                   (close r - cur_atr * tp_mult p)
        else s
      else s
    else s
  else s.

(** "Session End" *)
Definition session_end (s : state) : state :=
  State (orb_high s) (orb_low s) (traded_today s) 0
        (entry_price s) (sl_price s) (tp_price s).

(** One iteration of the loop body at bar [r], whose predecessor has day
    ordinal [prev_day]. *)
Definition step (prev_day : Z) (r : row) (s : state) : state :=
  let t := time r in
  let s1 := new_day prev_day r s in
  if (start_min p <=? t)%Z && (t <? end_min p)%Z then orb_window r s1
  else if (end_min p <=? t)%Z && (t <? exit_min p)%Z
       then check_entries r (check_exits r s1)
  else if (exit_min p <=? t)%Z then session_end s1
  else s1.

(** [states[i]] is the state at the end of iteration [i]; index 0 is not
    visited by [for i in range(1, n)] and keeps the initial state. *)
Definition states (rows : list row) : list state :=
  BarLoop.trace day_id step id init rows.

(** "Record Signal": [signals[i] = in_pos]; [signals[0]] stays 0. *)
Definition _numba_orb_logic (rows : list row) : list Z :=
  map in_pos (states rows).
End Kernel.

(** The price columns of the DataFrame the rows come from. *)
Definition bar_of_row (r : row) : Engine.bar :=
  Engine.Bar (close r) (high r) (low r).

(** [VectorEngine(strategy).run(df)] with the ORB strategy: the signals of
    the kernel fed to the engine over the same bars. *)
Definition backtest (E : Engine.config) (p : params) (rows : list row)
  : Engine.result :=
  Engine.run E (map bar_of_row rows) (_numba_orb_logic p rows).

End ORB.

(** ** [_numba_overnight_logic]: the overnight mean-reversion kernel *)

Module Overnight.

(** Row [i] of the parallel input arrays ([day_ids], [times], [closes],
    [highs], [lows], [ema], [atr]). *)
Record row := Row {
  day_id : Z;
  time : Z;
  close : Q;
  high : Q;
  low : Q;
  ema : Q;
  atr : Q
}.

Record params := Params {
  start_min : Z;
  end_min : Z;
  range_end_min : Z;
  sl_mult : Q;
  tp_mult : Q
}.

Record state := State {
  range_high : Q;
  range_low : Q;
  traded_session : bool;
  in_pos : Z;
  entry_price : Q;
  sl_price : Q;
  tp_price : Q;
  in_session : bool;
  range_formed : bool;
  broke_high : bool;
  broke_low : bool
}.

Definition init : state :=
  State (-1) 1000000000 false 0 0 0 0 false false false false.

Definition set_in_pos (v : Z) (s : state) : state :=
  State (range_high s) (range_low s) (traded_session s) v
        (entry_price s) (sl_price s) (tp_price s)
        (in_session s) (range_formed s) (broke_high s) (broke_low s).

(** The seven assignments shared by "New evening session starting" and
    "Reset for new session". *)
Definition reset_session (s : state) : state :=
  State (-1) 1000000000 false (in_pos s)
        (entry_price s) (sl_price s) (tp_price s)
        true false false false.

Section Kernel.
Variable p : params.

(** [crosses_midnight = start_min > end_min] *)
Definition crosses_midnight : bool := (end_min p <? start_min p)%Z.

(** [range_crosses_midnight]; computed by the source and never read. *)
Definition range_crosses_midnight : bool :=
  if (range_end_min p <? start_min p)%Z
  then (range_end_min p <? start_min p)%Z else false.

(** "Detect new calendar day -- reset session tracking" *)
Definition day_boundary (prev_day : Z) (r : row) (s : state) : state :=
  if negb (day_id r =? prev_day)%Z
  then
    let s1 := if negb (in_pos s =? 0)%Z then set_in_pos 0 s else s in
    if (start_min p <=? time r)%Z then reset_session s1 else s1
  else s.

Definition bar_in_session (t : Z) : bool :=
  if crosses_midnight
  then (start_min p <=? t)%Z || (t <? end_min p)%Z
  else (start_min p <=? t)%Z && (t <? end_min p)%Z.

(** "Detect session start (first bar at or after start_min)" *)
Definition session_start (r : row) (s : state) : state :=
  if (start_min p <=? time r)%Z && (time r <? start_min p + 5)%Z
     && negb (in_session s)
  then reset_session s else s.

Definition in_range_window (t : Z) : bool :=
  if crosses_midnight
  then
    if (start_min p <? range_end_min p)%Z
    then (start_min p <=? t)%Z && (t <? range_end_min p)%Z
    else (start_min p <=? t)%Z || (t <? range_end_min p)%Z
  else (start_min p <=? t)%Z && (t <? range_end_min p)%Z.

(** "Range Formation" body. *)
Definition form_range (r : row) (s : state) : state :=
  let '(rh, rl) :=
    if Qeqb (range_high s) (-1) then (high r, low r)
    else (if Qgtb (high r) (range_high s) then high r else range_high s,
          if Qltb (low r) (range_low s) then low r else range_low s) in
  State rh rl (traded_session s) (in_pos s)
        (entry_price s) (sl_price s) (tp_price s)
        (in_session s) (range_formed s) (broke_high s) (broke_low s).

Definition mark_formed (t : Z) (s : state) : state :=
  if negb (range_formed s) && negb (in_range_window t)
  then State (range_high s) (range_low s) (traded_session s) (in_pos s)
             (entry_price s) (sl_price s) (tp_price s)
             (in_session s) true (broke_high s) (broke_low s)
  else s.

(** "Hard exit at session_end" *)
Definition near_exit (t : Z) : bool :=
  if crosses_midnight
  then (t <? start_min p)%Z && (end_min p - 5 <=? t)%Z
  else (end_min p - 5 <=? t)%Z.

(** "Check exits first" *)
Definition check_exits (r : row) (s : state) : state :=
  if (in_pos s =? 0)%Z then s
  else if (in_pos s =? 1)%Z
  then if Qleb (low r) (sl_price s) then set_in_pos 0 s
       else if Qgeb (high r) (tp_price s) then set_in_pos 0 s
       else s
  else if (in_pos s =? -1)%Z
  then if Qgeb (high r) (sl_price s) then set_in_pos 0 s
       else if Qleb (low r) (tp_price s) then set_in_pos 0 s
       else s
  else s.

(** "Check entries (max 1 per session)" *)
Definition check_entries (r : row) (s : state) : state :=
  if (in_pos s =? 0)%Z && negb (traded_session s)
     && Qgtb (range_high s) (range_low s)
  then
    let cur_atr := atr r in
    if Qleb cur_atr 0 then s
    else
      let bh := if Qgtb (high r) (range_high s) then true else broke_high s in
      let bl := if Qltb (low r) (range_low s) then true else broke_low s in
      if bh && Qltb (close r) (range_high s) && Qltb (close r) (ema r)
      then State (range_high s) (range_low s) true (-1) (close r)
                 (close r + cur_atr * sl_mult p)
                 (close r - cur_atr * tp_mult p)
                 (in_session s) (range_formed s) false false
      else if bl && Qgtb (close r) (range_low s) && Qgtb (close r) (ema r)
      then State (range_high s) (range_low s) true 1 (close r)
                 (close r - cur_atr * sl_mult p)
                 (close r + cur_atr * tp_mult p)
                 (in_session s) (range_formed s) false false
      else State (range_high s) (range_low s) (traded_session s) (in_pos s)
                 (entry_price s) (sl_price s) (tp_price s)
                 (in_session s) (range_formed s) bh bl
  else s.

Definition leave_session (s : state) : state :=
  State (range_high s) (range_low s) (traded_session s) 0
        (entry_price s) (sl_price s) (tp_price s)
        false (range_formed s) (broke_high s) (broke_low s).

(** One iteration of the loop body: the new state and the value written
    to [signals[i]]. *)
Definition step (prev_day : Z) (r : row) (s : state) : state * Z :=
  let t := time r in
  let s1 := day_boundary prev_day r s in
  let s2 := session_start r s1 in
  if negb (bar_in_session t)
  then (leave_session s2, 0%Z)
  else if in_range_window t && negb (range_formed s2)
  then let s3 := form_range r s2 in (s3, in_pos s3)
  else
    let s3 := mark_formed t s2 in
    if range_formed s3 && bar_in_session t
    then
      if near_exit t
      then (set_in_pos 0 s3, 0%Z)
      else let s4 := check_entries r (check_exits r s3) in (s4, in_pos s4)
    else (s3, in_pos s3).

(** [trace[i]] is the state at the end of iteration [i] together with
    [signals[i]]; index 0 is not visited by the loop. *)
Definition trace (rows : list row) : list (state * Z) :=
  BarLoop.trace day_id step fst (init, 0%Z) rows.

Definition states (rows : list row) : list state := map fst (trace rows).

Definition _numba_overnight_logic (rows : list row) : list Z :=
  map snd (trace rows).
End Kernel.

End Overnight.

(** ** The complementarity scorer (nqmain_analyzer.py) *)

Module Scorer.

(** [datetime.time(hour, minute)] *)
Record dtime := Dtime { hour : nat; minute : nat }.

(** The constructor raises [ValueError] ([None]) outside 0..23 / 0..59. *)
Definition dtime_new (h m : Z) : option dtime :=
  if ((0 <=? h) && (h <=? 23) && (0 <=? m) && (m <=? 59))%Z
  then Some (Dtime (Z.to_nat h) (Z.to_nat m)) else None.

(** [t.hour * 60 + t.minute] *)
Definition minute_of_day (t : dtime) : nat := (hour t * 60 + minute t)%nat.

Definition window : Type := dtime * dtime.

(** The fields of [NQmainProfile] that the scorer reads. *)
Record NQmainProfile := Profile {
  rth_start : dtime;
  rth_end : dtime;
  overnight_start : dtime;
  overnight_end : dtime;
  gap_windows : list window
}.

(** [get_nqmain_profile()]: the dataclass defaults. *)
Definition get_nqmain_profile : NQmainProfile :=
  Profile (Dtime 9 30) (Dtime 15 45) (Dtime 18 5) (Dtime 9 25)
          [ (Dtime 15 45, Dtime 18 5);
            (Dtime 11 30, Dtime 13 30);
            (Dtime 9 25, Dtime 9 30) ].

Definition get_all_active_windows (pf : NQmainProfile) : list window :=
  [ (rth_start pf, rth_end pf); (overnight_start pf, overnight_end pf) ].

Definition ARCHETYPE_TIME_WINDOWS : list (string * window) :=
  [ ("orb_breakout", (Dtime 9 45, Dtime 15 45));
    ("orb_vwap", (Dtime 9 45, Dtime 15 45));
    ("orb_momentum", (Dtime 9 45, Dtime 15 45));
    ("ma_crossover", (Dtime 9 30, Dtime 15 45));
    ("eod_momentum", (Dtime 13 30, Dtime 15 45));
    ("lunch_hour_breakout", (Dtime 11 0, Dtime 13 30));
    ("gap_fill_fade", (Dtime 9 30, Dtime 11 0));
    ("es_gap_combo", (Dtime 9 30, Dtime 11 0));
    ("power_hour_momentum", (Dtime 14 0, Dtime 15 30));
    ("first_hour_fade", (Dtime 10 15, Dtime 11 30));
    ("lunch_range_fade", (Dtime 11 30, Dtime 13 30));
    ("overnight", (Dtime 18 0, Dtime 8 0)) ]%string.

Definition ARCHETYPE_REGIME : list (string * string) :=
  [ ("orb_breakout", "breakout");
    ("orb_vwap", "breakout");
    ("orb_momentum", "momentum");
    ("ma_crossover", "trend_following");
    ("eod_momentum", "momentum");
    ("lunch_hour_breakout", "breakout");
    ("gap_fill_fade", "mean_reversion");
    ("es_gap_combo", "mixed");
    ("power_hour_momentum", "momentum");
    ("first_hour_fade", "mean_reversion");
    ("lunch_range_fade", "mean_reversion");
    ("overnight", "mean_reversion") ]%string.

(** [d.get(k, dflt)] on a dictionary literal. *)
Fixpoint dict_get {A} (d : list (string * A)) (k : string) (dflt : A) : A :=
  match d with
  | [] => dflt
  | (k', v) :: rest => if String.eqb k' k then v else dict_get rest k dflt
  end.

(** The scalar values a parameter record can hold. *)
Inductive pyval :=
| PNone
| PBool (b : bool)
| PInt (z : Z)
| PFloat (q : Q)
| PStr (s : string).

(** Python truthiness. *)
Definition truthy (v : pyval) : bool :=
  match v with
  | PNone => false
  | PBool b => b
  | PInt z => negb (z =? 0)%Z
  | PFloat q => negb (Qeqb q 0)
  | PStr s => negb (String.eqb s EmptyString)
  end.

(** [a or b] *)
Definition py_or (a b : pyval) : pyval := if truthy a then a else b.

(** [params.get(k)] *)
Definition py_get (params : gmap string pyval) (k : string) : pyval :=
  default PNone (params !! k).

Fixpoint has_colon (s : string) : bool :=
  match s with
  | EmptyString => false
  | String c r => if Ascii.eqb c ":"%char then true else has_colon r
  end.

(** [s.split(':')] *)
Fixpoint split_colon (s : string) : list string :=
  match s with
  | EmptyString => [EmptyString]
  | String c r =>
      if Ascii.eqb c ":"%char then EmptyString :: split_colon r
      else match split_colon r with
           | [] => [String c EmptyString]
           | w :: ws => String c w :: ws
           end
  end.

(** [':' in str(v)]: the [str()] of [None], a bool, an int or a float
    holds no colon. *)
Definition str_has_colon (v : pyval) : bool :=
  match v with PStr s => has_colon s | _ => false end.

(** [str(v).split(':')], read only when [str_has_colon v]. *)
Definition str_split (v : pyval) : list string :=
  match v with PStr s => split_colon s | _ => [] end.

(** A decimal reading of [int(s)]: an optional sign and ASCII digits. *)
Definition digit_of (c : Ascii.ascii) : option Z :=
  let n := Z.of_nat (Ascii.nat_of_ascii c) in
  if ((48 <=? n) && (n <=? 57))%Z then Some (n - 48)%Z else None.

Fixpoint digits_from (acc : Z) (s : string) : option Z :=
  match s with
  | EmptyString => Some acc
  | String c r =>
      match digit_of c with
      | Some d => digits_from (acc * 10 + d)%Z r
      | None => None
      end
  end.

Definition decimal_int (s : string) : option Z :=
  match s with
  | EmptyString => None
  | String c r =>
      if Ascii.eqb c "-"%char then
        match r with EmptyString => None | _ => Z.opp <$> digits_from 0%Z r end
      else if Ascii.eqb c "+"%char then
        match r with EmptyString => None | _ => digits_from 0%Z r end
      else digits_from 0%Z s
  end.

(** [set(range(a, b))] *)
Definition range_set (a b : nat) : gset nat := set_seq a (b - a).

(** The inner function [window_to_minutes]. *)
Definition window_to_minutes (start_m end_m : nat) : gset nat :=
  if (end_m <? start_m)%nat
  then range_set start_m 1440 ∪ range_set 0 end_m
  else range_set start_m end_m.

(** The accumulation of [nq_minutes] over [nqmain_windows]. *)
Definition windows_minutes (ws : list window) : gset nat :=
  foldl (fun acc w =>
           acc ∪ window_to_minutes (minute_of_day (fst w)) (minute_of_day (snd w)))
        ∅ ws.

(** [compute_time_overlap(strategy_window, nqmain_windows)] *)
Definition compute_time_overlap (strategy_window : window)
    (nqmain_windows : option (list window)) : Q :=
  let nqmain_windows :=
    match nqmain_windows with
    | None => get_all_active_windows get_nqmain_profile
    | Some ws => ws
    end in
  let strat_start := minute_of_day (fst strategy_window) in
  let strat_end := minute_of_day (snd strategy_window) in
  let strat_duration : Z :=
    if (strat_end <? strat_start)%nat
    then ((1440 - Z.of_nat strat_start) + Z.of_nat strat_end)%Z
    else (Z.of_nat strat_end - Z.of_nat strat_start)%Z in
  if (strat_duration <=? 0)%Z then 0
  else
    let strat_minutes := window_to_minutes strat_start strat_end in
    let nq_minutes := windows_minutes nqmain_windows in
    let overlap_minutes := size (strat_minutes ∩ nq_minutes) in
    Qmin 1 (inject_Z (Z.of_nat overlap_minutes) / inject_Z strat_duration).

(** The gap-window test of [get_complementary_score]. *)
Definition gap_coverage_of (pf : NQmainProfile) (strat_start strat_end : nat) : bool :=
  if (strat_end <? strat_start)%nat
  then (strat_start <? 18 * 60 + 5)%nat
  else
    existsb (fun g =>
               let gs := minute_of_day (fst g) in
               let ge := minute_of_day (snd g) in
               if (ge <? gs)%nat
               then (gs <? strat_end)%nat || (strat_start <? ge)%nat
               else (strat_start <? ge)%nat && (gs <? strat_end)%nat)
            (gap_windows pf).

(** "Specifically covers lunch hour" *)
Definition covers_lunch (strat_start strat_end : nat) : bool :=
  (strat_start <=? 11 * 60 + 30)%nat && (13 * 60 + 30 <=? strat_end)%nat.

(** "Specifically covers post-close dead zone" *)
Definition covers_post_close (strat_start strat_end : nat) : bool :=
  (15 * 60 + 45 <=? strat_start)%nat && (strat_end <=? 18 * 60 + 5)%nat.

(** The returned dictionary (the formatted strings are left out). *)
Record score_result := ScoreResult {
  time_overlap : Q;
  regime_complement : bool;
  gap_coverage : bool;
  complementary_score : Q;
  strategy_window : window
}.

Section WithInt.
(** Python's built-in [int(s)] on a string; [None] is [ValueError]. *)
Variable py_int : string -> option Z.

(** [dtime(int(parts[0]), int(parts[1]))] *)
Definition parse_time (v : pyval) : option dtime :=
  match str_split v with
  | p0 :: p1 :: _ =>
      match py_int p0, py_int p1 with
      | Some h, Some m => dtime_new h m
      | _, _ => None
      end
  | _ => None
  end.

Definition get_strategy_time_window (archetype : string)
    (params : option (gmap string pyval)) : window :=
  let fallback :=
    dict_get ARCHETYPE_TIME_WINDOWS archetype (Dtime 9 30, Dtime 15 45) in
  match params with
  | None => fallback
  | Some ps =>
      if decide (ps = ∅) then fallback
      else
        let start_str :=
          py_or (py_or (py_or (py_get ps "session_start") (py_get ps "entry_time"))
                       (py_get ps "range_start")) (py_get ps "orb_start") in
        let end_str :=
          py_or (py_or (py_get ps "session_end") (py_get ps "exit_time"))
                (py_get ps "range_end") in
        if truthy start_str && str_has_colon start_str
        then
          match parse_time start_str with
          | None => fallback
          | Some start =>
              if truthy end_str && str_has_colon end_str
              then
                match parse_time end_str with
                | None => fallback
                | Some end_ => (start, end_)
                end
              else
                let end_h := (Z.of_nat (hour start) + 2)%Z in
                match dtime_new (Z.min end_h 15) 45 with
                | None => fallback
                | Some end_ => (start, end_)
                end
          end
        else fallback
  end.

Definition get_complementary_score (archetype : string)
    (params : option (gmap string pyval)) : score_result :=
  let profile := get_nqmain_profile in
  let window := get_strategy_time_window archetype params in
  let overlap :=
    compute_time_overlap window (Some (get_all_active_windows profile)) in
  let strat_regime := dict_get ARCHETYPE_REGIME archetype EmptyString in
  let regime_complement :=
    String.eqb strat_regime "mean_reversion"
    || String.eqb strat_regime "choppy_range" in
  let strat_start := minute_of_day (fst window) in
  let strat_end := minute_of_day (snd window) in
  let gap_coverage := gap_coverage_of profile strat_start strat_end in
  let score := 0 in
  let score := score + (1 - overlap) * 25 in
  let score := score + (if regime_complement then 35 else 0) in
  let score := score + (if gap_coverage then 20 else 0) in
  let score := score + (if Qltb overlap 0.5 then 10 else 0) in
  let score :=
    if covers_lunch strat_start strat_end then score + 5 else score in
  let score :=
    if covers_post_close strat_start strat_end then score + 5 else score in
  ScoreResult overlap regime_complement gap_coverage (Qmin 100 score) window.
End WithInt.

(** The score as the specification words it. *)
Definition bool_to_Q (b : bool) : Q := if b then 1 else 0.



End Scorer.

(** ** Daemon state persistence (marcus_daemon.py) *)

Module Daemon.

(** JSON values held in the state dictionary. *)
#[local] Unset Elimination Schemes.
Inductive json :=
| JNull
| JBool (b : bool)
| JInt (z : Z)
| JFloat (q : Q)
| JStr (s : string)
| JArr (l : list json)
| JObj (l : list (string * json)).
#[local] Set Elimination Schemes.

(** What [self.config.state_file] holds on disk. *)
Inductive file :=
| NoFile                              (* [os.path.exists] is false *)
| Unparsable                          (* [json.load] raises JSONDecodeError *)
| NonObject                           (* valid JSON, top level not an object *)
| Object (m : gmap string json).      (* a JSON object *)

(** The fields of the on-disk object, when there is one. *)
Definition file_field (f : file) (k : string) : option json :=
  match f with
  | Object m => m !! k
  | _ => None
  end.

(** The daemon: its in-memory [self._state] and the state file. *)
Record world := World {
  _state : gmap string json;
  disk : file
}.

(** [self._state] as set by [__init__]. *)
Definition initial_state : gmap string json :=
  <["last_cycle_at" := JNull]>
  (<["last_dashboard_at" := JNull]>
  (<["last_heartbeat_at" := JNull]>
  (<["total_cycles" := JInt 0]>
  (<["total_errors" := JInt 0]>
  (<["started_at" := JNull]>
  (<["paused" := JBool false]>
  (<["stopped" := JBool false]> ∅))))))).

(** [k not in ('paused', 'stopped')] *)
Definition is_control_flag (k : string) : bool :=
  String.eqb k "paused" || String.eqb k "stopped".

(** [{k: v for k, v in self._state.items() if k not in ('paused', 'stopped')}] *)
Definition daemon_metrics (st : gmap string json) : gmap string json :=
  filter (fun kv => is_control_flag (fst kv) = false) st.

(** [d.update(other)]: the entries of [other] win. *)
Definition dict_update (d other : gmap string json) : gmap string json :=
  other ∪ d.

(** [_save_state(force_flags)].  A [NonObject] file makes
    [existing.update] raise; the outer [except Exception] logs it and the
    file is left as it was. *)
Definition _save_state (force_flags : option (gmap string json)) (w : world)
  : world :=
  let existing : option (gmap string json) :=
    match disk w with
    | NoFile => Some ∅
    | Unparsable => Some ∅
    | Object m => Some m
    | NonObject => None
    end in
  match existing with
  | None => w
  | Some existing =>
      let existing := dict_update existing (daemon_metrics (_state w)) in
      let existing :=
        match force_flags with
        | Some ff => if decide (ff = ∅) then existing else dict_update existing ff
        | None => existing
        end in
      World (_state w) (Object existing)
  end.

(** [saved.get(k)] and [saved.get(k, dflt)] *)
Definition json_get (m : gmap string json) (k : string) (dflt : json) : json :=
  default dflt (m !! k).

(** The loop of [_load_state] over the dashboard-written keys. *)
Definition restore_keys (keys : list string) (saved st : gmap string json)
  : gmap string json :=
  foldl (fun acc k =>
           match saved !! k with
           | Some v => <[k := v]> acc
           | None => acc
           end) st keys.

(** [_load_state()].  Any exception leaves [self._state] as it was. *)
Definition _load_state (w : world) : world :=
  match disk w with
  | Object saved =>
      let st := _state w in
      let st := <["last_cycle_at" := json_get saved "last_cycle_at" JNull]> st in
      let st := <["last_dashboard_at" := json_get saved "last_dashboard_at" JNull]> st in
      let st := <["total_cycles" := json_get saved "total_cycles" (JInt 0)]> st in
      let st := <["total_errors" := json_get saved "total_errors" (JInt 0)]> st in
      let st := <["paused" := json_get saved "paused" (JBool false)]> st in
      let st := <["stopped" := json_get saved "stopped" (JBool false)]> st in
      let st :=
        restore_keys ["exploration_mode"; "active_objective"; "active_preset_id";
                      "guide_text"; "directive"]%string saved st in
      World st (disk w)
  | _ => w
  end.

Definition set_state (k : string) (v : json) (w : world) : world :=
  World (<[k := v]> (_state w)) (disk w).

(** [{'paused': False, 'stopped': False}] *)
Definition cleared_flags : gmap string json :=
  <["paused" := JBool false]> (<["stopped" := JBool false]> ∅).

(** The head of [start()], up to and including its call of [_save_state];
    [now] is [datetime.now().isoformat()]. *)
Definition start (now : string) (w : world) : world :=
  let w := set_state "started_at" (JStr now) w in
  let w := _load_state w in
  let w := set_state "paused" (JBool false) w in
  let w := set_state "stopped" (JBool false) w in
  _save_state (Some cleared_flags) w.

End Daemon.

(** ** Well-formed engine inputs, and a three-bar example *)

Module EngineExamples.
Import Engine.

(** The bar-table invariant of the data model, for the columns the engine
    reads, with positive prices. *)
Definition valid_bar (b : bar) : Prop :=
  0 < Low b /\ Low b <= Close b /\ Close b <= High b.

(** The inputs on which neither division of [run] meets a zero divisor, so
    that every float of the run is finite: a non-zero point value (the
    notional [safe_prices * point_value] is then non-zero) and no zero close
    ([pct_change] divides by the previous close). *)
Definition finite_run (E : config) (df : list bar) : Prop :=
  ~ point_value E == 0 /\ Forall (fun b => ~ Close b == 0) df.

Definition valid_signal (z : Z) : Prop := z = (-1)%Z \/ z = 0%Z \/ z = 1%Z.

Definition sane_config (E : config) : Prop :=
  0 < initial_capital E /\ 0 <= commission_per_unit E
  /\ 0 <= slippage_per_unit E /\ 0 <= volatility_factor E /\ 0 < point_value E.

(** The invariant of a backtest result as the data model words it:
    the curve starts at the initial capital, never goes below zero, and
    stays at zero once it is there. *)
Definition equity_invariant (E : config) (df : list bar) (signals : list Z) : Prop :=
  let equity := Series.at_ (equity_curve E df signals) in
  ((0 < length df)%nat -> equity 0%nat == initial_capital E)
  /\ (forall i, (i < length df)%nat -> 0 <= equity i)
  /\ (forall i j, (i <= j)%nat -> (j < length df)%nat ->
                  equity i == 0 -> equity j == 0).

(** A short position held while the close triples. *)
Definition squeeze_bars : list bar :=
  [ Bar 100 101 99; Bar 100 101 99; Bar 300 301 99 ].

Definition squeeze_signals : list Z := [ (-1)%Z; (-1)%Z; 0%Z ].

(** A long, a flat and a short bar at ordinary prices. *)
Definition sample_bars : list bar :=
  [ Bar 20000 20010 19990; Bar 20020 20030 20000; Bar 20010 20040 20005 ].

Definition sample_signals : list Z := [ 1%Z; 0%Z; (-1)%Z ].

End EngineExamples.

(** ** Predicates on kernel states and signals used in the statements *)

Module KernelProps.

(** The position flag is one of -1, 0, 1, and a position is only held
    after the day's single trade has been taken. *)
Definition orb_inv (s : ORB.state) : Prop :=
  (ORB.in_pos s = 0%Z \/ ORB.in_pos s = 1%Z \/ ORB.in_pos s = (-1)%Z)
  /\ (ORB.in_pos s <> 0%Z -> ORB.traded_today s = true).

(** [signals] goes from flat at [j - 1] to non-flat at [j]. *)
Definition is_entry (signals : list Z) (j : nat) : bool :=
  match j with
  | O => false
  | S i =>
      match signals !! i, signals !! j with
      | Some a, Some b => (a =? 0)%Z && negb (b =? 0)%Z
      | _, _ => false
      end
  end.

(** The bars [a..b] exist and share one calendar-day ordinal. *)
Definition same_day_run {R} (day : R -> Z) (rows : list R) (a b : nat) : Prop :=
  (a <= b)%nat /\ (b < length rows)%nat
  /\ forall j r ra, (a <= j)%nat -> (j <= b)%nat ->
                    rows !! j = Some r -> rows !! a = Some ra -> day r = day ra.

(** Bar [r] lies in the ORB trade window [orb_end, 15:45). *)
Definition in_trade_window (p : ORB.params) (r : ORB.row) : Prop :=
  (ORB.end_min p <= ORB.time r)%Z /\ (ORB.time r < ORB.exit_min p)%Z.

End KernelProps.

(** ** ORB: the default parameters and a one-day example *)

Module ORBExamples.
Import ORB.

(** The defaults of [VectorizedNQORB.__init__]: range 09:30-09:45, exit
    15:45, no optional filter, fixed target. *)
Definition default_params : params :=
  Params 570 585 945 2.5 2 4 false false 1.5 false 0.5 false 20 false 3.

(** The same with [use_trailing_stop=True]. *)
Definition trailing_params : params :=
  Params 570 585 945 2.5 2 4 false false 1.5 false 0.5 false 20 true 3.

(** A 5-minute bar of day 1 with EMA 100 and ATR 1; the columns of the
    disabled filters are zero. *)
Definition bar5 (t : Z) (c h l : Q) : row := Row 1 t c h l 100 1 0 0 0 0.

(** The range forms at 100.5 / 99.5, the 09:45 bar closes above it (long at
    101, stop 99, target 105), and the 09:50 bar spans both the stop and
    the target before closing at 104. *)
Definition stop_first_rows : list row :=
  [ bar5 570 100 100.5 99.5;
    bar5 575 100 100.5 99.5;
    bar5 580 100 100.5 99.5;
    bar5 585 101 101.2 100;
    bar5 590 104 106 98;
    bar5 595 104 104.5 103.5 ].

(** The state at the end of iteration [i] of the example. *)
Definition state_at (p : params) (i : nat) : state :=
  default init (states p stop_first_rows !! i).

(** The stop-first scenario as the specification words it: on a bar that
    spans both the stop and the fixed target of a held long, the trade is
    closed, filled at the stop price, and booked as a loss. *)
Definition stop_first_loss_claim : Prop :=
  forall (E : Engine.config) (p : params) (rows : list row)
         (i : nat) (rp r : row) (s : state),
    EngineExamples.sane_config E ->
    use_ts p = false ->
    rows !! i = Some rp -> rows !! S i = Some r ->
    day_id r = day_id rp ->
    KernelProps.in_trade_window p r ->
    states p rows !! i = Some s ->
    in_pos s = 1%Z ->
    low r <= sl_price s -> tp_price s <= high r ->
    let res := backtest E p rows in
    Engine.r_signals res !! S i = Some 0%Z
    /\ Series.at_ (Engine.strat_returns (map bar_of_row rows)
                                        (Engine.r_signals res)) (S i)
       == sl_price s / close rp - 1
    /\ Series.at_ (Engine.r_returns res) (S i) < 0.

End ORBExamples.

(** ** Overnight kernel: exits, the default parameters and an example *)

Module OvernightExamples.
Import Overnight.

(** The defaults of [VectorizedOvernight.__init__]: session 18:00-08:00,
    60 minutes of range formation, stop 2 ATR, target 3 ATR. *)
Definition default_params : params := Params 1080 480 1140 2 3.

(** A stop-loss, take-profit or session-end exit fires on bar [r] for the
    position held in [s]. *)
Definition exit_fires (p : params) (s : state) (r : row) : bool :=
  negb (bar_in_session p (time r))
  || near_exit p (time r)
  || ((in_pos s =? 1)%Z
      && (Qleb (low r) (sl_price s) || Qgeb (high r) (tp_price s)))
  || ((in_pos s =? -1)%Z
      && (Qgeb (high r) (sl_price s) || Qleb (low r) (tp_price s))).

(** The session-across-midnight property as the specification words it: a
    position open on the last bar before midnight is still open on the
    first bar after it unless an exit fires on that bar. *)
Definition midnight_carry_claim : Prop :=
  forall (p : params) (rows : list row) (i : nat) (rp r : row) (s : state),
    crosses_midnight p = true ->
    rows !! i = Some rp -> rows !! S i = Some r ->
    day_id r <> day_id rp ->
    states p rows !! i = Some s ->
    in_pos s <> 0%Z ->
    exit_fires p s r = false ->
    _numba_overnight_logic p rows !! S i = Some (in_pos s).

(** A 30-minute bar with EMA 99 and ATR 1. *)
Definition bar30 (d t : Z) (c h l : Q) : row := Row d t c h l 99 1.

(** A quiet bar inside the range. *)
Definition quiet (d t : Z) : row := bar30 d t 100 100.3 99.7.

(** Evening of day 1 into day 2: the range 100.5 / 99.5 forms from 18:00,
    the 19:00 bar dips to 99 and closes back at 99.8 (long fade, stop 97.8,
    target 102.8), and every later bar is quiet. *)
Definition midnight_rows : list row :=
  [ quiet 1 1050;
    bar30 1 1080 100 100.5 99.5;
    bar30 1 1110 100 100.5 99.5;
    bar30 1 1140 99.8 100.2 99;
    quiet 1 1170; quiet 1 1200; quiet 1 1230; quiet 1 1260; quiet 1 1290;
    quiet 1 1320; quiet 1 1350; quiet 1 1380; quiet 1 1410;
    quiet 2 0; quiet 2 30 ].

Definition state_at (i : nat) : state :=
  default init (states default_params midnight_rows !! i).

End OvernightExamples.

(** ** Scorer: well-formed windows and the reference minutes *)

Module ScorerProps.
Import Scorer.

(** What [datetime.time] guarantees of its fields. *)
Definition valid_time (t : dtime) : Prop := (hour t <= 23)%nat /\ (minute t <= 59)%nat.

Definition valid_window (w : window) : Prop := valid_time (fst w) /\ valid_time (snd w).

(** The union of the active minutes of the reference portfolio. *)
Definition reference_minutes : gset nat :=
  windows_minutes (get_all_active_windows get_nqmain_profile).

(** The minutes covered by a window. *)
Definition minutes_of (w : window) : gset nat :=
  window_to_minutes (minute_of_day (fst w)) (minute_of_day (snd w)).

(** *** The algorithm as the specification words it, on minute sets *)









End ScorerProps.

(** ** Daemon: an example state file *)

Module DaemonExamples.
Import Daemon.

(** A state file in which the dashboard has set the pause flag and left a
    directive. *)
Definition paused_file : file :=
  Object (<["paused" := JBool true]>
          (<["stopped" := JBool false]>
          (<["total_cycles" := JInt 7]>
          (<["directive" := JStr "focus on lunch hour"]> ∅)))).

(** The daemon after seven cycles, next to that file. *)
Definition running : world :=
  World (<["total_cycles" := JInt 8]> initial_state) paused_file.

End DaemonExamples.

(** ** [VectorizedMA.generate_signals]: the moving-average crossover *)

Module VectorizedMA.

(** The sum of a window of closes. *)
Definition window_sum (s : list Q) : Q := foldr Qplus 0 s.

(** [s.rolling(window=w).mean()]: missing until [w] observations are in,
    then the mean of the last [w]; an empty window has no mean. *)
Definition rolling_mean (w : nat) (s : list Q) : list (option Q) :=
  map (fun i =>
         if (w =? 0)%nat || (S i <? w)%nat then None
         else Some (window_sum (take w (drop (S i - w) s))
                    / inject_Z (Z.of_nat w)))
      (seq 0 (length s)).

(** A comparison with a missing value is false. *)
Definition gt_opt (a b : option Q) : bool :=
  match a, b with Some x, Some y => Qgtb x y | _, _ => false end.

Definition lt_opt (a b : option Q) : bool :=
  match a, b with Some x, Some y => Qltb x y | _, _ => false end.

(** The three masked assignments on [signals = Series(0)], at one index. *)
Definition signal_of (short_ma long_ma : option Q) : Z :=
  let v := 0%Z in
  let v := if gt_opt short_ma long_ma then 1%Z else v in
  let v := if lt_opt short_ma long_ma then (-1)%Z else v in
  match long_ma with None => 0%Z | Some _ => v end.

Definition generate_signals (short_window long_window : nat) (df : list Engine.bar)
  : list Z :=
  let close := map Engine.Close df in
  let short_ma := rolling_mean short_window close in
  let long_ma := rolling_mean long_window close in
  zip_with signal_of short_ma long_ma.

(** [VectorEngine(VectorizedMA(short, long)).run(df)] *)
Definition backtest (E : Engine.config) (short_window long_window : nat)
    (df : list Engine.bar) : Engine.result :=
  Engine.run E df (generate_signals short_window long_window df).

End VectorizedMA.

(** ** [VectorizedOvernight.generate_signals]: the end of range formation *)

Module OvernightSetup.

(** [range_end_min = start_min + range_minutes], wrapped once past
    midnight. *)
Definition range_end_min (start_min range_minutes : Z) : Z :=
  let r := (start_min + range_minutes)%Z in
  if (1440 <=? r)%Z then (r - 1440)%Z else r.

(** The kernel parameters the strategy object passes down. *)
Definition kernel_params (start_min end_min range_minutes : Z) (sl tp : Q)
  : Overnight.params :=
  Overnight.Params start_min end_min (range_end_min start_min range_minutes) sl tp.

End OvernightSetup.

(** ** The methods of [NQmainProfile] *)

Module ProfileMethods.
Import Scorer.

(** [get_active_minutes]: RTH length plus the overnight length, the latter
    computed as a window across midnight. *)
Definition get_active_minutes (pf : NQmainProfile) : Z :=
  let rth := (Z.of_nat (minute_of_day (rth_end pf))
              - Z.of_nat (minute_of_day (rth_start pf)))%Z in
  let on_start := Z.of_nat (minute_of_day (overnight_start pf)) in
  let on_end := Z.of_nat (minute_of_day (overnight_end pf)) in
  let overnight := ((1440 - on_start) + on_end)%Z in
  (rth + overnight)%Z.

(** [get_gap_minutes] *)
Definition get_gap_minutes (pf : NQmainProfile) : Z :=
  foldl (fun total g =>
           let s := Z.of_nat (minute_of_day (fst g)) in
           let e := Z.of_nat (minute_of_day (snd g)) in
           if (e <? s)%Z then (total + ((1440 - s) + e))%Z
           else (total + (e - s))%Z)
        0%Z (gap_windows pf).

(** [get_rth_windows] *)
Definition get_rth_windows (pf : NQmainProfile) : list window :=
  [ (rth_start pf, rth_end pf) ].

End ProfileMethods.

(** ** The daemon's control surface: [stop], [_check_control_flags], the
    schedule checks *)

Module DaemonControl.
Import Daemon.

(** Python truthiness of a value read by [json.load]. *)
Definition json_truthy (v : json) : bool :=
  match v with
  | JNull => false
  | JBool b => b
  | JInt z => negb (z =? 0)%Z
  | JFloat q => negb (Qeqb q 0)
  | JStr s => negb (String.eqb s EmptyString)
  | JArr l => match l with [] => false | _ => true end
  | JObj l => match l with [] => false | _ => true end
  end.

(** The daemon object: the [_running] flag next to its state and file. *)
Record daemon := Daemon {
  _running : bool;
  world_of : world
}.

(** [{'stopped': True, 'paused': False}] *)
Definition stop_flags : gmap string json :=
  <["stopped" := JBool true]> (<["paused" := JBool false]> ∅).

(** The head of [stop()], up to and including its call of [_save_state]. *)
Definition stop (d : daemon) : daemon :=
  let w := world_of d in
  let w := set_state "stopped" (JBool true) w in
  let w := set_state "paused" (JBool false) w in
  Daemon false (_save_state (Some stop_flags) w).

(** [_check_control_flags()].  A missing file is skipped and a
    [JSONDecodeError] is swallowed; on a file whose JSON is not an object
    [saved.get] raises [AttributeError], which this method does not catch
    ([None]). *)
Definition _check_control_flags (d : daemon) : option daemon :=
  let w := world_of d in
  match disk w with
  | NoFile => Some d
  | Unparsable => Some d
  | NonObject => None
  | Object saved =>
      if json_truthy (json_get saved "stopped" (JBool false))
      then Some (Daemon false w)
      else
        let now_paused := json_get saved "paused" (JBool false) in
        let st := <["paused" := now_paused]> (_state w) in
        let st :=
          restore_keys ["guide_text"; "directive"; "exploration_mode";
                        "active_objective"; "active_preset_id"]%string saved st in
        Some (Daemon (_running d) (World st (disk w)))
  end.

(** [self._state.get('paused')] as the main loop tests it. *)
Definition is_paused (d : daemon) : bool :=
  json_truthy (json_get (_state (world_of d)) "paused" JNull).

Section Schedule.
(** [datetime.fromisoformat] on a string, as seconds on the clock [now] is
    read from; [None] is a string that raises [ValueError], or one whose
    datetime cannot be subtracted from [now] ([TypeError]). *)
Variable fromisoformat : string -> option Q.
(** [datetime.isoformat] *)
Variable isoformat : Q -> string.

(** The common body of [_should_run_cycle], [_should_refresh_dashboard] and
    [_should_heartbeat]: [key] is the timestamp read, [interval] the
    configured minutes. *)
Definition _should (key : string) (interval : Q) (now : Q)
    (st : gmap string json) : bool :=
  match st !! key with
  | None => true
  | Some JNull => true
  | Some (JStr last) =>
      match fromisoformat last with
      | Some last_dt =>
          let elapsed_min := (now - last_dt) / 60 in
          Qgeb elapsed_min interval
      | None => true
      end
  | Some _ => true
  end.

Definition _should_run_cycle := _should "last_cycle_at".
Definition _should_refresh_dashboard := _should "last_dashboard_at".
Definition _should_heartbeat := _should "last_heartbeat_at".

(** [_heartbeat()]: the timestamp write ([log_heartbeat] only logs). *)
Definition _heartbeat (now : Q) (w : world) : world :=
  set_state "last_heartbeat_at" (JStr (isoformat now)) w.
End Schedule.

End DaemonControl.

(** ** Sessions of the overnight kernel *)

Module OvernightProps.
Import Overnight.

(** The bar [r] starts a new session: one of the two places of the loop body
    that clear the range and the traded flag is reached. *)
Definition resets (p : params) (prev_day : Z) (r : row) (s : state) : bool :=
  (negb (day_id r =? prev_day)%Z && (start_min p <=? time r)%Z)
  || ((start_min p <=? time r)%Z && (time r <? start_min p + 5)%Z
      && negb (in_session (day_boundary p prev_day r s))).

(** The bars [a..b] exist and none after [a] starts a new session. *)
Definition session_run (p : params) (rows : list row) (a b : nat) : Prop :=
  (a <= b)%nat /\ (b < length rows)%nat
  /\ forall j rp r s, (a <= j)%nat -> (j < b)%nat ->
       rows !! j = Some rp -> rows !! S j = Some r ->
       states p rows !! j = Some s ->
       resets p (day_id rp) r s = false.

End OvernightProps.

(** ** The loops of the profile methods from any starting value *)

Module ProfileProps.
Import Scorer.

(** The accumulation of [nq_minutes] from any starting set. *)
Definition minutes_from (acc : gset nat) (ws : list window) : gset nat :=
  foldl (fun acc w =>
           acc ∪ window_to_minutes (minute_of_day (fst w)) (minute_of_day (snd w)))
        acc ws.

(** The loop of [get_gap_minutes] from any starting total. *)
Definition gap_total_from (total : Z) (ws : list window) : Z :=
  foldl (fun total g =>
           let s := Z.of_nat (minute_of_day (fst g)) in
           let e := Z.of_nat (minute_of_day (snd g)) in
           if (e <? s)%Z then (total + ((1440 - s) + e))%Z
           else (total + (e - s))%Z)
        total ws.

End ProfileProps.

(** ** The defaults of [_load_state] *)

Module DaemonProps.
Import Daemon.

(** The default of [saved.get] for each of the four counters and timestamps
    that [_load_state] reads back. *)
Definition restored_default (k : string) : json :=
  if String.eqb k "total_cycles" || String.eqb k "total_errors"
  then JInt 0 else JNull.

End DaemonProps.

(** ** Example inputs for the further properties *)

Module MoreExamples.

(** Five bars with a close of zero in the middle. *)
Definition gappy_bars : list Engine.bar :=
  [ Engine.Bar 0 0 0; Engine.Bar 50 51 49; Engine.Bar 0 0 0;
    Engine.Bar 0 0 0; Engine.Bar 52 53 51 ].

(** Six rising bars for a 2 / 3 crossover. *)
Definition rising_bars : list Engine.bar :=
  [ Engine.Bar 10 11 9; Engine.Bar 11 12 10; Engine.Bar 12 13 11;
    Engine.Bar 14 15 13; Engine.Bar 13 14 12; Engine.Bar 9 10 8 ].

End MoreExamples.

(** ** More kernel inputs *)

Module KernelExamples.

(** The ORB example with the ATR still in its warm-up (filled with 0). *)
Definition no_atr_rows : list ORB.row :=
  map (fun r => ORB.Row (ORB.day_id r) (ORB.time r) (ORB.close r) (ORB.high r)
                        (ORB.low r) (ORB.ema r) 0 0 0 0 0)
      ORBExamples.stop_first_rows.

(** The morning after the overnight example: quiet bars up to the exit and
    the first bar outside the session. *)
Definition morning_rows : list Overnight.row :=
  OvernightExamples.midnight_rows
  ++ [ OvernightExamples.quiet 2 450; OvernightExamples.quiet 2 475;
       OvernightExamples.quiet 2 480 ].

End KernelExamples.

(** ** A clock for the schedule checks *)

Module ClockExample.

(** The instant of the example's heartbeat, second 0 of the clock, as
    [isoformat] prints it. *)
Definition stamp : string := "2026-01-05T09:30:00".

(** [isoformat] and [fromisoformat] restricted to that one instant. *)
Definition isoformat (t : Q) : string := stamp.

Definition fromisoformat (s : string) : option Q :=
  if String.eqb s stamp then Some 0 else None.

(** A daemon polling the example file. *)
Definition polling : DaemonControl.daemon :=
  DaemonControl.Daemon true DaemonExamples.running.

End ClockExample.

(** ** A directive replaced between a poll and a save *)

Module StaleSettings.
Import Daemon DaemonControl.

(** [self._state] of the example daemon after one poll of the example
    file: the poll has copied the file's directive. *)
Definition polled_state : gmap string json :=
  match _check_control_flags ClockExample.polling with
  | Some d => _state (world_of d)
  | None => ∅
  end.

(** The dashboard then replaces the directive in the file. *)
Definition edited_file : file :=
  match DaemonExamples.paused_file with
  | Object m => Object (<["directive" := JStr "focus on the open"]> m)
  | f => f
  end.

(** The daemon at its next periodic save. *)
Definition at_save : world := World polled_state edited_file.

End StaleSettings.

(** * Facts *)

(** ** Boolean comparisons reflect the order on [Q] *)

Lemma Qleb_le x y : Qleb x y = true <-> x <= y.
Proof. apply Qle_bool_iff. Qed.

Lemma Qgeb_ge x y : Qgeb x y = true <-> y <= x.
Proof. apply Qle_bool_iff. Qed.

Lemma Qltb_lt x y : Qltb x y = true <-> x < y.
Proof.
  unfold Qltb. rewrite negb_true_iff. split.
  - intros H. apply Qnot_le_lt. intros Hle.
    apply Qle_bool_iff in Hle. congruence.
  - intros H. destruct (Qle_bool y x) eqn:E; [|reflexivity].
    apply Qle_bool_iff in E. exfalso. apply (Qlt_not_le _ _ H E).
Qed.

Lemma Qgtb_gt x y : Qgtb x y = true <-> y < x.
Proof. apply Qltb_lt. Qed.

Lemma Qgtb_false x y : Qgtb x y = false <-> x <= y.
Proof.
  unfold Qgtb. rewrite negb_false_iff. apply Qle_bool_iff.
Qed.

Lemma Qleb_false x y : Qleb x y = false <-> y < x.
Proof.
  unfold Qleb. split.
  - intros H. apply Qnot_le_lt. intros Hle. apply Qle_bool_iff in Hle. congruence.
  - intros H. destruct (Qle_bool x y) eqn:E; [|reflexivity].
    apply Qle_bool_iff in E. exfalso. apply (Qlt_not_le _ _ H E).
Qed.

Lemma Qeqb_eq x y : Qeqb x y = true <-> x == y.
Proof. apply Qeq_bool_iff. Qed.

Lemma Qeqb_neq x y : Qeqb x y = false <-> ~ x == y.
Proof.
  unfold Qeqb. split.
  - intros H E. apply Qeq_bool_iff in E. congruence.
  - intros H. destruct (Qeq_bool x y) eqn:E; [|reflexivity].
    apply Qeq_bool_iff in E. contradiction.
Qed.

(** ** Index-wise reading of the Series operations *)

Section SeriesFacts.
Import Series.

Lemma length_shift1 {A} (s : list A) : length (shift1 s) = length s.
Proof.
  unfold shift1. rewrite length_take. cbn [length]. rewrite length_map. lia.
Qed.

Lemma shift1_lookup_0 {A} (s : list A) x :
  s !! 0%nat = Some x -> shift1 s !! 0%nat = Some None.
Proof.
  intros H. unfold shift1. destruct s as [|y s]; [discriminate|]. reflexivity.
Qed.

Lemma shift1_lookup_S {A} (s : list A) i x :
  s !! S i = Some x -> shift1 s !! S i = Some (s !! i).
Proof.
  intros H. unfold shift1.
  assert (Hlt : (S i < length s)%nat) by (eapply lookup_lt_Some; eauto).
  rewrite lookup_take_lt by exact Hlt.
  change ((None :: map Some s) !! S i) with ((Some <$> s) !! i).
  rewrite list_lookup_fmap.
  destruct (s !! i) eqn:E; [reflexivity|].
  apply lookup_ge_None in E. lia.
Qed.

Lemma length_fillna {A} (d : A) s : length (fillna d s) = length s.
Proof. unfold fillna. apply length_map. Qed.

Lemma fillna_lookup {A} (d : A) s i :
  fillna d s !! i = default d <$> s !! i.
Proof. unfold fillna. apply (list_lookup_fmap (default d)). Qed.

Lemma length_pct_change s : length (pct_change s) = length s.
Proof.
  unfold pct_change. rewrite length_zip_with, length_shift1. lia.
Qed.

Lemma length_diff s : length (diff s) = length s.
Proof.
  unfold diff. rewrite length_zip_with, length_shift1. lia.
Qed.

Lemma diff_lookup_0 s x : s !! 0%nat = Some x -> diff s !! 0%nat = Some None.
Proof.
  intros H. unfold diff. rewrite lookup_zip_with, H.
  rewrite (shift1_lookup_0 s x H). reflexivity.
Qed.

Lemma diff_lookup_S s i x y :
  s !! S i = Some x -> s !! i = Some y -> diff s !! S i = Some (Some (x - y)).
Proof.
  intros Hx Hy. unfold diff. rewrite lookup_zip_with, Hx.
  rewrite (shift1_lookup_S s i x Hx), Hy. reflexivity.
Qed.

Lemma pct_change_lookup_0 s x :
  s !! 0%nat = Some x -> pct_change s !! 0%nat = Some None.
Proof.
  intros H. unfold pct_change. rewrite lookup_zip_with, H.
  rewrite (shift1_lookup_0 s x H). reflexivity.
Qed.

Lemma pct_change_lookup_S s i x y :
  s !! S i = Some x -> s !! i = Some y ->
  pct_change s !! S i = Some (Some (x / y - 1)).
Proof.
  intros Hx Hy. unfold pct_change. rewrite lookup_zip_with, Hx.
  rewrite (shift1_lookup_S s i x Hx), Hy. reflexivity.
Qed.

(** After [ffill], an entry that was present is unchanged. *)
Lemma ffill_from_lookup_Some {A} (s : list (option A)) last i v :
  s !! i = Some (Some v) -> ffill_from last s !! i = Some (Some v).
Proof.
  revert last i. induction s as [|x r IH]; intros last i H; [discriminate|].
  destruct i as [|i]; cbn in *.
  - injection H as ->. reflexivity.
  - apply IH. exact H.
Qed.

Lemma length_ffill_from {A} (s : list (option A)) last :
  length (ffill_from last s) = length s.
Proof.
  revert last. induction s as [|x r IH]; intros last; cbn; [reflexivity|].
  f_equal. apply IH.
Qed.

Lemma length_cumprod_from acc s : length (cumprod_from acc s) = length s.
Proof.
  revert acc. induction s as [|x r IH]; intros acc; cbn; [reflexivity|].
  f_equal. apply IH.
Qed.

Lemma length_cumprod s : length (cumprod s) = length s.
Proof.
  destruct s; cbn; [reflexivity|]. f_equal. apply length_cumprod_from.
Qed.

Lemma at_Some s i x : s !! i = Some x -> at_ s i = x.
Proof. intros H. unfold at_. rewrite H. reflexivity. Qed.
End SeriesFacts.

(** ** The engine, bar by bar *)

Section EngineFacts.
Import Series Engine.
Variable E : config.
Variable df : list bar.
Variable signals : list Z.

Lemma pos_lookup_0 z : signals !! 0%nat = Some z -> pos signals !! 0%nat = Some 0.
Proof.
  intros H. unfold pos. rewrite fillna_lookup.
  assert (H' : map inject_Z signals !! 0%nat = Some (inject_Z z)).
  { change (map inject_Z signals) with (inject_Z <$> signals).
    rewrite list_lookup_fmap, H. reflexivity. }
  rewrite (shift1_lookup_0 _ _ H'). reflexivity.
Qed.

Lemma pos_lookup_S i z y :
  signals !! S i = Some z -> signals !! i = Some y ->
  pos signals !! S i = Some (inject_Z y).
Proof.
  intros Hz Hy. unfold pos. rewrite fillna_lookup.
  assert (H' : map inject_Z signals !! S i = Some (inject_Z z)).
  { change (map inject_Z signals) with (inject_Z <$> signals).
    rewrite list_lookup_fmap, Hz. reflexivity. }
  rewrite (shift1_lookup_S _ _ _ H').
  change (map inject_Z signals) with (inject_Z <$> signals).
  rewrite list_lookup_fmap, Hy. reflexivity.
Qed.

Lemma length_pos : length (pos signals) = length signals.
Proof.
  unfold pos. rewrite length_fillna, length_shift1. apply length_map.
Qed.

Lemma pos_lookup_spec i z :
  signals !! i = Some z -> pos signals !! i = Some (spec_position signals i).
Proof.
  intros H. destruct i as [|j].
  - rewrite (pos_lookup_0 z H). reflexivity.
  - destruct (signals !! j) as [y|] eqn:Hy.
    + rewrite (pos_lookup_S j z y H Hy). cbn. rewrite Hy. reflexivity.
    + apply lookup_ge_None in Hy. apply lookup_lt_Some in H. lia.
Qed.

Lemma turnover_lookup_0 z :
  signals !! 0%nat = Some z -> turnover signals !! 0%nat = Some 0.
Proof.
  intros H. unfold turnover, abs. rewrite fillna_lookup.
  change (map (fmap Qabs) (diff (pos signals)))
    with (fmap (M:=list) (fmap Qabs) (diff (pos signals))).
  rewrite list_lookup_fmap.
  rewrite (diff_lookup_0 _ _ (pos_lookup_0 z H)). reflexivity.
Qed.

Lemma turnover_lookup_S i z :
  signals !! S i = Some z ->
  turnover signals !! S i
  = Some (Qabs (spec_position signals (S i) - spec_position signals i)).
Proof.
  intros H. unfold turnover, abs. rewrite fillna_lookup.
  change (map (fmap Qabs) (diff (pos signals)))
    with (fmap (M:=list) (fmap Qabs) (diff (pos signals))).
  rewrite list_lookup_fmap.
  destruct (signals !! i) as [y|] eqn:Hy.
  - rewrite (diff_lookup_S _ i _ _ (pos_lookup_spec _ _ H) (pos_lookup_spec _ _ Hy)).
    reflexivity.
  - apply lookup_ge_None in Hy. apply lookup_lt_Some in H. lia.
Qed.

Lemma safe_prices_lookup i b :
  df !! i = Some b -> ~ Close b == 0 -> safe_prices df !! i = Some (Close b).
Proof.
  intros Hb Hnz. unfold safe_prices, ffill. rewrite fillna_lookup.
  rewrite (ffill_from_lookup_Some _ None i (Close b)); [reflexivity|].
  unfold replace0_nan, prices.
  change (map ?f (map Close df)) with (f <$> (Close <$> df)).
  rewrite !list_lookup_fmap, Hb. cbn.
  apply Qeqb_neq in Hnz. rewrite Hnz. reflexivity.
Qed.

Lemma cost_pct_lookup i b :
  df !! i = Some b -> ~ Close b == 0 ->
  cost_pct E df !! i
  = Some ((commission_per_unit E + slippage_per_unit E
           + Qabs (High b - Low b) * volatility_factor E)
          / (Close b * point_value E)).
Proof.
  intros Hb Hnz. unfold cost_pct, div. rewrite lookup_zip_with.
  unfold total_cost_dollars, vol_slippage, volatility, notional, sub, highs, lows.
  change (map ?f ?l) with (f <$> l).
  rewrite !list_lookup_fmap, lookup_zip_with, !list_lookup_fmap, Hb.
  rewrite (safe_prices_lookup i b Hb Hnz). reflexivity.
Qed.

Lemma returns_lookup_0 b : df !! 0%nat = Some b -> returns df !! 0%nat = Some 0.
Proof.
  intros H. unfold returns. rewrite fillna_lookup.
  rewrite (pct_change_lookup_0 _ (Close b)); [reflexivity|].
  unfold prices. change (map Close df) with (Close <$> df).
  rewrite list_lookup_fmap, H. reflexivity.
Qed.

Lemma returns_lookup_S i b b' :
  df !! S i = Some b -> df !! i = Some b' ->
  returns df !! S i = Some (Close b / Close b' - 1).
Proof.
  intros H H'. unfold returns. rewrite fillna_lookup.
  rewrite (pct_change_lookup_S _ i (Close b) (Close b')); [reflexivity| |];
    unfold prices; change (map Close df) with (Close <$> df);
    rewrite list_lookup_fmap; [rewrite H|rewrite H']; reflexivity.
Qed.

Lemma length_returns : length (returns df) = length df.
Proof.
  unfold returns, prices. rewrite length_fillna, length_pct_change.
  apply length_map.
Qed.

Lemma length_turnover : length (turnover signals) = length signals.
Proof.
  unfold turnover, abs. rewrite length_fillna, length_map, length_diff.
  apply length_pos.
Qed.

Lemma length_cost_pct : length (cost_pct E df) = length df.
Proof.
  unfold cost_pct, div, total_cost_dollars, vol_slippage, volatility, notional,
    sub, safe_prices, ffill, replace0_nan, highs, lows, prices.
  rewrite length_zip_with, !length_map, length_zip_with, !length_map.
  rewrite length_fillna, length_ffill_from, !length_map. lia.
Qed.

Lemma length_net_returns :
  length signals = length df -> length (net_returns E df signals) = length df.
Proof.
  intros Hlen. unfold net_returns, strat_returns, transaction_costs, sub, mul.
  rewrite !length_zip_with, length_pos, length_returns, length_turnover,
    length_cost_pct. lia.
Qed.

Lemma length_equity_curve :
  length signals = length df -> length (equity_curve E df signals) = length df.
Proof.
  intros Hlen. unfold equity_curve.
  rewrite length_map, length_cumprod, length_map. apply length_net_returns, Hlen.
Qed.

Lemma net_returns_lookup i p r t c :
  pos signals !! i = Some p -> returns df !! i = Some r ->
  turnover signals !! i = Some t -> cost_pct E df !! i = Some c ->
  net_returns E df signals !! i = Some (p * r - t * c).
Proof.
  intros Hp Hr Ht Hc.
  unfold net_returns, strat_returns, transaction_costs, sub, mul.
  rewrite !lookup_zip_with, Hp, Hr, Ht, Hc. reflexivity.
Qed.
End EngineFacts.

Section EquityFacts.
Import Series Engine.
Variable E : config.
Variable df : list bar.
Variable signals : list Z.
Hypothesis Hlen : length signals = length df.

Lemma cumprod_from_lookup_S acc s i a x :
  cumprod_from acc s !! i = Some a -> s !! S i = Some x ->
  cumprod_from acc s !! S i = Some (a * x).
Proof.
  revert acc i. induction s as [|y r IH]; intros acc i Ha Hx; [discriminate|].
  destruct i as [|i]; cbn in *.
  - injection Ha as <-. destruct r as [|x' r]; [discriminate|].
    cbn in *. injection Hx as ->. reflexivity.
  - apply IH; assumption.
Qed.

Lemma cumprod_lookup_S s i a x :
  cumprod s !! i = Some a -> s !! S i = Some x ->
  cumprod s !! S i = Some (a * x).
Proof.
  destruct s as [|y r]; [discriminate|]. intros Ha Hx.
  destruct i as [|i]; cbn in *.
  - injection Ha as <-. destruct r as [|x' r]; [discriminate|].
    cbn in *. injection Hx as ->. reflexivity.
  - apply cumprod_from_lookup_S; assumption.
Qed.

Lemma net_returns_lookup_0 b :
  df !! 0%nat = Some b ->
  exists c, net_returns E df signals !! 0%nat = Some (0 * 0 - 0 * c).
Proof.
  intros Hb.
  assert (Hs : is_Some (signals !! 0%nat)).
  { apply lookup_lt_is_Some. apply lookup_lt_Some in Hb. lia. }
  destruct Hs as [z Hz].
  assert (Hc : is_Some (cost_pct E df !! 0%nat)).
  { apply lookup_lt_is_Some. rewrite length_cost_pct.
    apply lookup_lt_Some in Hb. exact Hb. }
  destruct Hc as [c Hc]. exists c.
  apply net_returns_lookup.
  - apply (pos_lookup_0 signals z Hz).
  - apply (returns_lookup_0 df b Hb).
  - apply (turnover_lookup_0 signals z Hz).
  - exact Hc.
Qed.

Lemma equity_lookup_0 b :
  df !! 0%nat = Some b ->
  exists e, equity_curve E df signals !! 0%nat = Some e /\ e == initial_capital E.
Proof.
  intros Hb. destruct (net_returns_lookup_0 b Hb) as [c Hc].
  unfold equity_curve.
  destruct (net_returns E df signals) as [|r0 rest] eqn:Hn; [discriminate|].
  cbn in Hc. injection Hc as ->. cbn.
  eexists. split; [reflexivity|]. ring.
Qed.

Lemma equity_lookup_S i e r :
  equity_curve E df signals !! i = Some e ->
  net_returns E df signals !! S i = Some r ->
  exists e', equity_curve E df signals !! S i = Some e' /\ e' == e * (1 + r).
Proof.
  unfold equity_curve. intros He Hr.
  change (map ?f ?l) with (f <$> l) in *.
  rewrite list_lookup_fmap in He.
  apply fmap_Some in He. destruct He as (c & Hc & ->).
  rewrite list_lookup_fmap.
  rewrite (cumprod_lookup_S _ i c (1 + r) Hc).
  - cbn. eexists. split; [reflexivity|]. ring.
  - rewrite list_lookup_fmap, Hr. reflexivity.
Qed.

Lemma equity_net_defined i :
  (i < length df)%nat ->
  exists e r, equity_curve E df signals !! i = Some e
              /\ net_returns E df signals !! i = Some r.
Proof.
  intros Hi.
  destruct (lookup_lt_is_Some_2 (equity_curve E df signals) i) as [e He].
  { rewrite length_equity_curve; assumption. }
  destruct (lookup_lt_is_Some_2 (net_returns E df signals) i) as [r Hr].
  { rewrite length_net_returns; assumption. }
  eauto.
Qed.

(** Once the curve is at zero it stays there. *)
Lemma equity_zero_forever i j :
  (i <= j)%nat -> (j < length df)%nat ->
  at_ (equity_curve E df signals) i == 0 ->
  at_ (equity_curve E df signals) j == 0.
Proof.
  intros Hij. induction Hij as [|j Hij IH]; intros Hj H0; [exact H0|].
  assert (Hj' : (j < length df)%nat) by lia.
  specialize (IH Hj' H0).
  destruct (equity_net_defined j Hj') as (e & _ & He & _).
  destruct (equity_net_defined (S j) Hj) as (_ & r & _ & Hr).
  destruct (equity_lookup_S j e r He Hr) as (e' & He' & Heq).
  rewrite (at_Some _ _ _ He) in IH. rewrite (at_Some _ _ _ He').
  rewrite Heq, IH. ring.
Qed.

(** The curve stays non-negative as long as no bar loses more than the
    whole stake. *)
Lemma equity_nonneg i :
  0 <= initial_capital E -> (i < length df)%nat ->
  (forall k, (k <= i)%nat -> -1 <= at_ (net_returns E df signals) k) ->
  0 <= at_ (equity_curve E df signals) i.
Proof.
  intros Hic. induction i as [|i IH]; intros Hi Hnet.
  - destruct (lookup_lt_is_Some_2 df 0%nat Hi) as [b Hb].
    destruct (equity_lookup_0 b Hb) as (e & He & Heq).
    rewrite (at_Some _ _ _ He), Heq. exact Hic.
  - assert (Hi' : (i < length df)%nat) by lia.
    assert (IH' := IH Hi' (fun k Hk => Hnet k (Nat.le_trans _ _ _ Hk (Nat.le_succ_diag_r i)))).
    destruct (equity_net_defined i Hi') as (e & _ & He & _).
    destruct (equity_net_defined (S i) Hi) as (_ & r & _ & Hr).
    destruct (equity_lookup_S i e r He Hr) as (e' & He' & Heq).
    rewrite (at_Some _ _ _ He) in IH'. rewrite (at_Some _ _ _ He'), Heq.
    assert (Hr1 := Hnet (S i) (Nat.le_refl _)).
    rewrite (at_Some _ _ _ Hr) in Hr1.
    apply Qmult_le_0_compat; [exact IH'|]. lra.
Qed.
End EquityFacts.

(** ** The bar loop, iteration by iteration *)

Section BarLoopFacts.
Context {R St O : Type}.
Variable day : R -> Z.
Variable body : Z -> R -> St -> O.
Variable next : O -> St.

Lemma loop_length d rows s :
  length (BarLoop.loop day body next d rows s) = length rows.
Proof.
  revert d s. induction rows as [|r rest IH]; intros d s; cbn; [reflexivity|].
  f_equal. apply IH.
Qed.

Lemma trace_length o0 rows :
  length (BarLoop.trace day body next o0 rows) = length rows.
Proof.
  destruct rows as [|r0 rest]; cbn; [reflexivity|].
  f_equal. apply loop_length.
Qed.

Lemma loop_lookup_S d rows s i rp r o :
  rows !! i = Some rp -> rows !! S i = Some r ->
  BarLoop.loop day body next d rows s !! i = Some o ->
  BarLoop.loop day body next d rows s !! S i = Some (body (day rp) r (next o)).
Proof.
  revert d s i. induction rows as [|r1 rest IH]; intros d s i Hp Hr Ho;
    [discriminate|].
  destruct i as [|i]; cbn in *.
  - injection Hp as ->. injection Ho as <-.
    destruct rest as [|r2 rest]; [discriminate|].
    cbn in *. injection Hr as ->. reflexivity.
  - eapply IH; eassumption.
Qed.

Lemma trace_lookup_0 o0 rows r :
  rows !! 0%nat = Some r -> BarLoop.trace day body next o0 rows !! 0%nat = Some o0.
Proof. destruct rows; [discriminate|]. reflexivity. Qed.

Lemma trace_lookup_S o0 rows i rp r o :
  rows !! i = Some rp -> rows !! S i = Some r ->
  BarLoop.trace day body next o0 rows !! i = Some o ->
  BarLoop.trace day body next o0 rows !! S i
  = Some (body (day rp) r (next o)).
Proof.
  destruct rows as [|r0 rest]; [discriminate|]. intros Hp Hr Ho.
  destruct i as [|i]; cbn in *.
  - injection Hp as ->. injection Ho as <-.
    destruct rest as [|r1 rest]; [discriminate|].
    cbn in *. injection Hr as ->. reflexivity.
  - eapply loop_lookup_S; eassumption.
Qed.

(** A property of the initial outcome that every iteration preserves holds
    all along the trace. *)
Lemma trace_invariant (P : O -> Prop) o0 rows :
  P o0 ->
  (forall d r o, P o -> P (body d r (next o))) ->
  forall i o, BarLoop.trace day body next o0 rows !! i = Some o -> P o.
Proof.
  intros H0 Hstep i. induction i as [|i IH]; intros o Ho.
  - destruct rows as [|r0 rest]; [discriminate|].
    cbn in Ho. injection Ho as <-. exact H0.
  - assert (Hlt : (S i < length rows)%nat).
    { rewrite <- (trace_length o0). eapply lookup_lt_Some; eauto. }
    destruct (lookup_lt_is_Some_2 rows i) as [rp Hp]; [lia|].
    destruct (lookup_lt_is_Some_2 rows (S i) Hlt) as [r Hr].
    destruct (lookup_lt_is_Some_2 (BarLoop.trace day body next o0 rows) i)
      as [oi Hoi].
    { rewrite trace_length. lia. }
    rewrite (trace_lookup_S o0 rows i rp r oi Hp Hr Hoi) in Ho.
    injection Ho as <-. apply Hstep, IH, Hoi.
Qed.
End BarLoopFacts.

(** ** The ORB kernel, step by step *)

Ltac split_ifs :=
  repeat match goal with
         | |- context [if ?b then _ else _] => destruct b eqn:?
         end.

Section ORBFacts.
Import ORB KernelProps.
Variable p : params.

Lemma new_day_same d r s : day_id r = d -> new_day d r s = s.
Proof. intros <-. unfold new_day. rewrite Z.eqb_refl. reflexivity. Qed.

Lemma new_day_inv d r s : orb_inv s -> orb_inv (new_day d r s).
Proof.
  intros Hs. unfold new_day. split_ifs; [|exact Hs].
  split; cbn; [auto|congruence].
Qed.

Lemma orb_window_frame r s :
  in_pos (orb_window r s) = in_pos s
  /\ traded_today (orb_window r s) = traded_today s
  /\ sl_price (orb_window r s) = sl_price s
  /\ tp_price (orb_window r s) = tp_price s.
Proof. unfold orb_window. split_ifs; cbn; auto. Qed.

Lemma check_exits_frame r s :
  traded_today (check_exits p r s) = traded_today s
  /\ (in_pos (check_exits p r s) = 0%Z
      \/ in_pos (check_exits p r s) = in_pos s).
Proof.
  unfold check_exits, long_exit, short_exit. split_ifs; cbn; auto.
Qed.

(** Once the day's trade is taken, "Check Entries" does nothing. *)
Lemma check_entries_traded r s :
  traded_today s = true -> check_entries p r s = s.
Proof.
  intros H. unfold check_entries. rewrite H.
  rewrite andb_false_r. reflexivity.
Qed.

Lemma check_entries_inv r s : orb_inv s -> orb_inv (check_entries p r s).
Proof.
  intros Hs. unfold check_entries. split_ifs; try exact Hs;
    split; cbn; auto.
Qed.

Lemma check_exits_inv r s : orb_inv s -> orb_inv (check_exits p r s).
Proof.
  intros [Hv Ht]. destruct (check_exits_frame r s) as [Htr [H0|Heq]].
  - split; [auto|]. rewrite H0. congruence.
  - split; rewrite ?Heq, ?Htr; auto.
Qed.

Lemma step_inv d r s : orb_inv s -> orb_inv (step p d r s).
Proof.
  intros Hs. pose proof (new_day_inv d r s Hs) as H1.
  unfold step. split_ifs.
  - destruct (orb_window_frame r (new_day d r s)) as (Hp & Ht & _).
    destruct H1 as [Hv Htr]. split; rewrite ?Hp, ?Ht; auto.
  - apply check_entries_inv, check_exits_inv, H1.
  - split; cbn; [auto|congruence].
  - exact H1.
Qed.

Lemma states_inv rows i s : states p rows !! i = Some s -> orb_inv s.
Proof.
  unfold states.
  apply (trace_invariant day_id (step p) id orb_inv init rows).
  - split; cbn; [auto|congruence].
  - intros d r o Ho. apply step_inv, Ho.
Qed.

(** Within a day the traded flag is never cleared. *)
Lemma step_same_day_traded d r s :
  day_id r = d -> traded_today s = true -> traded_today (step p d r s) = true.
Proof.
  intros Hd Ht. unfold step. rewrite (new_day_same d r s Hd). split_ifs.
  - destruct (orb_window_frame r s) as (_ & -> & _). exact Ht.
  - rewrite check_entries_traded;
      destruct (check_exits_frame r s) as [-> _]; exact Ht.
  - exact Ht.
  - exact Ht.
Qed.

(** Within a day, a flat state that has traded stays flat. *)
Lemma step_same_day_flat d r s :
  day_id r = d -> traded_today s = true -> in_pos s = 0%Z ->
  in_pos (step p d r s) = 0%Z.
Proof.
  intros Hd Ht H0. unfold step. rewrite (new_day_same d r s Hd). split_ifs.
  - destruct (orb_window_frame r s) as (-> & _). exact H0.
  - rewrite check_entries_traded.
    + destruct (check_exits_frame r s) as [_ [H|H]]; congruence.
    + destruct (check_exits_frame r s) as [-> _]. exact Ht.
  - reflexivity.
  - exact H0.
Qed.

(** In the trade window of the same day, a held position only goes through
    its exit check. *)
Lemma step_trade_window d r s :
  day_id r = d -> in_trade_window p r -> traded_today s = true ->
  step p d r s = check_exits p r s.
Proof.
  intros Hd [Hlo Hhi] Ht. unfold step. rewrite (new_day_same d r s Hd).
  assert (H1 : (time r <? end_min p)%Z = false) by (apply Z.ltb_ge; lia).
  assert (H2 : (end_min p <=? time r)%Z = true) by (apply Z.leb_le; lia).
  assert (H3 : (time r <? exit_min p)%Z = true) by (apply Z.ltb_lt; lia).
  rewrite H1, H2, H3, andb_false_r. cbn [andb].
  apply check_entries_traded.
  destruct (check_exits_frame r s) as [-> _]. exact Ht.
Qed.
End ORBFacts.

Section ORBExitFacts.
Import ORB KernelProps.
Variable p : params.

(** The long exit check with the trailing stop on. *)
Lemma long_exit_trailing r s :
  use_ts p = true ->
  sl_price (long_exit p r s) == Qmax (sl_price s) (high r - ts_mult p * atr r)
  /\ sl_price s <= sl_price (long_exit p r s)
  /\ in_pos (long_exit p r s)
     = (if Qleb (low r) (sl_price (long_exit p r s)) then 0%Z else in_pos s).
Proof.
  intros Hts. unfold long_exit. rewrite Hts. cbn [negb andb sl_price in_pos].
  destruct (Qgtb (high r - atr r * ts_mult p) (sl_price s)) eqn:Hg.
  - apply Qgtb_gt in Hg. split; [|split].
    + rewrite Q.max_r; [ring|lra].
    + lra.
    + destruct (Qleb (low r) (high r - atr r * ts_mult p)); reflexivity.
  - apply Qgtb_false in Hg. split; [|split].
    + rewrite Q.max_l; [reflexivity|lra].
    + lra.
    + destruct (Qleb (low r) (sl_price s)); reflexivity.
Qed.

(** The short exit check with the trailing stop on. *)
Lemma short_exit_trailing r s :
  use_ts p = true ->
  sl_price (short_exit p r s) == Qmin (sl_price s) (low r + ts_mult p * atr r)
  /\ sl_price (short_exit p r s) <= sl_price s
  /\ in_pos (short_exit p r s)
     = (if Qgeb (high r) (sl_price (short_exit p r s)) then 0%Z else in_pos s).
Proof.
  intros Hts. unfold short_exit. rewrite Hts. cbn [negb andb sl_price in_pos].
  destruct (Qltb (low r + atr r * ts_mult p) (sl_price s)) eqn:Hg.
  - apply Qltb_lt in Hg. split; [|split].
    + rewrite Q.min_r; [ring|lra].
    + lra.
    + destruct (Qgeb (high r) (low r + atr r * ts_mult p)); reflexivity.
  - assert (Hge : sl_price s <= low r + atr r * ts_mult p).
    { unfold Qltb in Hg. apply negb_false_iff in Hg.
      apply Qle_bool_iff in Hg. exact Hg. }
    split; [|split].
    + rewrite Q.min_l; [reflexivity|lra].
    + lra.
    + destruct (Qgeb (high r) (sl_price s)); reflexivity.
Qed.

(** The exit checks with the fixed target: the stop is looked at first. *)
Lemma long_exit_stop_first r s :
  low r <= sl_price (long_exit p r s) -> in_pos (long_exit p r s) = 0%Z.
Proof.
  unfold long_exit. cbn [sl_price in_pos]. intros H.
  apply Qleb_le in H. rewrite H. reflexivity.
Qed.

Lemma short_exit_stop_first r s :
  sl_price (short_exit p r s) <= high r -> in_pos (short_exit p r s) = 0%Z.
Proof.
  unfold short_exit. cbn [sl_price in_pos]. intros H.
  apply Qgeb_ge in H. rewrite H. reflexivity.
Qed.

Lemma exit_fixed_stop r s :
  use_ts p = false ->
  sl_price (long_exit p r s) = sl_price s
  /\ sl_price (short_exit p r s) = sl_price s.
Proof.
  intros H. unfold long_exit, short_exit. rewrite H. split; reflexivity.
Qed.
End ORBExitFacts.

(** ** The overnight kernel, step by step *)

Section OvernightFacts.
Import Overnight.
Variable p : params.

Lemma day_boundary_same d r s : day_id r = d -> day_boundary p d r s = s.
Proof. intros <-. unfold day_boundary. rewrite Z.eqb_refl. reflexivity. Qed.

(** On a day change the held position is dropped before anything else
    looks at the bar. *)
Lemma day_boundary_flat d r s :
  day_id r <> d -> in_pos (day_boundary p d r s) = 0%Z.
Proof.
  intros Hd. unfold day_boundary.
  apply Z.eqb_neq in Hd. rewrite Hd. cbn [negb].
  destruct (in_pos s =? 0)%Z eqn:H0; cbn [negb];
    destruct (start_min p <=? time r)%Z; cbn; try reflexivity.
  all: apply Z.eqb_eq in H0; exact H0.
Qed.

Lemma day_boundary_forgets d r s :
  day_id r <> d -> day_boundary p d r s = day_boundary p d r (set_in_pos 0 s).
Proof.
  intros Hd. unfold day_boundary.
  apply Z.eqb_neq in Hd. rewrite Hd. cbn [negb].
  destruct s as [rh rl ts ip ep sl tp ins rf bh bl]. cbn.
  destruct (ip =? 0)%Z eqn:H0; cbn; [|reflexivity].
  apply Z.eqb_eq in H0. subst ip. reflexivity.
Qed.

(** Before [session_start] of the new day, everything but the position
    survives the day change. *)
Lemma day_boundary_keeps_session d r s :
  day_id r <> d -> (time r < start_min p)%Z ->
  day_boundary p d r s = set_in_pos 0 s.
Proof.
  intros Hd Ht. unfold day_boundary.
  apply Z.eqb_neq in Hd. rewrite Hd. cbn [negb].
  replace (start_min p <=? time r)%Z with false
    by (symmetry; apply Z.leb_gt; exact Ht).
  destruct s as [rh rl ts ip ep sl tp ins rf bh bl]. cbn.
  destruct (ip =? 0)%Z eqn:H0; cbn; [|reflexivity].
  apply Z.eqb_eq in H0. subst ip. reflexivity.
Qed.

(** After the day change either the session's trade is already taken or
    the range has just been cleared. *)
Lemma day_boundary_no_entry d r s :
  day_id r <> d -> traded_session s = true ->
  traded_session (day_boundary p d r s) = true
  \/ Qgtb (range_high (day_boundary p d r s))
          (range_low (day_boundary p d r s)) = false.
Proof.
  intros Hd Ht. unfold day_boundary.
  apply Z.eqb_neq in Hd. rewrite Hd. cbn [negb].
  destruct (start_min p <=? time r)%Z.
  - right. reflexivity.
  - left. destruct (negb (in_pos s =? 0)%Z); exact Ht.
Qed.

Lemma step_after_boundary d r s :
  step p d r s = step p (day_id r) r (day_boundary p d r s).
Proof.
  unfold step. rewrite (day_boundary_same (day_id r) r _ eq_refl).
  reflexivity.
Qed.

Lemma check_entries_blocked r s :
  traded_session s = true
  \/ Qgtb (range_high s) (range_low s) = false ->
  check_entries p r s = s.
Proof.
  intros [H|H]; unfold check_entries; rewrite H;
    rewrite ?andb_false_r; reflexivity.
Qed.

(** A flat state that cannot enter gives signal 0. *)
Lemma step_flat_blocked r s :
  in_pos s = 0%Z ->
  traded_session s = true \/ Qgtb (range_high s) (range_low s) = false ->
  snd (step p (day_id r) r s) = 0%Z.
Proof.
  intros H0 Hblock.
  set (s2 := session_start p r s).
  assert (H2 : in_pos s2 = 0%Z
               /\ (traded_session s2 = true
                   \/ Qgtb (range_high s2) (range_low s2) = false)).
  { subst s2. unfold session_start.
    destruct ((start_min p <=? time r)%Z && (time r <? start_min p + 5)%Z
              && negb (in_session s)).
    - split; [exact H0|]. right. reflexivity.
    - auto. }
  destruct H2 as [H20 H2b].
  unfold step. rewrite (day_boundary_same (day_id r) r s eq_refl).
  fold s2.
  destruct (negb (bar_in_session p (time r))); [reflexivity|].
  destruct (in_range_window p (time r) && negb (range_formed s2)).
  { cbn [snd]. unfold form_range.
    destruct (Qeqb (range_high s2) (-1)); exact H20. }
  set (s3 := mark_formed p (time r) s2).
  assert (H3 : in_pos s3 = 0%Z
               /\ (traded_session s3 = true
                   \/ Qgtb (range_high s3) (range_low s3) = false)).
  { subst s3. unfold mark_formed.
    destruct (negb (range_formed s2) && negb (in_range_window p (time r)));
      auto. }
  destruct H3 as [H30 H3b].
  destruct (range_formed s3 && bar_in_session p (time r)); [|exact H30].
  destruct (near_exit p (time r)); [reflexivity|].
  cbn [snd].
  assert (Hce : check_exits r s3 = s3).
  { unfold check_exits. rewrite H30. reflexivity. }
  rewrite Hce, (check_entries_blocked r s3 H3b). exact H30.
Qed.

Section Run.
Variable rows : list row.

Lemma overnight_signals_lookup i :
  _numba_overnight_logic p rows !! i = snd <$> trace p rows !! i.
Proof. unfold _numba_overnight_logic. apply (list_lookup_fmap snd). Qed.

Lemma overnight_states_lookup i :
  states p rows !! i = fst <$> trace p rows !! i.
Proof. unfold states. apply (list_lookup_fmap fst). Qed.

Lemma overnight_trace_S i rp r s :
  rows !! i = Some rp -> rows !! S i = Some r ->
  states p rows !! i = Some s ->
  trace p rows !! S i = Some (step p (day_id rp) r s).
Proof.
  intros Hrp Hr Hs. rewrite overnight_states_lookup in Hs.
  apply fmap_Some in Hs. destruct Hs as (o & Ho & ->).
  unfold trace in *.
  apply (trace_lookup_S day_id (step p) fst (init, 0%Z) rows i rp r o Hrp Hr Ho).
Qed.
End Run.
End OvernightFacts.

(** ** The scorer: windows, minute sets and the overlap *)

Section ScorerFacts.
Import Scorer ScorerProps.

Lemma dtime_new_valid h m t : dtime_new h m = Some t -> valid_time t.
Proof.
  unfold dtime_new.
  destruct ((0 <=? h)%Z && (h <=? 23)%Z && (0 <=? m)%Z && (m <=? 59)%Z) eqn:E;
    [|discriminate].
  intros [= <-].
  repeat (apply andb_true_iff in E; destruct E as [E ?]).
  unfold valid_time. cbn. lia.
Qed.

Lemma fallback_valid archetype :
  valid_window (dict_get ARCHETYPE_TIME_WINDOWS archetype (Dtime 9 30, Dtime 15 45)).
Proof.
  unfold ARCHETYPE_TIME_WINDOWS. cbn [dict_get].
  repeat (match goal with
          | |- context [String.eqb ?a ?b] => destruct (String.eqb a b)
          end; [unfold valid_window, valid_time; cbn; lia|]).
  unfold valid_window, valid_time; cbn; lia.
Qed.

Variable py_int : string -> option Z.

Lemma parse_time_valid v t : parse_time py_int v = Some t -> valid_time t.
Proof.
  unfold parse_time.
  destruct (str_split v) as [|p0 [|p1 ps]]; try discriminate.
  destruct (py_int p0); [|discriminate].
  destruct (py_int p1); [|discriminate].
  apply dtime_new_valid.
Qed.

(** Every window the scorer works on is a pair of well-formed times. *)
Lemma get_strategy_time_window_valid archetype params :
  valid_window (get_strategy_time_window py_int archetype params).
Proof.
  pose proof (fallback_valid archetype) as Hf.
  unfold get_strategy_time_window.
  destruct params as [ps|]; [|exact Hf].
  destruct (decide (ps = ∅)); [exact Hf|].
  match goal with
  | |- context [if ?c then _ else _] => destruct c; [|exact Hf]
  end.
  match goal with
  | |- context [parse_time py_int ?v] =>
      destruct (parse_time py_int v) as [start|] eqn:Hs; [|exact Hf]
  end.
  pose proof (parse_time_valid _ _ Hs) as Hvs.
  match goal with
  | |- context [if ?c then _ else _] => destruct c
  end.
  - match goal with
    | |- context [parse_time py_int ?v] =>
        destruct (parse_time py_int v) as [e|] eqn:He; [|exact Hf]
    end.
    split; [exact Hvs|]. apply (parse_time_valid _ _ He).
  - destruct (dtime_new _ 45) as [e|] eqn:He; [|exact Hf].
    split; [exact Hvs|]. apply (dtime_new_valid _ _ _ He).
Qed.

Lemma minute_of_day_bound t : valid_time t -> (minute_of_day t < 1440)%nat.
Proof. unfold valid_time, minute_of_day. lia. Qed.

Lemma elem_of_range_set m a b : m ∈ range_set a b <-> (a <= m)%nat /\ (m < b)%nat.
Proof. unfold range_set. rewrite elem_of_set_seq. lia. Qed.

Lemma elem_of_window_to_minutes m s e :
  m ∈ window_to_minutes s e
  <-> if (e <? s)%nat
      then ((s <= m)%nat /\ (m < 1440)%nat) \/ (m < e)%nat
      else (s <= m)%nat /\ (m < e)%nat.
Proof.
  unfold window_to_minutes. destruct (e <? s)%nat.
  - rewrite elem_of_union, !elem_of_range_set. lia.
  - apply elem_of_range_set.
Qed.

Lemma elem_of_reference_minutes m :
  m ∈ reference_minutes
  <-> ((570 <= m)%nat /\ (m < 945)%nat)
      \/ ((1085 <= m)%nat /\ (m < 1440)%nat) \/ (m < 565)%nat.
Proof.
  unfold reference_minutes, windows_minutes, get_all_active_windows,
    get_nqmain_profile. cbn [foldl rth_start rth_end overnight_start
    overnight_end fst snd].
  rewrite !elem_of_union, !elem_of_window_to_minutes.
  cbn. rewrite elem_of_empty. lia.
Qed.

Lemma size_range_set a b : size (range_set a b) = (b - a)%nat.
Proof. unfold range_set. apply size_set_seq. Qed.

(** The number of minutes of a window is the duration the source computes
    arithmetically. *)
Lemma size_window_to_minutes s e :
  (s < 1440)%nat ->
  Z.of_nat (size (window_to_minutes s e))
  = if (e <? s)%nat
    then ((1440 - Z.of_nat s) + Z.of_nat e)%Z
    else (Z.of_nat e - Z.of_nat s)%Z.
Proof.
  intros Hs. unfold window_to_minutes.
  destruct (e <? s)%nat eqn:E.
  - apply Nat.ltb_lt in E.
    rewrite size_union.
    + rewrite !size_range_set. lia.
    + intros m H1 H2. apply elem_of_range_set in H1, H2. lia.
  - apply Nat.ltb_ge in E. rewrite size_range_set. lia.
Qed.

(** The overlap is a fraction. *)
Lemma compute_time_overlap_range w ws :
  0 <= compute_time_overlap w ws /\ compute_time_overlap w ws <= 1.
Proof.
  unfold compute_time_overlap.
  match goal with
  | |- context [if (?d <=? 0)%Z then _ else _] =>
      destruct (d <=? 0)%Z eqn:Hd; [split; lra|]; apply Z.leb_gt in Hd;
      generalize dependent d
  end.
  intros d Hd.
  match goal with
  | |- context [inject_Z (Z.of_nat ?n)] => generalize n
  end.
  intros n. split.
  - apply Q.min_glb; [lra|].
    apply Qle_shift_div_l.
    + change 0 with (inject_Z 0). rewrite <- Zlt_Qlt. exact Hd.
    + rewrite Qmult_0_l. change 0 with (inject_Z 0). rewrite <- Zle_Qle. lia.
  - apply Q.le_min_l.
Qed.

(** A non-empty window inside the reference minutes overlaps fully. *)
Lemma compute_time_overlap_subset w :
  valid_window w ->
  minutes_of w <> ∅ ->
  minutes_of w ⊆ reference_minutes ->
  compute_time_overlap w (Some (get_all_active_windows get_nqmain_profile))
  == 1.
Proof.
  intros [Hv1 Hv2] Hne Hsub.
  pose proof (minute_of_day_bound _ Hv1) as Hs.
  unfold minutes_of in *. unfold compute_time_overlap.
  fold reference_minutes.
  set (s := minute_of_day (fst w)) in *.
  set (e := minute_of_day (snd w)) in *.
  pose proof (size_window_to_minutes s e Hs) as Hsize.
  assert (Hpos : (0 < size (window_to_minutes s e))%nat).
  { destruct (size (window_to_minutes s e)) eqn:Hz; [|lia].
    apply size_empty_inv in Hz. exfalso. apply Hne.
    apply leibniz_equiv. exact Hz. }
  rewrite <- Hsize.
  replace (Z.of_nat (size (window_to_minutes s e)) <=? 0)%Z with false
    by (symmetry; apply Z.leb_gt; lia).
  rewrite (subseteq_intersection_1_L _ _ Hsub).
  assert (Hnz : ~ inject_Z (Z.of_nat (size (window_to_minutes s e))) == 0).
  { change 0 with (inject_Z 0). rewrite inject_Z_injective. lia. }
  rewrite Q.min_l; [reflexivity|].
  setoid_replace (inject_Z (Z.of_nat (size (window_to_minutes s e)))
                  / inject_Z (Z.of_nat (size (window_to_minutes s e))))
    with 1 using relation Qeq; [lra|].
  field. exact Hnz.
Qed.

(** No single window has exactly the reference portfolio's minutes: the
    reference is two windows with two gaps between them. *)
Lemma reference_union_is_no_window w :
  valid_window w -> minutes_of w <> reference_minutes.
Proof.
  intros [Hv1 Hv2] Heq.
  pose proof (minute_of_day_bound _ Hv1) as Hs.
  pose proof (minute_of_day_bound _ Hv2) as He.
  unfold minutes_of in Heq.
  set (s := minute_of_day (fst w)) in *.
  set (e := minute_of_day (snd w)) in *.
  assert (H : forall m, m ∈ window_to_minutes s e <-> m ∈ reference_minutes)
    by (intros m; rewrite Heq; reflexivity).
  pose proof (H 0%nat) as H0. pose proof (H 564%nat) as H564.
  pose proof (H 565%nat) as H565. pose proof (H 569%nat) as H569.
  pose proof (H 570%nat) as H570. pose proof (H 945%nat) as H945.
  pose proof (H 1084%nat) as H1084. pose proof (H 1085%nat) as H1085.
  rewrite elem_of_window_to_minutes, elem_of_reference_minutes in *.
  destruct (e <? s)%nat; lia.
Qed.
End ScorerFacts.

(** ** The overlap and the flags on minute sets *)

Section OverlapFacts.
Import Scorer ScorerProps.

(** The overlap as a quotient of minute counts. *)
Lemma compute_time_overlap_quotient w ws :
  valid_window w -> minutes_of w <> ∅ ->
  compute_time_overlap w (Some ws)
  == inject_Z (Z.of_nat (size (minutes_of w ∩ windows_minutes ws)))
     / inject_Z (Z.of_nat (size (minutes_of w)))
  /\ (0 < size (minutes_of w))%nat
  /\ (size (minutes_of w ∩ windows_minutes ws) <= size (minutes_of w))%nat.
Proof.
  intros [Hv1 Hv2] Hne.
  pose proof (minute_of_day_bound _ Hv1) as Hs.
  unfold minutes_of in *. unfold compute_time_overlap.
  set (s := minute_of_day (fst w)) in *.
  set (e := minute_of_day (snd w)) in *.
  set (ref := windows_minutes ws).
  pose proof (size_window_to_minutes s e Hs) as Hsize.
  assert (Hpos : (0 < size (window_to_minutes s e))%nat).
  { destruct (size (window_to_minutes s e)) eqn:Hz; [|lia].
    apply size_empty_inv in Hz. exfalso. apply Hne.
    apply leibniz_equiv. exact Hz. }
  assert (Hle : (size (window_to_minutes s e ∩ ref)
                 <= size (window_to_minutes s e))%nat).
  { apply subseteq_size. intros x Hx.
    apply elem_of_intersection in Hx. tauto. }
  rewrite <- Hsize.
  replace (Z.of_nat (size (window_to_minutes s e)) <=? 0)%Z with false
    by (symmetry; apply Z.leb_gt; lia).
  split; [|split; [exact Hpos|exact Hle]].
  rewrite Q.min_r; [reflexivity|].
  apply Qle_shift_div_r.
  - change 0 with (inject_Z 0). rewrite <- Zlt_Qlt. lia.
  - rewrite Qmult_1_l. rewrite <- Zle_Qle. lia.
Qed.

Lemma Qdiv_nat_eq_1 (n d : nat) :
  (0 < d)%nat ->
  inject_Z (Z.of_nat n) / inject_Z (Z.of_nat d) == 1 <-> n = d.
Proof.
  intros Hd.
  assert (Hnz : ~ inject_Z (Z.of_nat d) == 0).
  { change 0 with (inject_Z 0). rewrite inject_Z_injective. lia. }
  split.
  - intros H.
    assert (H' : inject_Z (Z.of_nat n) == inject_Z (Z.of_nat d)).
    { assert (Hx : inject_Z (Z.of_nat n)
                   == inject_Z (Z.of_nat n) / inject_Z (Z.of_nat d)
                      * inject_Z (Z.of_nat d)) by (field; exact Hnz).
      rewrite H in Hx. rewrite Hx. ring. }
    rewrite inject_Z_injective in H'. apply Nat2Z.inj. exact H'.
  - intros ->. field. exact Hnz.
Qed.

Lemma Qdiv_nat_eq_0 (n d : nat) :
  (0 < d)%nat ->
  inject_Z (Z.of_nat n) / inject_Z (Z.of_nat d) == 0 <-> n = 0%nat.
Proof.
  intros Hd.
  assert (Hnz : ~ inject_Z (Z.of_nat d) == 0).
  { change 0 with (inject_Z 0). rewrite inject_Z_injective. lia. }
  split.
  - intros H.
    assert (H' : inject_Z (Z.of_nat n) == inject_Z 0).
    { assert (Hx : inject_Z (Z.of_nat n)
                   == inject_Z (Z.of_nat n) / inject_Z (Z.of_nat d)
                      * inject_Z (Z.of_nat d)) by (field; exact Hnz).
      rewrite H in Hx. rewrite Hx. ring. }
    rewrite inject_Z_injective in H'. apply Nat2Z.inj. exact H'.
  - intros ->. unfold Qdiv. ring.
Qed.

Lemma empty_window_overlap w ws :
  minute_of_day (fst w) = minute_of_day (snd w) ->
  compute_time_overlap w ws = 0.
Proof.
  intros H. unfold compute_time_overlap. rewrite H.
  rewrite Nat.ltb_irrefl, Z.sub_diag. reflexivity.
Qed.








End OverlapFacts.

(** ** The state file across a save *)

Section DaemonFacts.
Import Daemon.

Lemma daemon_metrics_lookup st k :
  daemon_metrics st !! k = if is_control_flag k then None else st !! k.
Proof.
  unfold daemon_metrics. rewrite map_lookup_filter.
  destruct (st !! k) as [v|] eqn:E; cbn.
  - destruct (is_control_flag k) eqn:Hc.
    + rewrite option_guard_False; [reflexivity|]. discriminate.
    + rewrite option_guard_True; reflexivity.
  - destruct (is_control_flag k); reflexivity.
Qed.

Lemma dict_update_lookup d other k :
  dict_update d other !! k
  = match other !! k with Some v => Some v | None => d !! k end.
Proof.
  unfold dict_update. rewrite lookup_union.
  destruct (other !! k), (d !! k); reflexivity.
Qed.

Lemma cleared_flags_nonempty : cleared_flags <> ∅.
Proof.
  intros E. apply (f_equal (fun m => m !! "paused"%string)) in E.
  unfold cleared_flags in E. rewrite lookup_insert_eq, lookup_empty in E.
  discriminate.
Qed.

Lemma cleared_flags_lookup k :
  cleared_flags !! k = if is_control_flag k then Some (JBool false) else None.
Proof.
  unfold cleared_flags, is_control_flag.
  destruct (String.eqb k "paused") eqn:E1.
  - apply String.eqb_eq in E1. subst k. cbn [orb].
    apply lookup_insert_eq.
  - apply String.eqb_neq in E1.
    rewrite lookup_insert_ne by congruence.
    destruct (String.eqb k "stopped") eqn:E2; cbn [orb].
    + apply String.eqb_eq in E2. subst k. apply lookup_insert_eq.
    + apply String.eqb_neq in E2.
      rewrite lookup_insert_ne by congruence. apply lookup_empty.
Qed.

(** The file after [_save_state], field by field. *)
Lemma save_state_field ff w k :
  disk w <> NonObject ->
  file_field (disk (_save_state ff w)) k
  = match (match ff with
           | Some f => if decide (f = ∅) then None else f !! k
           | None => None
           end) with
    | Some v => Some v
    | None =>
        match daemon_metrics (_state w) !! k with
        | Some v => Some v
        | None => file_field (disk w) k
        end
    end.
Proof.
  intros Hd. unfold _save_state.
  destruct (disk w) as [| | |m] eqn:Hdisk; try contradiction;
    cbn [disk file_field];
    destruct ff as [f|]; try destruct (decide (f = ∅));
    rewrite ?dict_update_lookup, ?lookup_empty; reflexivity.
Qed.

Lemma save_state_non_object ff w : disk w = NonObject -> _save_state ff w = w.
Proof. intros H. unfold _save_state. rewrite H. reflexivity. Qed.

Lemma load_state_disk w : disk (_load_state w) = disk w.
Proof. unfold _load_state. destruct (disk w) eqn:E; cbn; auto. Qed.
End DaemonFacts.

(** ** Claims about the backtest engine *)

(** C1.  For every bar table and signal sequence the engine charges, on
    bar [i], [cost[i] = turnover[i] * (commission + slippage
    + volatility_factor * (high[i] - low[i])) / (close[i] * point_value)],
    where [turnover[i] = |position[i] - position[i-1]|] and
    [position[i] = signals[i-1]] (flat on the first bar); the net return is
    the gross position return minus this cost.  A bar of a bar table has
    [low <= high], and the cost formula needs a non-zero close. *)
Theorem engine_cost_model
    (E : Engine.config) (df : list Engine.bar) (signals : list Z)
    (i : nat) (b : Engine.bar) :
  length signals = length df ->
  df !! i = Some b ->
  ~ Engine.Close b == 0 ->
  Engine.Low b <= Engine.High b ->
  let position := Series.at_ (Engine.pos signals) in
  let tau := Series.at_ (Engine.turnover signals) in
  let cost := Series.at_ (Engine.transaction_costs E df signals) in
  let gross := Series.at_ (Engine.strat_returns df signals) in
  let net := Series.at_ (Engine.r_returns (Engine.run E df signals)) in
  (i < length (Engine.r_returns (Engine.run E df signals)))%nat
  /\ position i == Engine.spec_position signals i
  /\ tau i == match i with
              | O => 0
              | S j => Qabs (position i - position j)
              end
  /\ cost i == tau i * (Engine.commission_per_unit E + Engine.slippage_per_unit E
                        + Engine.volatility_factor E
                          * (Engine.High b - Engine.Low b))
               / (Engine.Close b * Engine.point_value E)
  /\ gross i == position i * Series.at_ (Engine.returns df) i
  /\ net i == gross i - cost i.
Proof.
  intros Hlen Hb Hnz Hhl position tau cost gross net.
  assert (Hi : (i < length df)%nat) by (eapply lookup_lt_Some; eauto).
  destruct (lookup_lt_is_Some_2 signals i) as [z Hz]; [lia|].
  destruct (lookup_lt_is_Some_2 (Engine.returns df) i) as [r Hr].
  { rewrite length_returns. exact Hi. }
  pose proof (pos_lookup_spec signals i z Hz) as Hp.
  pose proof (cost_pct_lookup E df i b Hb Hnz) as Hc.
  assert (Ht : Engine.turnover signals !! i
               = Some (Engine.spec_turnover signals i)).
  { destruct i as [|j].
    - apply (turnover_lookup_0 signals z Hz).
    - apply (turnover_lookup_S signals j z Hz). }
  pose proof (net_returns_lookup E df signals i _ _ _ _ Hp Hr Ht Hc) as Hn.
  assert (Hg : Engine.strat_returns df signals !! i
               = Some (Engine.spec_position signals i * r)).
  { unfold Engine.strat_returns, Series.mul.
    rewrite lookup_zip_with, Hp, Hr. reflexivity. }
  assert (Htc : Engine.transaction_costs E df signals !! i
                = Some (Engine.spec_turnover signals i
                        * ((Engine.commission_per_unit E + Engine.slippage_per_unit E
                            + Qabs (Engine.High b - Engine.Low b)
                              * Engine.volatility_factor E)
                           / (Engine.Close b * Engine.point_value E)))).
  { unfold Engine.transaction_costs, Series.mul.
    rewrite lookup_zip_with, Ht, Hc. reflexivity. }
  assert (Habs : Qabs (Engine.High b - Engine.Low b)
                 == Engine.High b - Engine.Low b).
  { apply Qabs_pos. lra. }
  subst position tau cost gross net. cbn [Engine.run Engine.r_returns].
  rewrite (at_Some _ _ _ Hp), (at_Some _ _ _ Ht), (at_Some _ _ _ Htc),
    (at_Some _ _ _ Hg), (at_Some _ _ _ Hn), (at_Some _ _ _ Hr).
  split; [rewrite length_net_returns; assumption|].
  split; [reflexivity|].
  split.
  { destruct i as [|j]; [reflexivity|].
    assert (Hj : is_Some (signals !! j)) by (apply lookup_lt_is_Some; lia).
    destruct Hj as [y Hy].
    rewrite (at_Some _ _ _ (pos_lookup_spec signals j y Hy)). reflexivity. }
  split.
  { rewrite Habs. unfold Qdiv. ring. }
  split; reflexivity.
Qed.

Lemma engine_cost_model_witness :
  let E := Engine.default_config in
  let df := EngineExamples.sample_bars in
  let sg := EngineExamples.sample_signals in
  Series.at_ (Engine.transaction_costs E df sg) 1
  == Series.at_ (Engine.turnover sg) 1 * (1 + 1 + 0.01 * (20030 - 20000))
     / (20020 * 20).
Proof.
  intros E df sg.
  refine (proj1 (proj2 (proj2 (proj2
    (engine_cost_model E df sg 1 (Engine.Bar 20020 20030 20000) _ _ _ _))))).
  - reflexivity.
  - reflexivity.
  - intros H. vm_compute in H. discriminate.
  - vm_compute. discriminate.
Defined.

(** C2 (as the code has it).  For every backtest over a bar table without
    a zero close and with a non-zero point value (no division of the run
    meets a zero divisor), [equity[0]] is the initial capital and the curve
    stays at 0 once it reaches 0; it is non-negative up to bar [i] when the
    initial capital is non-negative and no net return up to [i] is below
    -1.  The engine applies no floor. *)
Theorem equity_curve_invariants
    (E : Engine.config) (df : list Engine.bar) (signals : list Z) :
  EngineExamples.finite_run E df ->
  length signals = length df ->
  let equity := Series.at_ (Engine.r_equity_curve (Engine.run E df signals)) in
  let net := Series.at_ (Engine.r_returns (Engine.run E df signals)) in
  length (Engine.r_equity_curve (Engine.run E df signals)) = length df
  /\ ((0 < length df)%nat -> equity 0%nat == Engine.initial_capital E)
  /\ (forall i j, (i <= j)%nat -> (j < length df)%nat ->
                  equity i == 0 -> equity j == 0)
  /\ (0 <= Engine.initial_capital E ->
      forall i, (i < length df)%nat ->
                (forall k, (k <= i)%nat -> -1 <= net k) -> 0 <= equity i).
Proof.
  intros _ Hlen equity net. subst equity net.
  cbn [Engine.run Engine.r_equity_curve Engine.r_returns].
  split; [apply length_equity_curve; assumption|].
  split.
  { intros Hn. destruct (lookup_lt_is_Some_2 df 0%nat Hn) as [b Hb].
    destruct (equity_lookup_0 E df signals Hlen b Hb) as (e & He & Heq).
    rewrite (at_Some _ _ _ He). exact Heq. }
  split.
  { intros i j. apply equity_zero_forever; assumption. }
  intros Hic i. apply equity_nonneg; assumption.
Qed.

Lemma equity_curve_invariants_witness :
  Series.at_ (Engine.r_equity_curve
                (Engine.run Engine.default_config EngineExamples.sample_bars
                            EngineExamples.sample_signals)) 0
  == 100000.
Proof.
  refine (proj1 (proj2
    (equity_curve_invariants Engine.default_config EngineExamples.sample_bars
       EngineExamples.sample_signals _ _)) _).
  - split; [intros H; vm_compute in H; discriminate|].
    repeat first [apply List.Forall_nil
                 | apply List.Forall_cons;
                   [intros H; vm_compute in H; discriminate|]].
  - reflexivity.
  - cbn. lia.
Defined.

(** C2 as stated fails: a short position held while the close triples
    drives the equity curve below zero on a well-formed bar table. *)
Lemma equity_invariant_counterexample :
  ~ (forall E df signals,
        length signals = length df ->
        Forall EngineExamples.valid_bar df ->
        Forall EngineExamples.valid_signal signals ->
        EngineExamples.sane_config E ->
        EngineExamples.equity_invariant E df signals).
Proof.
  intros H.
  assert (Hbars : Forall EngineExamples.valid_bar EngineExamples.squeeze_bars).
  { unfold EngineExamples.squeeze_bars, EngineExamples.valid_bar.
    repeat first [apply List.Forall_nil
                 | apply List.Forall_cons; [cbn; repeat split; lra|]]. }
  assert (Hsig : Forall EngineExamples.valid_signal EngineExamples.squeeze_signals).
  { unfold EngineExamples.squeeze_signals, EngineExamples.valid_signal.
    repeat first [apply List.Forall_nil
                 | apply List.Forall_cons; [auto|]]. }
  assert (Hcfg : EngineExamples.sane_config Engine.default_config).
  { unfold EngineExamples.sane_config. cbn. repeat split; lra. }
  destruct (H Engine.default_config EngineExamples.squeeze_bars
              EngineExamples.squeeze_signals eq_refl Hbars Hsig Hcfg)
    as (_ & Hnn & _).
  assert (Hlt : (2 < length EngineExamples.squeeze_bars)%nat) by (cbn; lia).
  specialize (Hnn 2%nat Hlt).
  vm_compute in Hnn. apply Hnn. reflexivity.
Qed.

(** ** Claims about the ORB kernel *)

Section ORBRun.
Import ORB KernelProps.
Variable p : params.
Variable rows : list row.

Lemma states_length : length (states p rows) = length rows.
Proof. unfold states. apply trace_length. Qed.

Lemma signals_lookup i :
  _numba_orb_logic p rows !! i = in_pos <$> states p rows !! i.
Proof. unfold _numba_orb_logic. apply (list_lookup_fmap in_pos). Qed.

Lemma states_lookup_S i rp r s :
  rows !! i = Some rp -> rows !! S i = Some r ->
  states p rows !! i = Some s ->
  states p rows !! S i = Some (step p (day_id rp) r s).
Proof.
  intros Hp Hr Hs. unfold states in *.
  rewrite (trace_lookup_S day_id (step p) id init rows i rp r s Hp Hr Hs).
  reflexivity.
Qed.

Lemma states_defined i :
  (i < length rows)%nat -> exists s, states p rows !! i = Some s.
Proof.
  intros Hi. apply lookup_lt_is_Some. rewrite states_length. exact Hi.
Qed.

(** Inside a same-day run the traded flag, once set, stays set. *)
Lemma run_traded_persists a b j n s :
  same_day_run day_id rows a b ->
  (a <= j)%nat -> (j + n <= b)%nat ->
  states p rows !! j = Some s -> traded_today s = true ->
  exists s', states p rows !! (j + n)%nat = Some s' /\ traded_today s' = true.
Proof.
  intros (Hab & Hb & Hday) Haj. induction n as [|n IH]; intros Hjn Hs Ht.
  - rewrite Nat.add_0_r. eauto.
  - destruct IH as (s1 & Hs1 & Ht1); [lia|assumption|assumption|].
    destruct (lookup_lt_is_Some_2 rows a) as [ra Hra]; [lia|].
    destruct (lookup_lt_is_Some_2 rows (j + n)) as [rp Hrp]; [lia|].
    destruct (lookup_lt_is_Some_2 rows (S (j + n))) as [r Hr]; [lia|].
    replace (j + S n)%nat with (S (j + n)) by lia.
    rewrite (states_lookup_S _ rp r s1 Hrp Hr Hs1).
    eexists. split; [reflexivity|].
    apply step_same_day_traded; [|exact Ht1].
    rewrite (Hday (S (j + n)) r ra), (Hday (j + n)%nat rp ra);
      auto; lia.
Qed.

(** Two entries inside one same-day run are the same entry. *)
Lemma run_entry_unique a b j k :
  same_day_run day_id rows a b ->
  (a <= j)%nat -> (j < k)%nat -> (k <= b)%nat ->
  is_entry (_numba_orb_logic p rows) j = true ->
  is_entry (_numba_orb_logic p rows) k = true -> False.
Proof.
  intros Hrun Haj Hjk Hkb Hj Hk.
  destruct Hrun as (Hab & Hb & Hday).
  unfold is_entry in Hj, Hk.
  destruct j as [|j']; [discriminate|].
  destruct k as [|k']; [discriminate|].
  rewrite !signals_lookup in Hj, Hk.
  destruct (states_defined (S j')) as [sj Hsj]; [lia|].
  destruct (states_defined k') as [sk' Hsk']; [lia|].
  destruct (states_defined (S k')) as [sk Hsk]; [lia|].
  rewrite Hsj in Hj. rewrite Hsk', Hsk in Hk. cbn in Hj, Hk.
  destruct (states p rows !! j') as [sj0|]; [cbn in Hj|discriminate].
  apply andb_true_iff in Hj. destruct Hj as [_ Hj].
  apply andb_true_iff in Hk. destruct Hk as [Hk0 Hk1].
  apply negb_true_iff, Z.eqb_neq in Hj, Hk1. apply Z.eqb_eq in Hk0.
  assert (Htj : traded_today sj = true).
  { apply (states_inv p rows (S j') sj Hsj). exact Hj. }
  destruct (run_traded_persists a b (S j') (k' - S j') sj) as (s' & Hs' & Ht');
    [repeat split; assumption|lia|lia|assumption|assumption|].
  replace (S j' + (k' - S j'))%nat with k' in Hs' by lia.
  rewrite Hsk' in Hs'. injection Hs' as <-.
  destruct (lookup_lt_is_Some_2 rows a) as [ra Hra]; [lia|].
  destruct (lookup_lt_is_Some_2 rows k') as [rp Hrp]; [lia|].
  destruct (lookup_lt_is_Some_2 rows (S k')) as [r Hr]; [lia|].
  rewrite (states_lookup_S _ rp r sk' Hrp Hr Hsk') in Hsk.
  injection Hsk as <-. apply Hk1.
  apply step_same_day_flat; [|assumption|assumption].
  rewrite (Hday (S k') r ra), (Hday k' rp ra); auto; lia.
Qed.
End ORBRun.

Lemma filter_at_most_one (f : nat -> bool) (l : list nat) :
  List.NoDup l ->
  (forall x y, List.In x l -> List.In y l -> f x = true -> f y = true -> x = y) ->
  (length (List.filter f l) <= 1)%nat.
Proof.
  induction l as [|x l IH]; intros Hnd Huniq; [cbn; lia|].
  inversion Hnd as [|? ? Hnotin Hnd']; subst.
  cbn [List.filter]. destruct (f x) eqn:Hfx.
  - assert (Hnil : List.filter f l = []).
    { destruct (List.filter f l) as [|y t] eqn:Hf; [reflexivity|].
      assert (Hy : List.In y (List.filter f l)) by (rewrite Hf; left; reflexivity).
      apply List.filter_In in Hy. destruct Hy as [Hyin Hfy].
      assert (x = y) by (apply Huniq; cbn; auto).
      subst. contradiction. }
    rewrite Hnil. cbn. lia.
  - apply IH; [assumption|].
    intros a b Ha Hb. apply Huniq; cbn; auto.
Qed.

(** C7.  The ORB kernel enters at most one position per trading day: over
    any run of bars [a..b] that share one calendar-day ordinal (in particular
    a maximal one), the emitted signals hold at most one flat-to-nonflat
    transition. *)
Theorem orb_one_entry_per_day (p : ORB.params) (rows : list ORB.row) (a b : nat) :
  KernelProps.same_day_run ORB.day_id rows a b ->
  (length (List.filter (KernelProps.is_entry (ORB._numba_orb_logic p rows))
                       (List.seq a (S b - a))) <= 1)%nat.
Proof.
  intros Hrun. apply filter_at_most_one; [apply List.seq_NoDup|].
  intros x y Hx Hy Hfx Hfy.
  apply List.in_seq in Hx, Hy.
  destruct Hrun as (Hab & Hb & Hday).
  destruct (Nat.lt_trichotomy x y) as [Hlt|[Heq|Hgt]]; [|exact Heq|]; exfalso.
  - apply (run_entry_unique p rows a b x y); try lia; auto.
    repeat split; assumption.
  - apply (run_entry_unique p rows a b y x); try lia; auto.
    repeat split; assumption.
Qed.

(** C8.  With the trailing stop enabled the fixed target never causes an
    exit, and while a long is held the stop never decreases: on every bar of
    the trade window it becomes [max(previous stop, high(i) - ts_mult*ATR(i))]
    and the long is closed exactly when [low(i)] is at or below it; outside
    the trade window a long is closed only by the session end.  Short
    mirrored, with a stop that never increases. *)
Theorem orb_trailing_stop
    (p : ORB.params) (rows : list ORB.row) (i : nat)
    (rp r : ORB.row) (s s' : ORB.state) :
  ORB.use_ts p = true ->
  rows !! i = Some rp -> rows !! S i = Some r ->
  ORB.day_id r = ORB.day_id rp ->
  ORB.states p rows !! i = Some s ->
  ORB.states p rows !! S i = Some s' ->
  (ORB.in_pos s = 1%Z ->
     (ORB.in_pos s' = 1%Z -> ORB.sl_price s <= ORB.sl_price s')
     /\ (ORB.in_pos s' = 1%Z
         \/ (KernelProps.in_trade_window p r /\ ORB.low r <= ORB.sl_price s')
         \/ (ORB.exit_min p <= ORB.time r)%Z)
     /\ (KernelProps.in_trade_window p r ->
           ORB.sl_price s'
           == Qmax (ORB.sl_price s) (ORB.high r - ORB.ts_mult p * ORB.atr r)
           /\ (ORB.in_pos s' = 0%Z <-> ORB.low r <= ORB.sl_price s')
           /\ (ORB.in_pos s' = 1%Z <-> ORB.sl_price s' < ORB.low r)))
  /\ (ORB.in_pos s = (-1)%Z ->
     (ORB.in_pos s' = (-1)%Z -> ORB.sl_price s' <= ORB.sl_price s)
     /\ (ORB.in_pos s' = (-1)%Z
         \/ (KernelProps.in_trade_window p r /\ ORB.sl_price s' <= ORB.high r)
         \/ (ORB.exit_min p <= ORB.time r)%Z)
     /\ (KernelProps.in_trade_window p r ->
           ORB.sl_price s'
           == Qmin (ORB.sl_price s) (ORB.low r + ORB.ts_mult p * ORB.atr r)
           /\ (ORB.in_pos s' = 0%Z <-> ORB.sl_price s' <= ORB.high r)
           /\ (ORB.in_pos s' = (-1)%Z <-> ORB.high r < ORB.sl_price s'))).
Proof.
  intros Hts Hrp Hr Hday Hs Hs'.
  rewrite (states_lookup_S p rows i rp r s Hrp Hr Hs) in Hs'.
  injection Hs' as <-.
  pose proof (states_inv p rows i s Hs) as [_ Htr].
  assert (Hwin : KernelProps.in_trade_window p r ->
                 ORB.traded_today s = true ->
                 ORB.step p (ORB.day_id rp) r s = ORB.check_exits p r s).
  { intros Hw Ht. apply step_trade_window; auto. }
  assert (Hcases :
    ORB.traded_today s = true ->
    (KernelProps.in_trade_window p r
     /\ ORB.step p (ORB.day_id rp) r s = ORB.check_exits p r s)
    \/ (~ KernelProps.in_trade_window p r
        /\ ((ORB.in_pos (ORB.step p (ORB.day_id rp) r s) = ORB.in_pos s
             /\ ORB.sl_price (ORB.step p (ORB.day_id rp) r s) = ORB.sl_price s)
            \/ (ORB.in_pos (ORB.step p (ORB.day_id rp) r s) = 0%Z
                /\ (ORB.exit_min p <= ORB.time r)%Z)))).
  { intros Ht.
    destruct (Z_le_dec (ORB.end_min p) (ORB.time r)) as [H1|H1];
      [destruct (Z_lt_dec (ORB.time r) (ORB.exit_min p)) as [H2|H2]|].
    - left. split; [split; assumption|]. apply Hwin; [split|]; assumption.
    - right. split; [intros [_ ?]; contradiction|].
      unfold ORB.step. rewrite (new_day_same (ORB.day_id rp) r s Hday).
      replace (ORB.time r <? ORB.end_min p)%Z with false
        by (symmetry; apply Z.ltb_ge; lia).
      replace (ORB.time r <? ORB.exit_min p)%Z with false
        by (symmetry; apply Z.ltb_ge; lia).
      rewrite !andb_false_r.
      replace (ORB.exit_min p <=? ORB.time r)%Z with true
        by (symmetry; apply Z.leb_le; lia).
      right. split; [reflexivity|lia].
    - right. split; [intros [? _]; contradiction|].
      unfold ORB.step. rewrite (new_day_same (ORB.day_id rp) r s Hday).
      replace (ORB.end_min p <=? ORB.time r)%Z with false
        by (symmetry; apply Z.leb_gt; lia).
      cbn [andb].
      destruct ((ORB.start_min p <=? ORB.time r)%Z
                && (ORB.time r <? ORB.end_min p)%Z).
      + left. destruct (orb_window_frame r s) as (-> & _ & -> & _). auto.
      + destruct (ORB.exit_min p <=? ORB.time r)%Z eqn:He.
        * right. split; [reflexivity|]. apply Z.leb_le in He. exact He.
        * left. auto. }
  split.
  - intros Hpos.
    assert (Ht : ORB.traded_today s = true) by (apply Htr; lia).
    destruct (long_exit_trailing p r s Hts) as (Hmax & Hmono & Hexit).
    assert (Hce : ORB.check_exits p r s = ORB.long_exit p r s).
    { unfold ORB.check_exits. rewrite Hpos. reflexivity. }
    destruct (Hcases Ht) as [[Hw Hstep]|[Hnw Hout]].
    + rewrite Hstep, Hce.
      assert (Hiff0 : ORB.in_pos (ORB.long_exit p r s) = 0%Z
                      <-> ORB.low r <= ORB.sl_price (ORB.long_exit p r s)).
      { rewrite Hexit.
        destruct (Qleb (ORB.low r) (ORB.sl_price (ORB.long_exit p r s))) eqn:Hq.
        - apply Qleb_le in Hq. tauto.
        - apply Qleb_false in Hq. rewrite Hpos. split; [lia|].
          intros Hle. exfalso. lra. }
      assert (Hiff1 : ORB.in_pos (ORB.long_exit p r s) = 1%Z
                      <-> ORB.sl_price (ORB.long_exit p r s) < ORB.low r).
      { rewrite Hexit.
        destruct (Qleb (ORB.low r) (ORB.sl_price (ORB.long_exit p r s))) eqn:Hq.
        - apply Qleb_le in Hq. split; [lia|]. intros Hlt. exfalso. lra.
        - apply Qleb_false in Hq. rewrite Hpos. tauto. }
      split; [intros _; exact Hmono|].
      split.
      * destruct (Qleb (ORB.low r) (ORB.sl_price (ORB.long_exit p r s))) eqn:Hq.
        -- right. left. apply Qleb_le in Hq. auto.
        -- left. apply Hiff1. apply Qleb_false in Hq. exact Hq.
      * intros _. auto.
    + destruct Hout as [[Hp' Hsl]|[Hp' Hex]].
      * rewrite Hp', Hsl. split; [intros _; lra|].
        split; [left; exact Hpos|]. intros Hw. contradiction.
      * rewrite Hp'. split; [intros; lia|].
        split; [right; right; exact Hex|]. intros Hw. contradiction.
  - intros Hpos.
    assert (Ht : ORB.traded_today s = true) by (apply Htr; lia).
    destruct (short_exit_trailing p r s Hts) as (Hmin & Hmono & Hexit).
    assert (Hce : ORB.check_exits p r s = ORB.short_exit p r s).
    { unfold ORB.check_exits. rewrite Hpos. reflexivity. }
    destruct (Hcases Ht) as [[Hw Hstep]|[Hnw Hout]].
    + rewrite Hstep, Hce.
      assert (Hiff0 : ORB.in_pos (ORB.short_exit p r s) = 0%Z
                      <-> ORB.sl_price (ORB.short_exit p r s) <= ORB.high r).
      { rewrite Hexit.
        destruct (Qgeb (ORB.high r) (ORB.sl_price (ORB.short_exit p r s))) eqn:Hq.
        - apply Qgeb_ge in Hq. tauto.
        - assert (Hlt : ORB.high r < ORB.sl_price (ORB.short_exit p r s))
            by (apply Qleb_false; exact Hq).
          rewrite Hpos. split; [lia|]. intros Hle. exfalso. lra. }
      assert (Hiff1 : ORB.in_pos (ORB.short_exit p r s) = (-1)%Z
                      <-> ORB.high r < ORB.sl_price (ORB.short_exit p r s)).
      { rewrite Hexit.
        destruct (Qgeb (ORB.high r) (ORB.sl_price (ORB.short_exit p r s))) eqn:Hq.
        - apply Qgeb_ge in Hq. split; [lia|]. intros Hlt. exfalso. lra.
        - assert (Hlt : ORB.high r < ORB.sl_price (ORB.short_exit p r s))
            by (apply Qleb_false; exact Hq).
          rewrite Hpos. tauto. }
      split; [intros _; exact Hmono|].
      split.
      * destruct (Qgeb (ORB.high r) (ORB.sl_price (ORB.short_exit p r s))) eqn:Hq.
        -- right. left. apply Qgeb_ge in Hq. auto.
        -- left. apply Hiff1. apply Qleb_false. exact Hq.
      * intros _. auto.
    + destruct Hout as [[Hp' Hsl]|[Hp' Hex]].
      * rewrite Hp', Hsl. split; [intros _; lra|].
        split; [left; exact Hpos|]. intros Hw. contradiction.
      * rewrite Hp'. split; [intros; lia|].
        split; [right; right; exact Hex|]. intros Hw. contradiction.
Qed.

Lemma orb_trailing_stop_witness :
  ORB.sl_price (ORBExamples.state_at ORBExamples.trailing_params 4)
  == Qmax (ORB.sl_price (ORBExamples.state_at ORBExamples.trailing_params 3))
          (106 - 3 * 1).
Proof.
  pose proof (orb_trailing_stop ORBExamples.trailing_params
                ORBExamples.stop_first_rows 3
                (ORBExamples.bar5 585 101 101.2 100)
                (ORBExamples.bar5 590 104 106 98)
                (ORBExamples.state_at ORBExamples.trailing_params 3)
                (ORBExamples.state_at ORBExamples.trailing_params 4)
                eq_refl eq_refl eq_refl eq_refl eq_refl eq_refl) as [Hlong _].
  destruct (Hlong eq_refl) as (_ & _ & Hwin).
  destruct Hwin as (Hmax & _).
  - split; cbn; lia.
  - exact Hmax.
Defined.

Lemma orb_one_entry_per_day_witness :
  (length (List.filter
             (KernelProps.is_entry
                (ORB._numba_orb_logic ORBExamples.default_params
                                      ORBExamples.stop_first_rows))
             (List.seq 0 (6 - 0))) <= 1)%nat.
Proof.
  apply (orb_one_entry_per_day ORBExamples.default_params
           ORBExamples.stop_first_rows 0 5).
  split; [lia|]. split; [cbn; lia|].
  intros j r ra _ Hj Hr Hra.
  injection Hra as <-.
  do 6 (destruct j as [|j]; [injection Hr as <-; reflexivity|]).
  lia.
Defined.

(** The engine books every bar close to close: the gross return of bar
    [i + 1] is the position taken at bar [i] times the relative change of
    the close. *)
Lemma orb_backtest_gross (p : ORB.params) (rows : list ORB.row)
    (i : nat) (rp r : ORB.row) (s : ORB.state) :
  rows !! i = Some rp -> rows !! S i = Some r ->
  ORB.states p rows !! i = Some s ->
  Series.at_ (Engine.strat_returns (map ORB.bar_of_row rows)
                                   (ORB._numba_orb_logic p rows)) (S i)
  == inject_Z (ORB.in_pos s) * (ORB.close r / ORB.close rp - 1).
Proof.
  intros Hrp Hr Hs.
  destruct (states_defined p rows (S i)) as [s' Hs'].
  { eapply lookup_lt_Some; eauto. }
  assert (Hsig : ORB._numba_orb_logic p rows !! i = Some (ORB.in_pos s)).
  { rewrite signals_lookup, Hs. reflexivity. }
  assert (Hsig' : ORB._numba_orb_logic p rows !! S i = Some (ORB.in_pos s')).
  { rewrite signals_lookup, Hs'. reflexivity. }
  pose proof (pos_lookup_S _ i _ _ Hsig' Hsig) as Hpos.
  assert (Hret : Engine.returns (map ORB.bar_of_row rows) !! S i
                 = Some (ORB.close r / ORB.close rp - 1)).
  { apply (returns_lookup_S _ i (ORB.bar_of_row r) (ORB.bar_of_row rp)).
    - change (map ORB.bar_of_row rows) with (ORB.bar_of_row <$> rows).
      rewrite list_lookup_fmap, Hr. reflexivity.
    - change (map ORB.bar_of_row rows) with (ORB.bar_of_row <$> rows).
      rewrite list_lookup_fmap, Hrp. reflexivity. }
  unfold Series.at_, Engine.strat_returns, Series.mul.
  rewrite lookup_zip_with, Hpos, Hret. reflexivity.
Qed.

(** C5 (as the code has it).  In the ORB kernel with the fixed target, on a
    trade-window bar whose low is at or below the stop of a held long, the
    stop branch is taken before the target is looked at: the position is
    flattened and the signal is 0, whatever the high and the target are.
    Short mirrored.  The kernel keeps no fill price and no win/loss mark; the
    engine books the exit bar close to close. *)
Theorem orb_stop_first
    (E : Engine.config) (p : ORB.params) (rows : list ORB.row) (i : nat)
    (rp r : ORB.row) (s : ORB.state) :
  ORB.use_ts p = false ->
  rows !! i = Some rp -> rows !! S i = Some r ->
  ORB.day_id r = ORB.day_id rp ->
  KernelProps.in_trade_window p r ->
  ORB.states p rows !! i = Some s ->
  let res := ORB.backtest E p rows in
  (ORB.in_pos s = 1%Z -> ORB.low r <= ORB.sl_price s ->
     Engine.r_signals res !! S i = Some 0%Z)
  /\ (ORB.in_pos s = (-1)%Z -> ORB.sl_price s <= ORB.high r ->
     Engine.r_signals res !! S i = Some 0%Z)
  /\ Series.at_ (Engine.strat_returns (map ORB.bar_of_row rows)
                                      (Engine.r_signals res)) (S i)
     == inject_Z (ORB.in_pos s) * (ORB.close r / ORB.close rp - 1).
Proof.
  intros Hts Hrp Hr Hday Hw Hs res. subst res.
  unfold ORB.backtest. cbn [Engine.run Engine.r_signals].
  pose proof (states_inv p rows i s Hs) as [_ Htr].
  pose proof (states_lookup_S p rows i rp r s Hrp Hr Hs) as Hs'.
  destruct (exit_fixed_stop p r s Hts) as [Hl Hsh].
  split; [|split].
  - intros Hpos Hlow.
    rewrite signals_lookup, Hs'. cbn. f_equal.
    rewrite step_trade_window; auto; [|apply Htr; lia].
    unfold ORB.check_exits. rewrite Hpos. cbn [Z.eqb Pos.eqb].
    apply long_exit_stop_first. rewrite Hl. exact Hlow.
  - intros Hpos Hhigh.
    rewrite signals_lookup, Hs'. cbn. f_equal.
    rewrite step_trade_window; auto; [|apply Htr; lia].
    unfold ORB.check_exits. rewrite Hpos. cbn [Z.eqb Pos.eqb].
    apply short_exit_stop_first. rewrite Hsh. exact Hhigh.
  - apply orb_backtest_gross; assumption.
Qed.

Lemma orb_stop_first_witness :
  Engine.r_signals
    (ORB.backtest Engine.default_config ORBExamples.default_params
                  ORBExamples.stop_first_rows) !! 4%nat = Some 0%Z.
Proof.
  refine (proj1 (orb_stop_first Engine.default_config ORBExamples.default_params
                   ORBExamples.stop_first_rows 3
                   (ORBExamples.bar5 585 101 101.2 100)
                   (ORBExamples.bar5 590 104 106 98)
                   (ORBExamples.state_at ORBExamples.default_params 3)
                   eq_refl eq_refl eq_refl eq_refl _ eq_refl) eq_refl _).
  - split; cbn; lia.
  - vm_compute. discriminate.
Defined.

(** C5 as stated fails: in the example the bar after the entry spans both
    the stop (99) and the target (105); the long is closed, but the engine
    books the bar at its close of 104, a gain on the entry at 101, and not
    at the stop. *)
Lemma orb_stop_first_loss_counterexample : ~ ORBExamples.stop_first_loss_claim.
Proof.
  intros H.
  assert (Hcfg : EngineExamples.sane_config Engine.default_config).
  { unfold EngineExamples.sane_config. cbn. repeat split; lra. }
  assert (Hw : KernelProps.in_trade_window ORBExamples.default_params
                 (ORBExamples.bar5 590 104 106 98)) by (split; cbn; lia).
  assert (Hlow : ORB.low (ORBExamples.bar5 590 104 106 98)
                 <= ORB.sl_price (ORBExamples.state_at ORBExamples.default_params 3))
    by (vm_compute; discriminate).
  assert (Hhigh : ORB.tp_price (ORBExamples.state_at ORBExamples.default_params 3)
                  <= ORB.high (ORBExamples.bar5 590 104 106 98))
    by (vm_compute; discriminate).
  destruct (H Engine.default_config ORBExamples.default_params
              ORBExamples.stop_first_rows 3%nat
              (ORBExamples.bar5 585 101 101.2 100)
              (ORBExamples.bar5 590 104 106 98)
              (ORBExamples.state_at ORBExamples.default_params 3)
              Hcfg eq_refl eq_refl eq_refl eq_refl Hw eq_refl eq_refl Hlow Hhigh)
    as (_ & _ & Hloss).
  vm_compute in Hloss. discriminate.
Qed.

(** ** Claims about the overnight kernel *)

(** C4 (as the code has it).  On the first bar of a new calendar day the
    overnight kernel closes any held position before it looks at the bar:
    the outcome of that bar is the one a flat position would give, and the
    signal is 0 when the session's single trade has already been taken.  What
    stays alive across midnight, for a bar before [session_start], is the
    session itself: range, traded flag and breakout flags are kept. *)
Theorem overnight_day_boundary
    (p : Overnight.params) (rows : list Overnight.row) (i : nat)
    (rp r : Overnight.row) (s : Overnight.state) :
  rows !! i = Some rp -> rows !! S i = Some r ->
  Overnight.day_id r <> Overnight.day_id rp ->
  Overnight.states p rows !! i = Some s ->
  Overnight.trace p rows !! S i
  = Some (Overnight.step p (Overnight.day_id rp) r (Overnight.set_in_pos 0 s))
  /\ (Overnight.traded_session s = true ->
      Overnight._numba_overnight_logic p rows !! S i = Some 0%Z)
  /\ ((Overnight.time r < Overnight.start_min p)%Z ->
      Overnight.day_boundary p (Overnight.day_id rp) r s
      = Overnight.set_in_pos 0 s).
Proof.
  intros Hrp Hr Hday Hs.
  pose proof (overnight_trace_S p rows i rp r s Hrp Hr Hs) as Ht.
  split; [|split].
  - rewrite Ht. f_equal.
    rewrite (step_after_boundary p _ r s).
    rewrite (step_after_boundary p _ r (Overnight.set_in_pos 0 s)).
    rewrite <- (day_boundary_forgets p _ r s Hday). reflexivity.
  - intros Htr. rewrite overnight_signals_lookup, Ht. cbn. f_equal.
    rewrite step_after_boundary.
    apply step_flat_blocked.
    + apply day_boundary_flat, Hday.
    + apply day_boundary_no_entry; assumption.
  - intros Hlt. apply day_boundary_keeps_session; assumption.
Qed.

Lemma overnight_day_boundary_witness :
  Overnight._numba_overnight_logic OvernightExamples.default_params
    OvernightExamples.midnight_rows !! 13%nat = Some 0%Z.
Proof.
  refine (proj1 (proj2
    (overnight_day_boundary OvernightExamples.default_params
       OvernightExamples.midnight_rows 12
       (OvernightExamples.quiet 1 1410) (OvernightExamples.quiet 2 0)
       (OvernightExamples.state_at 12) eq_refl eq_refl _ eq_refl)) eq_refl).
  cbn. lia.
Defined.

(** C4 as stated fails: in the example the long opened at 19:00 is still
    held on the 23:30 bar, the 00:00 bar touches neither stop nor target and
    is hours before the session end, and yet its signal is flat. *)
Lemma midnight_carry_counterexample : ~ OvernightExamples.midnight_carry_claim.
Proof.
  intros H.
  assert (Hday : Overnight.day_id (OvernightExamples.quiet 2 0)
                 <> Overnight.day_id (OvernightExamples.quiet 1 1410))
    by (cbn; lia).
  assert (Hheld : Overnight.in_pos (OvernightExamples.state_at 12) <> 0%Z)
    by (vm_compute; discriminate).
  specialize (H OvernightExamples.default_params OvernightExamples.midnight_rows
                12%nat (OvernightExamples.quiet 1 1410)
                (OvernightExamples.quiet 2 0) (OvernightExamples.state_at 12)
                eq_refl eq_refl eq_refl Hday eq_refl Hheld eq_refl).
  vm_compute in H. discriminate.
Qed.

(** ** Claims about the complementarity scorer *)

Section ScoreFacts.
Import Scorer ScorerProps.

(** The sum the scorer accumulates, before [min(100, score)]. *)
Lemma raw_score_bounds (o : Q) (regime gap lunch post : bool) :
  0 <= o -> o <= 1 ->
  let raw :=
    25 * (1 - o) + 35 * bool_to_Q regime + 20 * bool_to_Q gap
    + 10 * bool_to_Q (Qltb o 0.5)
    + 5 * bool_to_Q lunch + 5 * bool_to_Q post in
  0 <= raw /\ raw <= 100.
Proof.
  intros H0 H1.
  destruct regime, gap, lunch, post, (Qltb o 0.5); cbn [bool_to_Q]; split; lra.
Qed.

Lemma score_unfold (py_int : string -> option Z) archetype params :
  let res := get_complementary_score py_int archetype params in
  let s := minute_of_day (fst (strategy_window res)) in
  let e := minute_of_day (snd (strategy_window res)) in
  complementary_score res
  == Qmin 100
       (25 * (1 - time_overlap res) + 35 * bool_to_Q (regime_complement res)
        + 20 * bool_to_Q (gap_coverage res)
        + 10 * bool_to_Q (Qltb (time_overlap res) 0.5)
        + 5 * bool_to_Q (covers_lunch s e)
        + 5 * bool_to_Q (covers_post_close s e)).
Proof.
  unfold get_complementary_score.
  cbn [complementary_score time_overlap regime_complement gap_coverage
       strategy_window].
  set (w := get_strategy_time_window py_int archetype params).
  set (o := compute_time_overlap w _).
  set (rg := (_ || _)%bool).
  set (gp := gap_coverage_of _ _ _).
  set (lu := covers_lunch _ _).
  set (pc := covers_post_close _ _).
  assert (Hraw :
    (let score := 0 + (1 - o) * 25 + (if rg then 35 else 0)
                  + (if gp then 20 else 0)
                  + (if Qltb o 0.5 then 10 else 0) in
     let score := if lu then score + 5 else score in
     if pc then score + 5 else score)
    == 25 * (1 - o) + 35 * bool_to_Q rg + 20 * bool_to_Q gp
       + 10 * bool_to_Q (Qltb o 0.5) + 5 * bool_to_Q lu + 5 * bool_to_Q pc).
  { cbv zeta. destruct rg, gp, lu, pc, (Qltb o 0.5); cbn [bool_to_Q]; ring. }
  cbv zeta in Hraw |- *. rewrite Hraw. reflexivity.
Qed.

End ScoreFacts.



(** Windows inside the reference.  No single window equals the two-window
    reference union ([reference_union_is_no_window]); for any candidate
    whose non-empty window runs over reference minutes only,
    [time_overlap] is 1, the time-independence and low-overlap terms score
    nothing, and the score is
    [35*[regime_complement] + 20*[gap_coverage] + 5*[covers_lunch]
    + 5*[covers_post_close]], at most 60. *)
Lemma window_inside_reference_score
    (py_int : string -> option Z) (archetype : string)
    (params : option (gmap string Scorer.pyval)) :
  let res := Scorer.get_complementary_score py_int archetype params in
  let s := Scorer.minute_of_day (fst (Scorer.strategy_window res)) in
  let e := Scorer.minute_of_day (snd (Scorer.strategy_window res)) in
  ScorerProps.minutes_of (Scorer.strategy_window res) <> ∅ ->
  ScorerProps.minutes_of (Scorer.strategy_window res)
    ⊆ ScorerProps.reference_minutes ->
  Scorer.time_overlap res == 1
  /\ Scorer.complementary_score res
     == 35 * Scorer.bool_to_Q (Scorer.regime_complement res)
        + 20 * Scorer.bool_to_Q (Scorer.gap_coverage res)
        + 5 * Scorer.bool_to_Q (Scorer.covers_lunch s e)
        + 5 * Scorer.bool_to_Q (Scorer.covers_post_close s e)
  /\ Scorer.complementary_score res <= 60.
Proof.
  intros res s e Hne Hsub.
  pose proof (score_unfold py_int archetype params) as Hs.
  cbv zeta in Hs. fold res in Hs. fold s in Hs. fold e in Hs.
  assert (Ho : Scorer.time_overlap res == 1).
  { subst res. unfold Scorer.get_complementary_score in *.
    cbn [Scorer.time_overlap Scorer.strategy_window] in *.
    apply compute_time_overlap_subset; auto.
    apply get_strategy_time_window_valid. }
  assert (Hlt : Qltb (Scorer.time_overlap res) 0.5 = false).
  { unfold Qltb. apply negb_false_iff, Qle_bool_iff. rewrite Ho. lra. }
  rewrite Hlt, Ho in Hs. cbn [Scorer.bool_to_Q] in Hs.
  assert (Hexcl : Scorer.covers_lunch s e && Scorer.covers_post_close s e = false).
  { unfold Scorer.covers_lunch, Scorer.covers_post_close.
    destruct (s <=? 11 * 60 + 30)%nat eqn:E1; [|reflexivity].
    destruct (15 * 60 + 45 <=? s)%nat eqn:E2; [|apply andb_false_r].
    apply Nat.leb_le in E1, E2. cbn in E1, E2. lia. }
  split; [exact Ho|].
  rewrite Hs.
  destruct (Scorer.regime_complement res), (Scorer.gap_coverage res),
    (Scorer.covers_lunch s e), (Scorer.covers_post_close s e);
    try discriminate Hexcl; cbn [Scorer.bool_to_Q];
    (split; [rewrite Q.min_r; [ring|lra] | apply Q.min_le_iff; right; lra]).
Qed.

Example ma_crossover_full_overlap :
  Scorer.time_overlap
    (Scorer.get_complementary_score Scorer.decimal_int "ma_crossover" None) == 1.
Proof.
  refine (proj1 (window_inside_reference_score Scorer.decimal_int "ma_crossover" None _ _)).
  - change (ScorerProps.minutes_of (Scorer.Dtime 9 30, Scorer.Dtime 15 45) <> ∅).
    intros H. apply (not_elem_of_empty (C:=gset nat) 570%nat).
    rewrite <- H. apply elem_of_window_to_minutes. cbn. lia.
  - change (ScorerProps.minutes_of (Scorer.Dtime 9 30, Scorer.Dtime 15 45)
              ⊆ ScorerProps.reference_minutes).
    intros m Hm. apply elem_of_window_to_minutes in Hm. cbn in Hm.
    apply elem_of_reference_minutes. lia.
Qed.


(** ** Claims about the daemon's state file *)

(** The frame of a save without forced flags: whatever the state file
    holds, its [paused] and [stopped] fields are afterwards what they were,
    every field that is not a key of the in-memory state (apart from the two
    flags) is what it was, and every other key of the in-memory state is
    written with the in-memory value. *)
Lemma save_state_frame (w : Daemon.world) :
  let w' := Daemon._save_state None w in
  Daemon.file_field (Daemon.disk w') "paused"
  = Daemon.file_field (Daemon.disk w) "paused"
  /\ Daemon.file_field (Daemon.disk w') "stopped"
     = Daemon.file_field (Daemon.disk w) "stopped"
  /\ (forall k, Daemon.daemon_metrics (Daemon._state w) !! k = None ->
                Daemon.file_field (Daemon.disk w') k
                = Daemon.file_field (Daemon.disk w) k)
  /\ (forall k v, Daemon.daemon_metrics (Daemon._state w) !! k = Some v ->
                  Daemon.disk w <> Daemon.NonObject ->
                  Daemon.file_field (Daemon.disk w') k = Some v)
  /\ (forall k v, Daemon.daemon_metrics (Daemon._state w) !! k = Some v ->
                  Daemon.is_control_flag k = false
                  /\ Daemon._state w !! k = Some v)
  /\ Daemon._state w' = Daemon._state w.
Proof.
  intros w'. subst w'.
  assert (Hframe : forall k,
             Daemon.daemon_metrics (Daemon._state w) !! k = None ->
             Daemon.file_field (Daemon.disk (Daemon._save_state None w)) k
             = Daemon.file_field (Daemon.disk w) k).
  { intros k Hk.
    destruct (Daemon.disk w) eqn:Hd;
      try (rewrite (save_state_field None w k) by congruence;
           rewrite Hk, Hd; reflexivity).
    rewrite (save_state_non_object None w Hd). rewrite Hd. reflexivity. }
  split; [apply Hframe; rewrite daemon_metrics_lookup; reflexivity|].
  split; [apply Hframe; rewrite daemon_metrics_lookup; reflexivity|].
  split; [exact Hframe|].
  split.
  { intros k v Hk Hd. rewrite (save_state_field None w k Hd), Hk. reflexivity. }
  split.
  { intros k v Hk. rewrite daemon_metrics_lookup in Hk.
    destruct (Daemon.is_control_flag k); [discriminate|]. auto. }
  unfold Daemon._save_state. destruct (Daemon.disk w); reflexivity.
Qed.

(** C9.  A periodic save keeps [paused] and [stopped] as the file has
    them, but it does not overlay daemon-owned fields only: every key of the
    in-memory state other than the two flags is written over the file, and
    that includes the copies of the dashboard's settings that a poll has
    made.  Here the poll copied the directive, the dashboard replaced it in
    the file, and the save puts the old one back. *)
Theorem save_state_stale_directive :
  (forall w k v,
      Daemon.is_control_flag k = false ->
      Daemon._state w !! k = Some v ->
      Daemon.disk w <> Daemon.NonObject ->
      Daemon.file_field (Daemon.disk (Daemon._save_state None w)) k = Some v)
  /\ Daemon.initial_state !! "directive"%string = None
  /\ Daemon._state StaleSettings.at_save !! "directive"%string
     = Some (Daemon.JStr "focus on lunch hour")
  /\ Daemon.file_field (Daemon.disk StaleSettings.at_save) "directive"
     = Some (Daemon.JStr "focus on the open")
  /\ Daemon.file_field
       (Daemon.disk (Daemon._save_state None StaleSettings.at_save)) "directive"
     = Some (Daemon.JStr "focus on lunch hour")
  /\ Daemon.file_field
       (Daemon.disk (Daemon._save_state None StaleSettings.at_save)) "paused"
     = Daemon.file_field (Daemon.disk StaleSettings.at_save) "paused"
  /\ Daemon.file_field
       (Daemon.disk (Daemon._save_state None StaleSettings.at_save)) "stopped"
     = Daemon.file_field (Daemon.disk StaleSettings.at_save) "stopped".
Proof.
  split.
  - intros w k v Hk Hv Hd.
    rewrite (save_state_field None w k Hd), daemon_metrics_lookup, Hk, Hv.
    reflexivity.
  - vm_compute. repeat split; reflexivity.
Qed.

(** C10.  Starting the daemon force-writes [paused = false] and
    [stopped = false] into the state file whatever was written there: a flag
    set from outside is erased, and a missing or unreadable file is created
    with both flags false.  (A file whose JSON is not an object has no flags
    and is left alone.) *)
Theorem start_clears_flags (now : string) (w : Daemon.world) :
  let w' := Daemon.start now w in
  (forall v, Daemon.file_field (Daemon.disk w) "paused" = Some v ->
             Daemon.file_field (Daemon.disk w') "paused"
             = Some (Daemon.JBool false))
  /\ (forall v, Daemon.file_field (Daemon.disk w) "stopped" = Some v ->
                Daemon.file_field (Daemon.disk w') "stopped"
                = Some (Daemon.JBool false))
  /\ match Daemon.disk w with
     | Daemon.NonObject => Daemon.disk w' = Daemon.NonObject
     | _ =>
         Daemon.file_field (Daemon.disk w') "paused" = Some (Daemon.JBool false)
         /\ Daemon.file_field (Daemon.disk w') "stopped"
            = Some (Daemon.JBool false)
     end
  /\ Daemon._state w' !! "paused" = Some (Daemon.JBool false)
  /\ Daemon._state w' !! "stopped" = Some (Daemon.JBool false).
Proof.
  intros w'. subst w'. unfold Daemon.start.
  set (w3 := Daemon.set_state "stopped" _ _).
  assert (Hdisk : Daemon.disk w3 = Daemon.disk w).
  { subst w3. cbn [Daemon.set_state Daemon.disk].
    rewrite load_state_disk. reflexivity. }
  assert (Hflag : forall k, Daemon.is_control_flag k = true ->
                            Daemon.disk w <> Daemon.NonObject ->
                            Daemon.file_field
                              (Daemon.disk (Daemon._save_state
                                              (Some Daemon.cleared_flags) w3)) k
                            = Some (Daemon.JBool false)).
  { intros k Hk Hd. rewrite save_state_field by (rewrite Hdisk; exact Hd).
    destruct (decide (Daemon.cleared_flags = ∅)) as [E|_];
      [destruct (cleared_flags_nonempty E)|].
    rewrite cleared_flags_lookup, Hk. reflexivity. }
  assert (Hmem : Daemon._state (Daemon._save_state (Some Daemon.cleared_flags) w3)
                 = Daemon._state w3).
  { unfold Daemon._save_state. destruct (Daemon.disk w3); reflexivity. }
  split; [|split; [|split; [|split]]].
  - intros v Hv. apply Hflag; [reflexivity|].
    intros E. rewrite E in Hv. discriminate.
  - intros v Hv. apply Hflag; [reflexivity|].
    intros E. rewrite E in Hv. discriminate.
  - destruct (Daemon.disk w) eqn:Hd;
      try (split; apply Hflag; [reflexivity|congruence|reflexivity|congruence]).
    rewrite save_state_non_object; rewrite Hdisk; reflexivity.
  - rewrite Hmem. subst w3. cbn [Daemon.set_state Daemon._state].
    rewrite lookup_insert_ne by discriminate. apply lookup_insert_eq.
  - rewrite Hmem. subst w3. cbn [Daemon.set_state Daemon._state].
    apply lookup_insert_eq.
Qed.

(** ** The definitions at work *)

Section Examples.
Import Scorer.

(** "18:05" / "09:25" given as parameters select the Drift window. *)
Example window_from_params :
  get_strategy_time_window decimal_int "overnight"
    (Some (<["session_start" := PStr "18:05"]>
           (<["session_end" := PStr "09:25"]> ∅)))
  = (Dtime 18 5, Dtime 9 25).
Proof. vm_compute. reflexivity. Qed.

(** Without an end time the window closes two hours later, at :45. *)
Example window_default_end :
  get_strategy_time_window decimal_int "orb_breakout"
    (Some (<["orb_start" := PStr "10:00"]> ∅))
  = (Dtime 10 0, Dtime 12 45).
Proof. vm_compute. reflexivity. Qed.

(** An hour outside 0..23 falls back to the archetype's default. *)
Example window_bad_hour :
  get_strategy_time_window decimal_int "gap_fill_fade"
    (Some (<["entry_time" := PStr "25:00"]> ∅))
  = (Dtime 9 30, Dtime 11 0).
Proof. vm_compute. reflexivity. Qed.

(** The default lunch fade: full overlap, regime + gap + lunch = 60. *)
Example lunch_range_fade_score :
  let res := get_complementary_score decimal_int "lunch_range_fade" None in
  time_overlap res == 1 /\ regime_complement res = true
  /\ gap_coverage res = true /\ complementary_score res == 60.
Proof. vm_compute. repeat split; reflexivity. Qed.

(** A post-close window 16:00-18:00 lies in the dead zone: no overlap. *)
Example post_close_score :
  let res :=
    get_complementary_score decimal_int "first_hour_fade"
      (Some (<["session_start" := PStr "16:00"]>
             (<["session_end" := PStr "18:00"]> ∅))) in
  time_overlap res == 0 /\ complementary_score res == 95.
Proof. vm_compute. repeat split; reflexivity. Qed.
End Examples.

Section DaemonRuns.
Import Daemon DaemonExamples.

(** A periodic save next to a paused file: the flag stays, the counter is
    written, the directive is untouched. *)
Example save_keeps_pause :
  let f := disk (_save_state None running) in
  file_field f "paused" = Some (JBool true)
  /\ file_field f "total_cycles" = Some (JInt 8)
  /\ file_field f "directive" = Some (JStr "focus on lunch hour").
Proof. vm_compute. repeat split; reflexivity. Qed.

(** Starting next to the same file clears the flag and keeps the counter
    that was on disk. *)
Example start_resumes :
  let f := disk (start "2026-01-05T09:00:00" (World initial_state paused_file)) in
  file_field f "paused" = Some (JBool false)
  /\ file_field f "stopped" = Some (JBool false)
  /\ file_field f "total_cycles" = Some (JInt 7)
  /\ file_field f "started_at" = Some (JStr "2026-01-05T09:00:00").
Proof. vm_compute. repeat split; reflexivity. Qed.
End DaemonRuns.

Section KernelRuns.
(** The ORB example enters once, at 09:45, and is out on the next bar. *)
Example orb_example_signals :
  ORB._numba_orb_logic ORBExamples.default_params ORBExamples.stop_first_rows
  = [0; 0; 0; 1; 0; 0]%Z.
Proof. vm_compute. reflexivity. Qed.

(** With the trailing stop the 09:50 bar lifts the stop from 99 to 103. *)
Example orb_example_trailing :
  ORB.sl_price (ORBExamples.state_at ORBExamples.trailing_params 4) == 103.
Proof. vm_compute. reflexivity. Qed.

(** The overnight example is long from 19:00 to 23:30 and flat from 00:00. *)
Example overnight_example_signals :
  Overnight._numba_overnight_logic OvernightExamples.default_params
    OvernightExamples.midnight_rows
  = [0; 0; 0; 1; 1; 1; 1; 1; 1; 1; 1; 1; 1; 0; 0]%Z.
Proof. vm_compute. reflexivity. Qed.

(** The squeezed short ends below zero. *)
Example squeeze_equity :
  Series.at_ (Engine.equity_curve Engine.default_config
                EngineExamples.squeeze_bars EngineExamples.squeeze_signals) 2
  == -99899.
Proof. vm_compute. reflexivity. Qed.
End KernelRuns.

(** * Further properties *)

(** ** The engine beyond the cost formula *)

Section EngineMore.
Import Series Engine.
Variable E : config.
Variable df : list bar.

Lemma cumprod_from_take acc s m :
  take m (cumprod_from acc s) = cumprod_from acc (take m s).
Proof.
  revert acc m. induction s as [|x r IH]; intros acc m.
  - destruct m; reflexivity.
  - destruct m as [|m]; cbn; [reflexivity|]. f_equal. apply IH.
Qed.

Lemma cumprod_take s m : take m (cumprod s) = cumprod (take m s).
Proof.
  destruct s as [|x r]; [destruct m; reflexivity|].
  destruct m as [|m]; cbn; [reflexivity|]. f_equal. apply cumprod_from_take.
Qed.

Lemma spec_position_agree (s1 s2 : list Z) i k :
  (forall j, (j < i)%nat -> s1 !! j = s2 !! j) -> (k <= i)%nat ->
  spec_position s1 k = spec_position s2 k.
Proof.
  intros H Hk. destruct k as [|j]; [reflexivity|].
  cbn. rewrite (H j) by lia. reflexivity.
Qed.

Lemma turnover_lookup_spec (s : list Z) i z :
  s !! i = Some z -> turnover s !! i = Some (spec_turnover s i).
Proof.
  intros H. destruct i as [|j].
  - apply (turnover_lookup_0 s z H).
  - apply (turnover_lookup_S s j z H).
Qed.

Lemma net_returns_lookup_spec (s : list Z) i :
  length s = length df -> (i < length df)%nat ->
  exists r c, returns df !! i = Some r /\ cost_pct E df !! i = Some c
              /\ net_returns E df s !! i
                 = Some (spec_position s i * r - spec_turnover s i * c).
Proof.
  intros Hlen Hi.
  destruct (lookup_lt_is_Some_2 s i) as [z Hz]; [lia|].
  destruct (lookup_lt_is_Some_2 (returns df) i) as [r Hr].
  { rewrite length_returns. exact Hi. }
  destruct (lookup_lt_is_Some_2 (cost_pct E df) i) as [c Hc].
  { rewrite length_cost_pct. exact Hi. }
  exists r, c. split; [exact Hr|]. split; [exact Hc|].
  apply net_returns_lookup; auto.
  - apply (pos_lookup_spec s i z Hz).
  - apply (turnover_lookup_spec s i z Hz).
Qed.

(** The net returns up to bar [i] only read the signals before [i]. *)
Lemma net_returns_prefix (s1 s2 : list Z) i :
  length s1 = length df -> length s2 = length df ->
  (forall j, (j < i)%nat -> s1 !! j = s2 !! j) ->
  take (S i) (net_returns E df s1) = take (S i) (net_returns E df s2).
Proof.
  intros H1 H2 Hag. apply list_eq. intros k.
  destruct (decide (k < S i)%nat) as [Hk|Hk].
  - rewrite !lookup_take_lt by exact Hk.
    destruct (decide (k < length df)%nat) as [Hn|Hn].
    + destruct (net_returns_lookup_spec s1 k H1 Hn) as (r & c & Hr & Hc & ->).
      destruct (net_returns_lookup_spec s2 k H2 Hn) as (r' & c' & Hr' & Hc' & ->).
      rewrite Hr in Hr'. rewrite Hc in Hc'.
      injection Hr' as <-. injection Hc' as <-.
      unfold spec_turnover.
      destruct k as [|k'].
      * reflexivity.
      * rewrite (spec_position_agree s1 s2 i (S k') Hag) by lia.
        rewrite (spec_position_agree s1 s2 i k' Hag) by lia. reflexivity.
    + rewrite !(proj2 (lookup_ge_None _ _));
        [reflexivity| |]; rewrite length_net_returns; auto; lia.
  - rewrite !lookup_take_ge by lia. reflexivity.
Qed.

Lemma turnover_prefix (s1 s2 : list Z) i :
  length s1 = length s2 ->
  (forall j, (j < i)%nat -> s1 !! j = s2 !! j) ->
  take (S i) (turnover s1) = take (S i) (turnover s2).
Proof.
  intros Hlen Hag. apply list_eq. intros k.
  destruct (decide (k < S i)%nat) as [Hk|Hk].
  - rewrite !lookup_take_lt by exact Hk.
    destruct (decide (k < length s1)%nat) as [Hn|Hn].
    + destruct (lookup_lt_is_Some_2 s1 k Hn) as [z1 Hz1].
      destruct (lookup_lt_is_Some_2 s2 k) as [z2 Hz2]; [lia|].
      rewrite (turnover_lookup_spec s1 k z1 Hz1), (turnover_lookup_spec s2 k z2 Hz2).
      unfold spec_turnover. destruct k as [|k']; [reflexivity|].
      rewrite (spec_position_agree s1 s2 i (S k') Hag) by lia.
      rewrite (spec_position_agree s1 s2 i k' Hag) by lia. reflexivity.
    + rewrite !(proj2 (lookup_ge_None _ _));
        [reflexivity| |]; rewrite length_turnover; lia.
  - rewrite !lookup_take_ge by lia. reflexivity.
Qed.

Lemma equity_prefix (s1 s2 : list Z) m :
  take m (net_returns E df s1) = take m (net_returns E df s2) ->
  take m (equity_curve E df s1) = take m (equity_curve E df s2).
Proof.
  intros H. unfold equity_curve.
  change (map ?f ?l) with (f <$> l).
  rewrite <- !fmap_take, !cumprod_take, <- !fmap_take, H. reflexivity.
Qed.

(** While the signals have been flat so far, nothing is earned or paid. *)
Lemma flat_prefix_net (s : list Z) m i :
  length s = length df ->
  (forall j, (j < m)%nat -> (j < length s)%nat -> s !! j = Some 0%Z) ->
  (i <= m)%nat -> (i < length df)%nat ->
  at_ (turnover s) i == 0 /\ at_ (net_returns E df s) i == 0.
Proof.
  intros Hlen Hflat Him Hi.
  assert (Hp : forall k, (k <= m)%nat -> (k < length df)%nat ->
                         spec_position s k = 0).
  { intros [|j] Hk Hkn; [reflexivity|]. cbn.
    rewrite (Hflat j) by lia. reflexivity. }
  assert (Ht : spec_turnover s i == 0).
  { unfold spec_turnover. destruct i as [|j]; [reflexivity|].
    rewrite (Hp (S j)), (Hp j) by lia. reflexivity. }
  destruct (lookup_lt_is_Some_2 s i) as [z Hz]; [lia|].
  destruct (net_returns_lookup_spec s i Hlen Hi) as (r & c & _ & _ & Hn).
  rewrite (at_Some _ _ _ (turnover_lookup_spec s i z Hz)).
  rewrite (at_Some _ _ _ Hn). split; [exact Ht|].
  rewrite Ht, (Hp i) by lia. ring.
Qed.

Lemma flat_prefix_equity (s : list Z) m i :
  length s = length df ->
  (forall j, (j < m)%nat -> (j < length s)%nat -> s !! j = Some 0%Z) ->
  (i <= m)%nat -> (i < length df)%nat ->
  at_ (equity_curve E df s) i == initial_capital E.
Proof.
  intros Hlen Hflat. induction i as [|i IH]; intros Him Hi.
  - destruct (lookup_lt_is_Some_2 df 0%nat Hi) as [b Hb].
    destruct (equity_lookup_0 E df s Hlen b Hb) as (e & He & Heq).
    rewrite (at_Some _ _ _ He). exact Heq.
  - assert (Hi' : (i < length df)%nat) by lia.
    destruct (equity_net_defined E df s Hlen i Hi') as (e & _ & He & _).
    destruct (equity_net_defined E df s Hlen (S i) Hi) as (_ & r & _ & Hr).
    destruct (equity_lookup_S E df s i e r He Hr) as (e' & He' & Heq).
    destruct (flat_prefix_net s m (S i) Hlen Hflat Him Hi) as [_ Hn].
    rewrite (at_Some _ _ _ Hr) in Hn.
    specialize (IH ltac:(lia) Hi'). rewrite (at_Some _ _ _ He) in IH.
    rewrite (at_Some _ _ _ He'), Heq, Hn, IH. ring.
Qed.

(** [ffill] keeps a property of the present values. *)
Lemma ffill_from_Forall {A} (P : A -> Prop) (s : list (option A)) last :
  (forall v, last = Some v -> P v) ->
  Forall (fun o => forall v, o = Some v -> P v) s ->
  Forall (fun o => forall v, o = Some v -> P v) (ffill_from last s).
Proof.
  revert last. induction s as [|x r IH]; intros last Hl Hs; cbn.
  - constructor.
  - inversion Hs as [|? ? Hx Hr]; subst.
    destruct x as [v|].
    + constructor; [exact Hx|]. apply IH; [exact Hx|exact Hr].
    + constructor; [exact Hl|]. apply IH; [exact Hl|exact Hr].
Qed.

Lemma safe_prices_Forall (P : Q -> Prop) :
  P 1 -> (forall b, b ∈ df -> ~ Close b == 0 -> P (Close b)) ->
  Forall P (safe_prices df).
Proof.
  intros H1 Hp. unfold safe_prices, fillna, ffill.
  assert (Hf : Forall (fun o => forall v, o = Some v -> P v)
                      (ffill_from None (replace0_nan (prices df)))).
  { apply ffill_from_Forall; [discriminate|].
    unfold replace0_nan, prices. apply Forall_forall. intros o Ho v ->.
    change (map ?f (map Close df)) with (f <$> (Close <$> df)) in Ho.
    apply list_elem_of_fmap in Ho. destruct Ho as (x & Hx & Hin).
    apply list_elem_of_fmap in Hin. destruct Hin as (b & -> & Hb).
    destruct (Qeqb (Close b) 0) eqn:Ez; [discriminate|].
    injection Hx as ->. apply Hp; [exact Hb|]. apply Qeqb_neq. exact Ez. }
  apply Forall_forall. intros x Hx.
  change (map ?f ?l) with (f <$> l) in Hx.
  apply list_elem_of_fmap in Hx. destruct Hx as (o & -> & Ho).
  rewrite Forall_forall in Hf. specialize (Hf o Ho).
  destruct o as [v|]; cbn; [apply Hf; reflexivity|exact H1].
Qed.

(** On [finite_run] inputs no division of the run has a zero divisor: the
    notional is non-zero on every bar and so is every close that
    [pct_change] divides by. *)
Lemma finite_run_divisors :
  EngineExamples.finite_run E df ->
  Forall (fun x => ~ x == 0) (notional E df)
  /\ Forall (fun p => ~ p == 0) (prices df).
Proof.
  intros [Hpv Hc]. split.
  - unfold notional.
    pose proof (safe_prices_Forall (fun q => ~ q == 0)) as Hs.
    assert (H1 : ~ 1 == 0) by (intros H; vm_compute in H; discriminate).
    specialize (Hs H1 (fun b _ Hnz => Hnz)).
    apply Forall_forall. intros x Hx.
    change (map ?f ?l) with (f <$> l) in Hx.
    apply list_elem_of_fmap in Hx. destruct Hx as (q & -> & Hq).
    rewrite Forall_forall in Hs. specialize (Hs q Hq).
    intros H0. apply Qmult_integral in H0. tauto.
  - unfold prices. apply Forall_forall. intros x Hx.
    change (map ?f ?l) with (f <$> l) in Hx.
    apply list_elem_of_fmap in Hx. destruct Hx as (b & -> & Hb).
    rewrite Forall_forall in Hc. apply Hc, Hb.
Qed.
End EngineMore.

(** X1.  With an all-flat signal series the engine trades nothing: over a
    bar table without a zero close and with a non-zero point value, on every
    bar the turnover and the net return are 0 and the equity is the initial
    capital. *)
Theorem flat_signals_keep_capital
    (E : Engine.config) (df : list Engine.bar) (signals : list Z) (i : nat) :
  EngineExamples.finite_run E df ->
  length signals = length df ->
  (forall j z, signals !! j = Some z -> z = 0%Z) ->
  (i < length df)%nat ->
  Series.at_ (Engine.r_turnover (Engine.run E df signals)) i == 0
  /\ Series.at_ (Engine.r_returns (Engine.run E df signals)) i == 0
  /\ Series.at_ (Engine.r_equity_curve (Engine.run E df signals)) i
     == Engine.initial_capital E.
Proof.
  intros _ Hlen Hz Hi. cbn [Engine.run Engine.r_turnover Engine.r_returns
                             Engine.r_equity_curve].
  assert (Hflat : forall j, (j < length df)%nat -> (j < length signals)%nat ->
                            signals !! j = Some 0%Z).
  { intros j _ Hj. destruct (lookup_lt_is_Some_2 signals j Hj) as [z Hjz].
    rewrite Hjz. f_equal. eapply Hz; eauto. }
  destruct (flat_prefix_net E df signals (length df) i Hlen Hflat) as [Ht Hn];
    [lia|exact Hi|].
  split; [exact Ht|]. split; [exact Hn|].
  apply (flat_prefix_equity E df signals (length df)); auto. lia.
Qed.

Lemma flat_signals_keep_capital_witness :
  Series.at_ (Engine.r_equity_curve
                (Engine.run Engine.default_config EngineExamples.sample_bars
                            [0; 0; 0]%Z)) 2 == 100000.
Proof.
  refine (proj2 (proj2 (flat_signals_keep_capital Engine.default_config
                          EngineExamples.sample_bars [0; 0; 0]%Z 2 _ _ _ _))).
  - split; [intros H; vm_compute in H; discriminate|].
    repeat first [apply List.Forall_nil
                 | apply List.Forall_cons;
                   [intros H; vm_compute in H; discriminate|]].
  - reflexivity.
  - intros j z H. do 3 (destruct j as [|j]; [injection H as <-; reflexivity|]).
    discriminate.
  - cbn. lia.
Defined.

(** X2.  The engine does not look ahead: two signal series that agree on
    the bars before [i] give the same turnover, net returns and equity on
    every bar up to and including [i]. *)
Theorem engine_no_lookahead
    (E : Engine.config) (df : list Engine.bar) (s1 s2 : list Z) (i : nat) :
  length s1 = length df -> length s2 = length df ->
  (forall j, (j < i)%nat -> s1 !! j = s2 !! j) ->
  take (S i) (Engine.r_turnover (Engine.run E df s1))
  = take (S i) (Engine.r_turnover (Engine.run E df s2))
  /\ take (S i) (Engine.r_returns (Engine.run E df s1))
     = take (S i) (Engine.r_returns (Engine.run E df s2))
  /\ take (S i) (Engine.r_equity_curve (Engine.run E df s1))
     = take (S i) (Engine.r_equity_curve (Engine.run E df s2)).
Proof.
  intros H1 H2 Hag. cbn [Engine.run Engine.r_turnover Engine.r_returns
                          Engine.r_equity_curve].
  pose proof (net_returns_prefix E df s1 s2 i H1 H2 Hag) as Hn.
  split; [apply turnover_prefix; [lia|exact Hag]|].
  split; [exact Hn|]. apply equity_prefix, Hn.
Qed.

Lemma engine_no_lookahead_witness :
  take 2 (Engine.r_equity_curve
            (Engine.run Engine.default_config EngineExamples.sample_bars
                        [1; 0; -1]%Z))
  = take 2 (Engine.r_equity_curve
              (Engine.run Engine.default_config EngineExamples.sample_bars
                          [1; 1; 1]%Z)).
Proof.
  refine (proj2 (proj2 (engine_no_lookahead Engine.default_config
                          EngineExamples.sample_bars
                          [1; 0; -1]%Z [1; 1; 1]%Z 1 _ _ _))).
  - reflexivity.
  - reflexivity.
  - intros j Hj. destruct j as [|j]; [reflexivity|lia].
Defined.

Section CostSign.
Import Series Engine.




Lemma ffill_from_lookup_None {A} (s : list (option A)) last i :
  s !! S i = Some None ->
  ffill_from last s !! S i = ffill_from last s !! i.
Proof.
  revert last i. induction s as [|x r IH]; intros last i H; [discriminate|].
  cbn in H. cbn [ffill_from].
  destruct i as [|i].
  - destruct r as [|y r]; [discriminate|]. cbn in H. injection H as ->.
    reflexivity.
  - change ((?c :: ?l) !! S (S i)) with (l !! S i).
    change ((?c :: ?l) !! S i) with (l !! i).
    apply IH. exact H.
Qed.
End CostSign.



(** X4.  The price the notional is computed from is never zero: it is the
    bar's close when that is non-zero, otherwise the value carried from the
    bar before, and 1 when the table starts with a zero close. *)
Theorem safe_prices_never_zero (df : list Engine.bar) :
  (forall i x, Engine.safe_prices df !! i = Some x -> ~ x == 0)
  /\ (forall i b, df !! i = Some b -> ~ Engine.Close b == 0 ->
                  Engine.safe_prices df !! i = Some (Engine.Close b))
  /\ (forall i b, df !! S i = Some b -> Engine.Close b == 0 ->
                  Engine.safe_prices df !! S i = Engine.safe_prices df !! i)
  /\ (forall b, df !! 0%nat = Some b -> Engine.Close b == 0 ->
                Engine.safe_prices df !! 0%nat = Some 1).
Proof.
  split; [|split; [|split]].
  - intros i x Hx.
    pose proof (safe_prices_Forall df (fun q => ~ q == 0)) as Hf.
    rewrite Forall_forall in Hf. apply Hf.
    + intros H. vm_compute in H. discriminate.
    + intros b _ Hnz. exact Hnz.
    + apply list_elem_of_lookup. eauto.
  - intros i b. apply safe_prices_lookup.
  - intros i b Hb Hz.
    unfold Engine.safe_prices, Series.ffill. rewrite !fillna_lookup.
    rewrite ffill_from_lookup_None; [reflexivity|].
    unfold Series.replace0_nan, Engine.prices.
    change (map ?f (map Engine.Close df)) with (f <$> (Engine.Close <$> df)).
    rewrite !list_lookup_fmap, Hb. cbn.
    apply Qeqb_eq in Hz. rewrite Hz. reflexivity.
  - intros b Hb Hz.
    unfold Engine.safe_prices, Series.ffill, Series.replace0_nan, Engine.prices.
    destruct df as [|b0 rest]; [discriminate|]. cbn in Hb. injection Hb as ->.
    cbn. apply Qeqb_eq in Hz. rewrite Hz. reflexivity.
Qed.

(** X5.  The equity curve compounds the net returns: over a bar table
    without a zero close and with a non-zero point value,
    [equity[i+1] = equity[i] * (1 + net[i+1])]. *)
Theorem equity_compounds
    (E : Engine.config) (df : list Engine.bar) (signals : list Z) (i : nat) :
  EngineExamples.finite_run E df ->
  length signals = length df -> (S i < length df)%nat ->
  Series.at_ (Engine.r_equity_curve (Engine.run E df signals)) (S i)
  == Series.at_ (Engine.r_equity_curve (Engine.run E df signals)) i
     * (1 + Series.at_ (Engine.r_returns (Engine.run E df signals)) (S i)).
Proof.
  intros _ Hlen Hi. cbn [Engine.run Engine.r_equity_curve Engine.r_returns].
  destruct (equity_net_defined E df signals Hlen i) as (e & _ & He & _); [lia|].
  destruct (equity_net_defined E df signals Hlen (S i) Hi) as (_ & r & _ & Hr).
  destruct (equity_lookup_S E df signals i e r He Hr) as (e' & He' & Heq).
  rewrite (at_Some _ _ _ He), (at_Some _ _ _ He'), (at_Some _ _ _ Hr).
  exact Heq.
Qed.

Lemma equity_compounds_witness :
  Series.at_ (Engine.r_equity_curve
                (Engine.run Engine.default_config EngineExamples.squeeze_bars
                            EngineExamples.squeeze_signals)) 2
  == Series.at_ (Engine.r_equity_curve
                   (Engine.run Engine.default_config EngineExamples.squeeze_bars
                               EngineExamples.squeeze_signals)) 1
     * (1 + Series.at_ (Engine.r_returns
                          (Engine.run Engine.default_config
                                      EngineExamples.squeeze_bars
                                      EngineExamples.squeeze_signals)) 2).
Proof.
  apply (equity_compounds Engine.default_config EngineExamples.squeeze_bars
           EngineExamples.squeeze_signals 1).
  - split; [intros H; vm_compute in H; discriminate|].
    repeat first [apply List.Forall_nil
                 | apply List.Forall_cons;
                   [intros H; vm_compute in H; discriminate|]].
  - reflexivity.
  - cbn. lia.
Defined.

(** ** The moving-average crossover *)

Section MAFacts.
Import VectorizedMA.

Lemma length_rolling_mean w s : length (rolling_mean w s) = length s.
Proof. unfold rolling_mean. rewrite length_map, length_seq. reflexivity. Qed.

Lemma rolling_mean_lookup w s i :
  (i < length s)%nat ->
  rolling_mean w s !! i
  = Some (if (w =? 0)%nat || (S i <? w)%nat then None
          else Some (window_sum (take w (drop (S i - w) s))
                     / inject_Z (Z.of_nat w))).
Proof.
  intros Hi. unfold rolling_mean.
  change (map ?f ?l) with (f <$> l).
  rewrite list_lookup_fmap, lookup_seq_lt by exact Hi. reflexivity.
Qed.

Lemma rolling_mean_warmup w s i :
  (i < length s)%nat -> (S i < w)%nat -> rolling_mean w s !! i = Some None.
Proof.
  intros Hi Hw. rewrite rolling_mean_lookup by exact Hi.
  replace (S i <? w)%nat with true by (symmetry; apply Nat.ltb_lt; exact Hw).
  rewrite orb_true_r. reflexivity.
Qed.

Lemma signal_of_range a b :
  signal_of a b = (-1)%Z \/ signal_of a b = 0%Z \/ signal_of a b = 1%Z.
Proof.
  unfold signal_of. destruct b; [|auto].
  destruct (lt_opt a (Some q)); [auto|].
  destruct (gt_opt a (Some q)); auto.
Qed.

Lemma signal_of_long a b :
  signal_of a b = 1%Z <-> exists x y, a = Some x /\ b = Some y /\ y < x.
Proof.
  unfold signal_of, gt_opt, lt_opt. split.
  - destruct a as [x|], b as [y|]; try discriminate.
    destruct (Qltb x y); [discriminate|].
    destruct (Qgtb x y) eqn:Hg; [|discriminate].
    intros _. exists x, y. apply Qgtb_gt in Hg. auto.
  - intros (x & y & -> & -> & Hlt).
    assert (Hl : Qltb x y = false).
    { unfold Qltb. apply negb_false_iff, Qle_bool_iff. lra. }
    rewrite Hl. apply Qgtb_gt in Hlt. rewrite Hlt. reflexivity.
Qed.

Lemma signal_of_short a b :
  signal_of a b = (-1)%Z <-> exists x y, a = Some x /\ b = Some y /\ x < y.
Proof.
  unfold signal_of, gt_opt, lt_opt. split.
  - destruct a as [x|], b as [y|]; try discriminate.
    destruct (Qltb x y) eqn:Hl.
    + intros _. exists x, y. apply Qltb_lt in Hl. auto.
    + destruct (Qgtb x y); discriminate.
  - intros (x & y & -> & -> & Hlt).
    apply Qltb_lt in Hlt. rewrite Hlt. reflexivity.
Qed.

Lemma length_generate_signals sw lw df :
  length (generate_signals sw lw df) = length df.
Proof.
  unfold generate_signals.
  rewrite length_zip_with, !length_rolling_mean, !length_map. lia.
Qed.

Lemma generate_signals_lookup sw lw df i :
  (i < length df)%nat ->
  exists a b,
    rolling_mean sw (map Engine.Close df) !! i = Some a
    /\ rolling_mean lw (map Engine.Close df) !! i = Some b
    /\ generate_signals sw lw df !! i = Some (signal_of a b).
Proof.
  intros Hi.
  destruct (lookup_lt_is_Some_2 (rolling_mean sw (map Engine.Close df)) i)
    as [a Ha]; [rewrite length_rolling_mean, length_map; exact Hi|].
  destruct (lookup_lt_is_Some_2 (rolling_mean lw (map Engine.Close df)) i)
    as [b Hb]; [rewrite length_rolling_mean, length_map; exact Hi|].
  exists a, b. split; [exact Ha|]. split; [exact Hb|].
  unfold generate_signals. rewrite lookup_zip_with, Ha, Hb. reflexivity.
Qed.
End MAFacts.

(** X6.  The crossover strategy returns one signal per bar, each of -1, 0
    or 1; the signal is flat until [long_window] closes are in, long exactly
    when both averages exist and the short one is above the long one, and
    short exactly when it is below. *)
Theorem ma_signals_shape
    (short_window long_window : nat) (df : list Engine.bar) :
  let signals := VectorizedMA.generate_signals short_window long_window df in
  let short_ma := VectorizedMA.rolling_mean short_window (map Engine.Close df) in
  let long_ma := VectorizedMA.rolling_mean long_window (map Engine.Close df) in
  length signals = length df
  /\ (forall i z, signals !! i = Some z -> z = (-1)%Z \/ z = 0%Z \/ z = 1%Z)
  /\ (forall i, (i < length df)%nat -> (S i < long_window)%nat ->
                signals !! i = Some 0%Z)
  /\ (forall i, signals !! i = Some 1%Z <->
                exists x y, short_ma !! i = Some (Some x)
                            /\ long_ma !! i = Some (Some y) /\ y < x)
  /\ (forall i, signals !! i = Some (-1)%Z <->
                exists x y, short_ma !! i = Some (Some x)
                            /\ long_ma !! i = Some (Some y) /\ x < y).
Proof.
  intros signals short_ma long_ma. subst signals short_ma long_ma.
  assert (Hcell : forall i z,
            VectorizedMA.generate_signals short_window long_window df !! i = Some z ->
            exists a b,
              VectorizedMA.rolling_mean short_window (map Engine.Close df) !! i
              = Some a
              /\ VectorizedMA.rolling_mean long_window (map Engine.Close df) !! i
                 = Some b
              /\ z = VectorizedMA.signal_of a b).
  { intros i z Hz.
    assert (Hi : (i < length df)%nat).
    { rewrite <- (length_generate_signals short_window long_window).
      eapply lookup_lt_Some; eauto. }
    destruct (generate_signals_lookup short_window long_window df i Hi)
      as (a & b & Ha & Hb & Hs).
    exists a, b. rewrite Hs in Hz. injection Hz as <-. auto. }
  split; [apply length_generate_signals|].
  split.
  { intros i z Hz. destruct (Hcell i z Hz) as (a & b & _ & _ & ->).
    apply signal_of_range. }
  split.
  { intros i Hi Hw.
    destruct (generate_signals_lookup short_window long_window df i Hi)
      as (a & b & _ & Hb & ->).
    rewrite rolling_mean_warmup in Hb;
      [|rewrite length_map; exact Hi|exact Hw].
    injection Hb as <-. reflexivity. }
  split.
  - intros i. split.
    + intros Hz. destruct (Hcell i _ Hz) as (a & b & Ha & Hb & Hs).
      symmetry in Hs. apply signal_of_long in Hs.
      destruct Hs as (x & y & -> & -> & Hlt). eauto.
    + intros (x & y & Ha & Hb & Hlt).
      unfold VectorizedMA.generate_signals.
      rewrite lookup_zip_with, Ha, Hb.
      change (Some (VectorizedMA.signal_of (Some x) (Some y)) = Some 1%Z).
      f_equal. apply signal_of_long. eauto.
  - intros i. split.
    + intros Hz. destruct (Hcell i _ Hz) as (a & b & Ha & Hb & Hs).
      symmetry in Hs. apply signal_of_short in Hs.
      destruct Hs as (x & y & -> & -> & Hlt). eauto.
    + intros (x & y & Ha & Hb & Hlt).
      unfold VectorizedMA.generate_signals.
      rewrite lookup_zip_with, Ha, Hb.
      change (Some (VectorizedMA.signal_of (Some x) (Some y)) = Some (-1)%Z).
      f_equal. apply signal_of_short. eauto.
Qed.

(** X7.  Backtesting the crossover, nothing is traded during the warm-up:
    over a bar table without a zero close and with a non-zero point value,
    on every bar before the [long_window]-th the turnover is 0 and the
    equity is the initial capital. *)
Theorem ma_backtest_warmup
    (E : Engine.config) (short_window long_window : nat)
    (df : list Engine.bar) (i : nat) :
  EngineExamples.finite_run E df ->
  (i < long_window)%nat -> (i < length df)%nat ->
  let res := VectorizedMA.backtest E short_window long_window df in
  Series.at_ (Engine.r_turnover res) i == 0
  /\ Series.at_ (Engine.r_equity_curve res) i == Engine.initial_capital E.
Proof.
  intros _ Hw Hi res. subst res. unfold VectorizedMA.backtest.
  cbn [Engine.run Engine.r_turnover Engine.r_equity_curve].
  set (sg := VectorizedMA.generate_signals short_window long_window df).
  assert (Hlen : length sg = length df) by apply length_generate_signals.
  assert (Hflat : forall j, (j < long_window - 1)%nat -> (j < length sg)%nat ->
                            sg !! j = Some 0%Z).
  { intros j Hj Hjn.
    destruct (generate_signals_lookup short_window long_window df j)
      as (a & b & _ & Hb & Hs); [lia|].
    rewrite rolling_mean_warmup in Hb; [|rewrite length_map; lia|lia].
    injection Hb as <-. exact Hs. }
  destruct (flat_prefix_net E df sg (long_window - 1) i Hlen Hflat) as [Ht _];
    [lia|exact Hi|].
  split; [exact Ht|].
  apply (flat_prefix_equity E df sg (long_window - 1)); auto. lia.
Qed.

Lemma ma_backtest_warmup_witness :
  Series.at_ (Engine.r_equity_curve
                (VectorizedMA.backtest Engine.default_config 2 3
                                       MoreExamples.rising_bars)) 2
  == 100000.
Proof.
  refine (proj2 (ma_backtest_warmup Engine.default_config 2 3
                   MoreExamples.rising_bars 2 _ _ _)).
  - split; [intros H; vm_compute in H; discriminate|].
    repeat first [apply List.Forall_nil
                 | apply List.Forall_cons;
                   [intros H; vm_compute in H; discriminate|]].
  - lia.
  - cbn. lia.
Defined.

(** ** The kernels beyond the claimed properties *)

Section BarLoopMore.
Context {R St O : Type}.
Variable day : R -> Z.
Variable body : Z -> R -> St -> O.
Variable next : O -> St.

Lemma loop_take d rows s k :
  BarLoop.loop day body next d (take k rows) s
  = take k (BarLoop.loop day body next d rows s).
Proof.
  revert d s k. induction rows as [|r rest IH]; intros d s k.
  - destruct k; reflexivity.
  - destruct k as [|k]; cbn; [reflexivity|]. f_equal. apply IH.
Qed.

(** The outcome of the first [k] bars does not depend on later bars. *)
Lemma trace_take o0 rows k :
  BarLoop.trace day body next o0 (take k rows)
  = take k (BarLoop.trace day body next o0 rows).
Proof.
  destruct rows as [|r0 rest]; [destruct k; reflexivity|].
  destruct k as [|k]; cbn; [reflexivity|]. f_equal. apply loop_take.
Qed.

(** An invariant that only the rows of the input need to preserve. *)
Lemma trace_invariant_rows (P : O -> Prop) o0 rows :
  P o0 ->
  (forall d r o, r ∈ rows -> P o -> P (body d r (next o))) ->
  forall i o, BarLoop.trace day body next o0 rows !! i = Some o -> P o.
Proof.
  intros H0 Hstep i. induction i as [|i IH]; intros o Ho.
  - destruct rows as [|r0 rest]; [discriminate|].
    cbn in Ho. injection Ho as <-. exact H0.
  - assert (Hlt : (S i < length rows)%nat).
    { rewrite <- (trace_length day body next o0). eapply lookup_lt_Some; eauto. }
    destruct (lookup_lt_is_Some_2 rows i) as [rp Hp]; [lia|].
    destruct (lookup_lt_is_Some_2 rows (S i) Hlt) as [r Hr].
    destruct (lookup_lt_is_Some_2 (BarLoop.trace day body next o0 rows) i)
      as [oi Hoi].
    { rewrite trace_length. lia. }
    rewrite (trace_lookup_S day body next o0 rows i rp r oi Hp Hr Hoi) in Ho.
    injection Ho as <-. apply Hstep; [|apply IH, Hoi].
    apply list_elem_of_lookup. eauto.
Qed.
End BarLoopMore.

Section ORBMore.
Import ORB KernelProps.
Variable p : params.

(** What an entry leaves in the state. *)
Lemma check_entries_entered r s :
  in_pos s = 0%Z -> in_pos (check_entries p r s) <> 0%Z ->
  traded_today s = false
  /\ 0 < orb_high s - orb_low s
  /\ orb_high s - orb_low s <= atr r * atr_max_mult p
  /\ 0 < atr r
  /\ entry_price (check_entries p r s) = close r
  /\ traded_today (check_entries p r s) = true
  /\ orb_high (check_entries p r s) = orb_high s
  /\ orb_low (check_entries p r s) = orb_low s
  /\ ((in_pos (check_entries p r s) = 1%Z
       /\ orb_high s < close r /\ ema r < close r
       /\ long_filters p r = true
       /\ sl_price (check_entries p r s) = close r - atr r * sl_mult p
       /\ tp_price (check_entries p r s) = close r + atr r * tp_mult p)
      \/ (in_pos (check_entries p r s) = (-1)%Z
          /\ close r < orb_low s /\ close r < ema r
          /\ short_filters p r = true
          /\ sl_price (check_entries p r s) = close r + atr r * sl_mult p
          /\ tp_price (check_entries p r s) = close r - atr r * tp_mult p)).
Proof.
  intros H0. unfold check_entries. rewrite H0. cbn [Z.eqb andb].
  destruct (traded_today s) eqn:Ht; cbn [negb andb]; [congruence|].
  destruct (negb (Qeqb (orb_high s) (-1))); [|congruence].
  destruct (Qgtb (orb_high s - orb_low s) 0) eqn:H1; cbn [andb]; [|congruence].
  destruct (Qgtb (atr r) 0) eqn:H2; cbn [andb]; [|congruence].
  destruct (Qleb (orb_high s - orb_low s) (atr r * atr_max_mult p)) eqn:H3;
    [|congruence].
  apply Qgtb_gt in H1, H2. apply Qleb_le in H3.
  destruct (Qgtb (close r) (orb_high s) && Qgtb (close r) (ema r)) eqn:Hl.
  - destruct (long_filters p r) eqn:Hf; [|congruence].
    intros _. apply andb_true_iff in Hl. destruct Hl as [Ha Hb].
    apply Qgtb_gt in Ha, Hb. cbn.
    repeat (split; [assumption || reflexivity|]). left.
    repeat (split; [assumption || reflexivity|]). reflexivity.
  - destruct (Qltb (close r) (orb_low s) && Qltb (close r) (ema r)) eqn:Hs;
      [|congruence].
    destruct (short_filters p r) eqn:Hf; [|congruence].
    intros _. apply andb_true_iff in Hs. destruct Hs as [Ha Hb].
    apply Qltb_lt in Ha, Hb. cbn.
    repeat (split; [assumption || reflexivity|]). right.
    repeat (split; [assumption || reflexivity|]). reflexivity.
Qed.

Lemma check_exits_flat r s : in_pos s = 0%Z -> check_exits p r s = s.
Proof. intros H. unfold check_exits. rewrite H. reflexivity. Qed.

(** A bar on which a flat state turns non-flat lies in the trade window and
    went through "Check Entries". *)
Lemma step_entered d r s :
  in_pos (new_day d r s) = 0%Z -> in_pos (step p d r s) <> 0%Z ->
  in_trade_window p r
  /\ step p d r s = check_entries p r (new_day d r s).
Proof.
  intros H0. unfold step.
  destruct ((start_min p <=? time r)%Z && (time r <? end_min p)%Z).
  { destruct (orb_window_frame r (new_day d r s)) as (-> & _). congruence. }
  destruct ((end_min p <=? time r)%Z && (time r <? exit_min p)%Z) eqn:Hw.
  - rewrite (check_exits_flat r _ H0). intros _. split; [|reflexivity].
    apply andb_true_iff in Hw. destruct Hw as [Ha Hb].
    apply Z.leb_le in Ha. apply Z.ltb_lt in Hb. split; assumption.
  - destruct (exit_min p <=? time r)%Z; cbn; congruence.
Qed.

Lemma new_day_flat d r s :
  in_pos s = 0%Z \/ day_id r <> d -> in_pos (new_day d r s) = 0%Z.
Proof.
  intros H. unfold new_day. destruct (day_id r =? d)%Z eqn:E; cbn [negb].
  - destruct H as [H|H]; [exact H|]. apply Z.eqb_eq in E. contradiction.
  - reflexivity.
Qed.

(** From the session end on the position is flat. *)
Lemma step_session_end d r s :
  (end_min p <= exit_min p)%Z -> (exit_min p <= time r)%Z ->
  in_pos (step p d r s) = 0%Z.
Proof.
  intros Hee Ht. unfold step.
  replace (time r <? end_min p)%Z with false by (symmetry; apply Z.ltb_ge; lia).
  replace (time r <? exit_min p)%Z with false by (symmetry; apply Z.ltb_ge; lia).
  rewrite !andb_false_r.
  replace (exit_min p <=? time r)%Z with true by (symmetry; apply Z.leb_le; lia).
  reflexivity.
Qed.

(** Without a positive ATR a flat state stays flat. *)
Lemma step_no_atr d r s :
  atr r <= 0 -> in_pos s = 0%Z -> in_pos (step p d r s) = 0%Z.
Proof.
  intros Ha H0.
  destruct (Z.eq_dec (in_pos (step p d r s)) 0%Z) as [E|E]; [exact E|].
  exfalso.
  assert (H1 : in_pos (new_day d r s) = 0%Z) by (apply new_day_flat; auto).
  destruct (step_entered d r s H1 E) as [_ Hs].
  rewrite Hs in E.
  destruct (check_entries_entered r _ H1 E) as (_ & _ & _ & Hatr & _).
  lra.
Qed.
End ORBMore.

(** X8.  The ORB kernel returns one signal per bar, each of -1, 0 or 1, and
    the first is 0; the signals of the first [k] bars do not depend on the
    bars after them. *)
Theorem orb_signals_shape (p : ORB.params) (rows : list ORB.row) :
  length (ORB._numba_orb_logic p rows) = length rows
  /\ (forall i z, ORB._numba_orb_logic p rows !! i = Some z ->
                  z = (-1)%Z \/ z = 0%Z \/ z = 1%Z)
  /\ (forall z, ORB._numba_orb_logic p rows !! 0%nat = Some z -> z = 0%Z)
  /\ (forall k, ORB._numba_orb_logic p (take k rows)
                = take k (ORB._numba_orb_logic p rows)).
Proof.
  split; [|split; [|split]].
  - unfold ORB._numba_orb_logic. rewrite length_map. apply states_length.
  - intros i z Hz. rewrite signals_lookup in Hz.
    apply fmap_Some in Hz. destruct Hz as (s & Hs & ->).
    destruct (states_inv p rows i s Hs) as [Hv _]. tauto.
  - intros z Hz. unfold ORB._numba_orb_logic, ORB.states in Hz.
    destruct rows as [|r0 rest]; [discriminate|].
    cbn in Hz. injection Hz as <-. reflexivity.
  - intros k. unfold ORB._numba_orb_logic, ORB.states.
    rewrite trace_take. change (map ?f ?l) with (f <$> l).
    rewrite fmap_take. reflexivity.
Qed.

(** X9.  When the range ends no later than the exit time, every bar at or
    after the exit time carries a flat signal. *)
Theorem orb_flat_from_exit
    (p : ORB.params) (rows : list ORB.row) (i : nat) (r : ORB.row) :
  (ORB.end_min p <= ORB.exit_min p)%Z ->
  rows !! i = Some r -> (ORB.exit_min p <= ORB.time r)%Z ->
  ORB._numba_orb_logic p rows !! i = Some 0%Z.
Proof.
  intros Hee Hr Ht. destruct i as [|i].
  - unfold ORB._numba_orb_logic, ORB.states.
    destruct rows; [discriminate|]. reflexivity.
  - assert (Hlt : (S i < length rows)%nat) by (eapply lookup_lt_Some; eauto).
    destruct (lookup_lt_is_Some_2 rows i) as [rp Hrp]; [lia|].
    destruct (states_defined p rows i) as [s Hs]; [lia|].
    rewrite signals_lookup, (states_lookup_S p rows i rp r s Hrp Hr Hs).
    cbn. f_equal. apply step_session_end; assumption.
Qed.

Lemma orb_flat_from_exit_witness :
  ORB._numba_orb_logic ORBExamples.default_params
    (ORBExamples.stop_first_rows ++ [ORBExamples.bar5 945 104 104.5 103.5])
    !! 6%nat = Some 0%Z.
Proof.
  apply (orb_flat_from_exit ORBExamples.default_params _ 6
           (ORBExamples.bar5 945 104 104.5 103.5)).
  - cbn. lia.
  - reflexivity.
  - cbn. lia.
Defined.

(** X10.  A position is only opened on a bar of the trade window with a
    positive ATR and a formed range that is positive and at most
    [atr_max_mult] ATR wide: a long on a close above the range high and the
    EMA with every enabled filter passing, stop [sl_mult] ATR below and
    target [tp_mult] ATR above the close; a short mirrored. *)
Theorem orb_entry_conditions
    (p : ORB.params) (rows : list ORB.row) (i : nat)
    (rp r : ORB.row) (s s' : ORB.state) :
  rows !! i = Some rp -> rows !! S i = Some r ->
  ORB.states p rows !! i = Some s ->
  ORB.states p rows !! S i = Some s' ->
  ORB.in_pos s = 0%Z \/ ORB.day_id r <> ORB.day_id rp ->
  ORB.in_pos s' <> 0%Z ->
  KernelProps.in_trade_window p r
  /\ 0 < ORB.atr r
  /\ 0 < ORB.orb_high s' - ORB.orb_low s'
  /\ ORB.orb_high s' - ORB.orb_low s' <= ORB.atr r * ORB.atr_max_mult p
  /\ ORB.entry_price s' = ORB.close r
  /\ ((ORB.in_pos s' = 1%Z
       /\ ORB.orb_high s' < ORB.close r /\ ORB.ema r < ORB.close r
       /\ ORB.long_filters p r = true
       /\ ORB.sl_price s' = ORB.close r - ORB.atr r * ORB.sl_mult p
       /\ ORB.tp_price s' = ORB.close r + ORB.atr r * ORB.tp_mult p)
      \/ (ORB.in_pos s' = (-1)%Z
          /\ ORB.close r < ORB.orb_low s' /\ ORB.close r < ORB.ema r
          /\ ORB.short_filters p r = true
          /\ ORB.sl_price s' = ORB.close r + ORB.atr r * ORB.sl_mult p
          /\ ORB.tp_price s' = ORB.close r - ORB.atr r * ORB.tp_mult p)).
Proof.
  intros Hrp Hr Hs Hs' Hflat Hheld.
  rewrite (states_lookup_S p rows i rp r s Hrp Hr Hs) in Hs'.
  injection Hs' as <-.
  pose proof (new_day_flat (ORB.day_id rp) r s Hflat) as H0.
  destruct (step_entered p (ORB.day_id rp) r s H0 Hheld) as [Hw Hstep].
  rewrite Hstep in *.
  destruct (check_entries_entered p r _ H0 Hheld)
    as (_ & Hr0 & Hr1 & Hatr & Hep & _ & Hoh & Hol & Hside).
  rewrite Hoh, Hol.
  repeat (split; [assumption|]). exact Hside.
Qed.

Lemma orb_entry_conditions_witness :
  ORB.entry_price (ORBExamples.state_at ORBExamples.default_params 3) = 101.
Proof.
  refine (proj1 (proj2 (proj2 (proj2 (proj2
    (orb_entry_conditions ORBExamples.default_params
       ORBExamples.stop_first_rows 2
       (ORBExamples.bar5 580 100 100.5 99.5)
       (ORBExamples.bar5 585 101 101.2 100)
       (ORBExamples.state_at ORBExamples.default_params 2)
       (ORBExamples.state_at ORBExamples.default_params 3)
       eq_refl eq_refl eq_refl eq_refl _ _)))))).
  - left. reflexivity.
  - vm_compute. discriminate.
Defined.

(** X11.  With the fixed target, on a trade-window bar of the same day a
    held long stays open exactly when the low is above the stop and the high
    below the target, and is flat otherwise; stop and target do not move.
    Short mirrored. *)
Theorem orb_fixed_target_hold
    (p : ORB.params) (rows : list ORB.row) (i : nat)
    (rp r : ORB.row) (s s' : ORB.state) :
  ORB.use_ts p = false ->
  rows !! i = Some rp -> rows !! S i = Some r ->
  ORB.day_id r = ORB.day_id rp ->
  KernelProps.in_trade_window p r ->
  ORB.states p rows !! i = Some s ->
  ORB.states p rows !! S i = Some s' ->
  (ORB.in_pos s = 1%Z ->
     (ORB.in_pos s' = 1%Z
      <-> ORB.sl_price s < ORB.low r /\ ORB.high r < ORB.tp_price s)
     /\ (ORB.in_pos s' = 0%Z \/ ORB.in_pos s' = 1%Z)
     /\ ORB.sl_price s' = ORB.sl_price s /\ ORB.tp_price s' = ORB.tp_price s)
  /\ (ORB.in_pos s = (-1)%Z ->
     (ORB.in_pos s' = (-1)%Z
      <-> ORB.high r < ORB.sl_price s /\ ORB.tp_price s < ORB.low r)
     /\ (ORB.in_pos s' = 0%Z \/ ORB.in_pos s' = (-1)%Z)
     /\ ORB.sl_price s' = ORB.sl_price s /\ ORB.tp_price s' = ORB.tp_price s).
Proof.
  intros Hts Hrp Hr Hday Hw Hs Hs'.
  rewrite (states_lookup_S p rows i rp r s Hrp Hr Hs) in Hs'.
  injection Hs' as <-.
  pose proof (states_inv p rows i s Hs) as [_ Htr].
  split; intros Hpos.
  - rewrite step_trade_window; auto; [|apply Htr; lia].
    unfold ORB.check_exits. rewrite Hpos. cbn [Z.eqb Pos.eqb].
    unfold ORB.long_exit. rewrite Hts.
    cbn [negb andb ORB.in_pos ORB.sl_price ORB.tp_price].
    destruct (Qleb (ORB.low r) (ORB.sl_price s)) eqn:E1.
    + apply Qleb_le in E1. repeat split; auto; try lia.
      intros [Hc _]. exfalso. lra.
    + apply Qleb_false in E1.
      destruct (Qgeb (ORB.high r) (ORB.tp_price s)) eqn:E2.
      * apply Qgeb_ge in E2. repeat split; auto; try lia.
        intros [_ Hc]. exfalso. lra.
      * assert (E2' : ORB.high r < ORB.tp_price s) by (apply Qleb_false; exact E2).
        rewrite Hpos. repeat split; auto.
  - rewrite step_trade_window; auto; [|apply Htr; lia].
    unfold ORB.check_exits. rewrite Hpos. cbn [Z.eqb Pos.eqb].
    unfold ORB.short_exit. rewrite Hts.
    cbn [negb andb ORB.in_pos ORB.sl_price ORB.tp_price].
    destruct (Qgeb (ORB.high r) (ORB.sl_price s)) eqn:E1.
    + apply Qgeb_ge in E1. repeat split; auto; try lia.
      intros [Hc _]. exfalso. lra.
    + assert (E1' : ORB.high r < ORB.sl_price s) by (apply Qleb_false; exact E1).
      destruct (Qleb (ORB.low r) (ORB.tp_price s)) eqn:E2.
      * apply Qleb_le in E2. repeat split; auto; try lia.
        intros [_ Hc]. exfalso. lra.
      * apply Qleb_false in E2. rewrite Hpos. repeat split; auto.
Qed.

Lemma orb_fixed_target_hold_witness :
  ORB.sl_price (ORBExamples.state_at ORBExamples.default_params 4)
  = ORB.sl_price (ORBExamples.state_at ORBExamples.default_params 3).
Proof.
  pose proof (orb_fixed_target_hold ORBExamples.default_params
                ORBExamples.stop_first_rows 3
                (ORBExamples.bar5 585 101 101.2 100)
                (ORBExamples.bar5 590 104 106 98)
                (ORBExamples.state_at ORBExamples.default_params 3)
                (ORBExamples.state_at ORBExamples.default_params 4)
                eq_refl eq_refl eq_refl eq_refl) as H.
  destruct H as [Hlong _]; [split; cbn; lia|reflexivity|reflexivity|].
  destruct (Hlong eq_refl) as (_ & _ & Hsl & _). exact Hsl.
Defined.

(** X12.  While the ATR column is not positive (its warm-up is filled with
    0) the kernel never enters: if no bar has a positive ATR, every signal is
    flat. *)
Theorem orb_no_atr_no_trade (p : ORB.params) (rows : list ORB.row) :
  (forall r, r ∈ rows -> ORB.atr r <= 0) ->
  forall i z, ORB._numba_orb_logic p rows !! i = Some z -> z = 0%Z.
Proof.
  intros Hatr i z Hz. rewrite signals_lookup in Hz.
  apply fmap_Some in Hz. destruct Hz as (s & Hs & ->).
  unfold ORB.states in Hs.
  apply (trace_invariant_rows ORB.day_id (ORB.step p) id
           (fun s => ORB.in_pos s = 0%Z) ORB.init rows) with (i := i).
  - reflexivity.
  - intros d r o Hr Ho. apply step_no_atr; [apply Hatr, Hr|exact Ho].
  - exact Hs.
Qed.

Lemma orb_no_atr_no_trade_witness :
  ORB._numba_orb_logic ORBExamples.default_params KernelExamples.no_atr_rows
    !! 3%nat = Some 0%Z.
Proof.
  destruct (ORB._numba_orb_logic ORBExamples.default_params
              KernelExamples.no_atr_rows !! 3%nat) as [z|] eqn:Hz.
  - f_equal.
    apply (orb_no_atr_no_trade ORBExamples.default_params
             KernelExamples.no_atr_rows) with (i := 3%nat); [|exact Hz].
    intros r Hr. unfold KernelExamples.no_atr_rows in Hr.
    apply list_elem_of_fmap in Hr. destruct Hr as (r0 & -> & _).
    cbn. vm_compute. discriminate.
  - vm_compute in Hz. discriminate.
Defined.

(** ** The overnight kernel beyond the day boundary *)

Section OvernightMore.
Import Overnight OvernightProps.
Variable p : params.

(** The five ways out of the loop body. *)
Lemma step_cases d r s :
  let s2 := session_start p r (day_boundary p d r s) in
  let s3 := mark_formed p (time r) s2 in
  (bar_in_session p (time r) = false
   /\ step p d r s = (leave_session s2, 0%Z))
  \/ (bar_in_session p (time r) = true
      /\ in_range_window p (time r) = true
      /\ step p d r s = (form_range r s2, in_pos (form_range r s2)))
  \/ (bar_in_session p (time r) = true
      /\ near_exit p (time r) = true /\ range_formed s3 = true
      /\ step p d r s = (set_in_pos 0 s3, 0%Z))
  \/ (bar_in_session p (time r) = true
      /\ near_exit p (time r) = false /\ range_formed s3 = true
      /\ step p d r s
         = (check_entries p r (check_exits r s3),
            in_pos (check_entries p r (check_exits r s3))))
  \/ (range_formed s3 = false /\ step p d r s = (s3, in_pos s3)).
Proof.
  intros s2 s3. unfold step. fold s2. fold s3.
  destruct (bar_in_session p (time r)) eqn:Hb; cbn [negb]; [|left; auto].
  right.
  destruct (in_range_window p (time r) && negb (range_formed s2)) eqn:Hw.
  { left. apply andb_true_iff in Hw. destruct Hw as [Hw _]. auto. }
  right.
  destruct (range_formed s3) eqn:Hf; cbn [andb].
  - destruct (near_exit p (time r)) eqn:Hn; [left; auto|right; left; auto].
  - right. right. auto.
Qed.

Lemma mark_formed_outside t s :
  in_range_window p t = false -> range_formed (mark_formed p t s) = true.
Proof.
  intros H. unfold mark_formed. rewrite H. cbn [negb].
  rewrite andb_true_r. destruct (range_formed s) eqn:E; cbn [negb]; auto.
Qed.

Lemma session_start_frame r s :
  in_pos (session_start p r s) = in_pos s.
Proof. unfold session_start. destruct (_ && _); reflexivity. Qed.

Lemma form_range_frame r s :
  in_pos (form_range r s) = in_pos s
  /\ traded_session (form_range r s) = traded_session s.
Proof. unfold form_range. destruct (Qeqb _ _); auto. Qed.

Lemma mark_formed_frame t s :
  in_pos (mark_formed p t s) = in_pos s
  /\ traded_session (mark_formed p t s) = traded_session s
  /\ range_high (mark_formed p t s) = range_high s
  /\ range_low (mark_formed p t s) = range_low s.
Proof. unfold mark_formed. destruct (_ && _); auto. Qed.

Lemma overnight_check_exits_frame r s :
  traded_session (check_exits r s) = traded_session s
  /\ (in_pos (check_exits r s) = 0%Z \/ check_exits r s = s).
Proof.
  unfold check_exits, set_in_pos.
  repeat match goal with
         | |- context [if ?b then _ else _] => destruct b
         end; cbn; auto.
Qed.

Lemma overnight_check_entries_frame r s :
  (check_entries p r s = s
   \/ in_pos (check_entries p r s) = in_pos s
      /\ traded_session (check_entries p r s) = traded_session s)
  \/ (in_pos s = 0%Z /\ traded_session (check_entries p r s) = true
      /\ (in_pos (check_entries p r s) = 1%Z
          \/ in_pos (check_entries p r s) = (-1)%Z)).
Proof.
  unfold check_entries.
  destruct (in_pos s =? 0)%Z eqn:E0; cbn [andb]; [|auto].
  apply Z.eqb_eq in E0.
  repeat match goal with
         | |- context [if ?b then _ else _] => destruct b
         end; cbn; auto.
Qed.

Lemma day_boundary_pos d r s :
  in_pos (day_boundary p d r s) = 0%Z
  \/ in_pos (day_boundary p d r s) = in_pos s.
Proof.
  unfold day_boundary.
  repeat match goal with
         | |- context [if ?b then _ else _] => destruct b
         end; cbn; auto.
Qed.

(** Every iteration writes the position it ends with, and the position is
    one of -1, 0, 1. *)
Lemma step_signal d r s :
  (in_pos s = 0%Z \/ in_pos s = 1%Z \/ in_pos s = (-1)%Z) ->
  snd (step p d r s) = in_pos (fst (step p d r s))
  /\ (in_pos (fst (step p d r s)) = 0%Z
      \/ in_pos (fst (step p d r s)) = 1%Z
      \/ in_pos (fst (step p d r s)) = (-1)%Z).
Proof.
  intros Hv.
  assert (H2 : in_pos (session_start p r (day_boundary p d r s)) = 0%Z
               \/ in_pos (session_start p r (day_boundary p d r s)) = 1%Z
               \/ in_pos (session_start p r (day_boundary p d r s)) = (-1)%Z).
  { rewrite session_start_frame.
    destruct (day_boundary_pos d r s) as [->| ->]; auto. }
  destruct (step_cases d r s) as
    [[_ ->]|[(_ & _ & ->)|[(_ & _ & _ & ->)|[(_ & _ & _ & ->)|[_ ->]]]]];
    cbn [fst snd].
  - auto.
  - destruct (form_range_frame r (session_start p r (day_boundary p d r s)))
      as [-> _]. auto.
  - auto.
  - split; [reflexivity|].
    set (s3 := mark_formed p (time r) _).
    assert (H3 : in_pos s3 = 0%Z \/ in_pos s3 = 1%Z \/ in_pos s3 = (-1)%Z).
    { subst s3. destruct (mark_formed_frame (time r)
                            (session_start p r (day_boundary p d r s)))
        as [-> _]. exact H2. }
    assert (H4 : in_pos (check_exits r s3) = 0%Z
                 \/ in_pos (check_exits r s3) = 1%Z
                 \/ in_pos (check_exits r s3) = (-1)%Z).
    { destruct (overnight_check_exits_frame r s3) as [_ [E| ->]]; auto. }
    destruct (overnight_check_entries_frame r (check_exits r s3))
      as [[-> | [-> _]] | (_ & _ & [-> | ->])]; auto.
  - destruct (mark_formed_frame (time r)
                (session_start p r (day_boundary p d r s))) as [-> _]. auto.
Qed.

Lemma overnight_trace_inv rows i o :
  trace p rows !! i = Some o ->
  snd o = in_pos (fst o)
  /\ (in_pos (fst o) = 0%Z \/ in_pos (fst o) = 1%Z \/ in_pos (fst o) = (-1)%Z).
Proof.
  unfold trace.
  apply (trace_invariant day_id (step p) fst
           (fun o => snd o = in_pos (fst o)
                     /\ (in_pos (fst o) = 0%Z \/ in_pos (fst o) = 1%Z
                         \/ in_pos (fst o) = (-1)%Z))).
  - cbn. auto.
  - intros d r o' [_ Hv]. apply step_signal, Hv.
Qed.

Lemma overnight_trace_length rows : length (trace p rows) = length rows.
Proof. unfold trace. apply trace_length. Qed.

Lemma overnight_states_defined rows i :
  (i < length rows)%nat -> exists s, states p rows !! i = Some s.
Proof.
  intros Hi. apply lookup_lt_is_Some. unfold states.
  rewrite length_map, overnight_trace_length. exact Hi.
Qed.

(** Without a session reset the traded flag is never cleared. *)
Lemma step_no_reset_traded d r s :
  resets p d r s = false -> traded_session s = true ->
  traded_session (fst (step p d r s)) = true.
Proof.
  intros Hres Ht. unfold resets in Hres.
  apply orb_false_iff in Hres. destruct Hres as [Hr1 Hr2].
  assert (H1 : traded_session (day_boundary p d r s) = true).
  { unfold day_boundary.
    destruct (negb (day_id r =? d)%Z); [|exact Ht].
    cbn [andb] in Hr1. rewrite Hr1.
    destruct (negb (in_pos s =? 0)%Z); exact Ht. }
  assert (H2 : session_start p r (day_boundary p d r s) = day_boundary p d r s).
  { unfold session_start. rewrite Hr2. reflexivity. }
  destruct (step_cases d r s) as
    [[_ ->]|[(_ & _ & ->)|[(_ & _ & _ & ->)|[(_ & _ & _ & ->)|[_ ->]]]]];
    cbn [fst]; rewrite H2.
  - exact H1.
  - destruct (form_range_frame r (day_boundary p d r s)) as [_ ->]. exact H1.
  - cbn. destruct (mark_formed_frame (time r) (day_boundary p d r s))
      as (_ & -> & _). exact H1.
  - set (s3 := mark_formed p (time r) _).
    assert (H3 : traded_session (check_exits r s3) = true).
    { destruct (overnight_check_exits_frame r s3) as [-> _]. subst s3.
      destruct (mark_formed_frame (time r) (day_boundary p d r s))
        as (_ & -> & _). exact H1. }
    destruct (overnight_check_entries_frame r (check_exits r s3))
      as [[-> | [_ ->]] | (_ & -> & _)]; auto.
  - destruct (mark_formed_frame (time r) (day_boundary p d r s))
      as (_ & -> & _). exact H1.
Qed.

(** A flat state whose trade is taken stays flat while no session starts. *)
Lemma step_no_reset_flat d r s :
  resets p d r s = false -> traded_session s = true -> in_pos s = 0%Z ->
  in_pos (fst (step p d r s)) = 0%Z.
Proof.
  intros Hres Ht H0. unfold resets in Hres.
  apply orb_false_iff in Hres. destruct Hres as [Hr1 Hr2].
  assert (H1 : traded_session (day_boundary p d r s) = true
               /\ in_pos (day_boundary p d r s) = 0%Z).
  { unfold day_boundary.
    destruct (negb (day_id r =? d)%Z); [|auto].
    cbn [andb] in Hr1. rewrite Hr1.
    destruct (negb (in_pos s =? 0)%Z); auto. }
  destruct H1 as [H1t H10].
  assert (H2 : session_start p r (day_boundary p d r s) = day_boundary p d r s).
  { unfold session_start. rewrite Hr2. reflexivity. }
  destruct (step_cases d r s) as
    [[_ ->]|[(_ & _ & ->)|[(_ & _ & _ & ->)|[(_ & _ & _ & ->)|[_ ->]]]]];
    cbn [fst]; rewrite H2.
  - reflexivity.
  - destruct (form_range_frame r (day_boundary p d r s)) as [-> _]. exact H10.
  - reflexivity.
  - set (s3 := mark_formed p (time r) _).
    assert (H3 : in_pos s3 = 0%Z /\ traded_session s3 = true).
    { subst s3. destruct (mark_formed_frame (time r) (day_boundary p d r s))
        as (-> & -> & _). auto. }
    destruct H3 as [H30 H3t].
    assert (Hce : check_exits r s3 = s3).
    { unfold check_exits. rewrite H30. reflexivity. }
    rewrite Hce, (check_entries_blocked p r s3 (or_introl H3t)). exact H30.
  - destruct (mark_formed_frame (time r) (day_boundary p d r s))
      as (-> & _). exact H10.
Qed.

(** Turning non-flat takes the session's trade. *)
Lemma step_entry_traded d r s :
  in_pos s = 0%Z -> in_pos (fst (step p d r s)) <> 0%Z ->
  traded_session (fst (step p d r s)) = true.
Proof.
  intros H0.
  assert (H2 : in_pos (session_start p r (day_boundary p d r s)) = 0%Z).
  { rewrite session_start_frame.
    destruct (day_boundary_pos d r s) as [->| ->]; auto. }
  destruct (step_cases d r s) as
    [[_ ->]|[(_ & _ & ->)|[(_ & _ & _ & ->)|[(_ & _ & _ & ->)|[_ ->]]]]];
    cbn [fst].
  - cbn. congruence.
  - destruct (form_range_frame r (session_start p r (day_boundary p d r s)))
      as [-> _]. congruence.
  - cbn. congruence.
  - set (s3 := mark_formed p (time r) _).
    assert (H30 : in_pos s3 = 0%Z).
    { subst s3. destruct (mark_formed_frame (time r)
                            (session_start p r (day_boundary p d r s)))
        as (-> & _). exact H2. }
    assert (Hce : check_exits r s3 = s3).
    { unfold check_exits. rewrite H30. reflexivity. }
    rewrite Hce.
    destruct (overnight_check_entries_frame r s3)
      as [[-> | [-> _]] | (_ & -> & _)]; congruence.
  - destruct (mark_formed_frame (time r)
                (session_start p r (day_boundary p d r s))) as (-> & _).
    congruence.
Qed.
End OvernightMore.

(** X13.  The overnight kernel returns one signal per bar, each of -1, 0 or
    1, and the first is 0; the signals of the first [k] bars do not depend on
    the bars after them. *)
Theorem overnight_signals_shape (p : Overnight.params) (rows : list Overnight.row) :
  length (Overnight._numba_overnight_logic p rows) = length rows
  /\ (forall i z, Overnight._numba_overnight_logic p rows !! i = Some z ->
                  z = (-1)%Z \/ z = 0%Z \/ z = 1%Z)
  /\ (forall z, Overnight._numba_overnight_logic p rows !! 0%nat = Some z ->
                z = 0%Z)
  /\ (forall k, Overnight._numba_overnight_logic p (take k rows)
                = take k (Overnight._numba_overnight_logic p rows)).
Proof.
  split; [|split; [|split]].
  - unfold Overnight._numba_overnight_logic.
    rewrite length_map. apply overnight_trace_length.
  - intros i z Hz. rewrite overnight_signals_lookup in Hz.
    apply fmap_Some in Hz. destruct Hz as (o & Ho & ->).
    destruct (overnight_trace_inv p rows i o Ho) as [-> Hv]. tauto.
  - intros z Hz. unfold Overnight._numba_overnight_logic, Overnight.trace in Hz.
    destruct rows as [|r0 rest]; [discriminate|].
    cbn in Hz. injection Hz as <-. reflexivity.
  - intros k. unfold Overnight._numba_overnight_logic, Overnight.trace.
    rewrite trace_take. change (map ?f ?l) with (f <$> l).
    rewrite fmap_take. reflexivity.
Qed.

(** X14.  Outside the session the kernel is flat: every bar whose time is
    not in the session carries signal 0. *)
Theorem overnight_flat_outside_session
    (p : Overnight.params) (rows : list Overnight.row) (i : nat)
    (r : Overnight.row) :
  rows !! i = Some r ->
  Overnight.bar_in_session p (Overnight.time r) = false ->
  Overnight._numba_overnight_logic p rows !! i = Some 0%Z.
Proof.
  intros Hr Hout. destruct i as [|i].
  - unfold Overnight._numba_overnight_logic, Overnight.trace.
    destruct rows; [discriminate|]. reflexivity.
  - assert (Hlt : (S i < length rows)%nat) by (eapply lookup_lt_Some; eauto).
    destruct (lookup_lt_is_Some_2 rows i) as [rp Hrp]; [lia|].
    destruct (overnight_states_defined p rows i) as [s Hs]; [lia|].
    rewrite overnight_signals_lookup,
      (overnight_trace_S p rows i rp r s Hrp Hr Hs).
    cbn [fmap option_fmap option_map]. f_equal.
    unfold Overnight.step. rewrite Hout. reflexivity.
Qed.

Lemma overnight_flat_outside_session_witness :
  Overnight._numba_overnight_logic OvernightExamples.default_params
    KernelExamples.morning_rows !! 17%nat = Some 0%Z.
Proof.
  apply (overnight_flat_outside_session OvernightExamples.default_params
           KernelExamples.morning_rows 17 (OvernightExamples.quiet 2 480)).
  - reflexivity.
  - reflexivity.
Defined.

(** X15.  The hard exit: a session bar in the last five minutes before
    [session_end], outside the range-formation window, carries signal 0
    whatever was held. *)
Theorem overnight_hard_exit
    (p : Overnight.params) (rows : list Overnight.row) (i : nat)
    (r : Overnight.row) :
  rows !! i = Some r ->
  Overnight.bar_in_session p (Overnight.time r) = true ->
  Overnight.near_exit p (Overnight.time r) = true ->
  Overnight.in_range_window p (Overnight.time r) = false ->
  Overnight._numba_overnight_logic p rows !! i = Some 0%Z.
Proof.
  intros Hr Hin Hnear Hwin. destruct i as [|i].
  - unfold Overnight._numba_overnight_logic, Overnight.trace.
    destruct rows; [discriminate|]. reflexivity.
  - assert (Hlt : (S i < length rows)%nat) by (eapply lookup_lt_Some; eauto).
    destruct (lookup_lt_is_Some_2 rows i) as [rp Hrp]; [lia|].
    destruct (overnight_states_defined p rows i) as [s Hs]; [lia|].
    rewrite overnight_signals_lookup,
      (overnight_trace_S p rows i rp r s Hrp Hr Hs).
    cbn [fmap option_fmap option_map]. f_equal.
    pose proof (mark_formed_outside p (Overnight.time r)
                  (Overnight.session_start p r
                     (Overnight.day_boundary p (Overnight.day_id rp) r s)) Hwin)
      as Hf.
    destruct (step_cases p (Overnight.day_id rp) r s) as
      [[Hb _]|[(_ & Hw & _)|[(_ & _ & _ & ->)|[(_ & Hn & _)|[Hnf _]]]]];
      try congruence.
    reflexivity.
Qed.

Lemma overnight_hard_exit_witness :
  Overnight._numba_overnight_logic OvernightExamples.default_params
    KernelExamples.morning_rows !! 16%nat = Some 0%Z.
Proof.
  apply (overnight_hard_exit OvernightExamples.default_params
           KernelExamples.morning_rows 16 (OvernightExamples.quiet 2 475)).
  - reflexivity.
  - reflexivity.
  - reflexivity.
  - reflexivity.
Defined.

Section OvernightRun.
Import Overnight OvernightProps KernelProps.
Variable p : params.
Variable rows : list row.

Lemma overnight_states_S i rp r s :
  rows !! i = Some rp -> rows !! S i = Some r ->
  states p rows !! i = Some s ->
  states p rows !! S i = Some (fst (step p (day_id rp) r s)).
Proof.
  intros Hrp Hr Hs. rewrite overnight_states_lookup.
  rewrite (overnight_trace_S p rows i rp r s Hrp Hr Hs). reflexivity.
Qed.

Lemma overnight_signal_state i z :
  _numba_overnight_logic p rows !! i = Some z ->
  exists s, states p rows !! i = Some s /\ z = in_pos s.
Proof.
  intros Hz. rewrite overnight_signals_lookup in Hz.
  apply fmap_Some in Hz. destruct Hz as (o & Ho & ->).
  destruct (overnight_trace_inv p rows i o Ho) as [-> _].
  exists (fst o). split; [|reflexivity].
  rewrite overnight_states_lookup, Ho. reflexivity.
Qed.

Lemma session_traded_persists a b j n s :
  session_run p rows a b ->
  (a <= j)%nat -> (j + n <= b)%nat ->
  states p rows !! j = Some s -> traded_session s = true ->
  exists s', states p rows !! (j + n)%nat = Some s' /\ traded_session s' = true.
Proof.
  intros (Hab & Hb & Hno) Haj. induction n as [|n IH]; intros Hjn Hs Ht.
  - rewrite Nat.add_0_r. eauto.
  - destruct IH as (s1 & Hs1 & Ht1); [lia|assumption|assumption|].
    destruct (lookup_lt_is_Some_2 rows (j + n)) as [rp Hrp]; [lia|].
    destruct (lookup_lt_is_Some_2 rows (S (j + n))) as [r Hr]; [lia|].
    replace (j + S n)%nat with (S (j + n)) by lia.
    rewrite (overnight_states_S _ rp r s1 Hrp Hr Hs1).
    eexists. split; [reflexivity|].
    apply step_no_reset_traded; [|exact Ht1].
    apply (Hno (j + n)%nat rp r s1); auto; lia.
Qed.

Lemma session_entry_unique a b j k :
  session_run p rows a b ->
  (a <= j)%nat -> (j < k)%nat -> (k <= b)%nat ->
  is_entry (_numba_overnight_logic p rows) j = true ->
  is_entry (_numba_overnight_logic p rows) k = true -> False.
Proof.
  intros Hrun Haj Hjk Hkb Hj Hk.
  pose proof Hrun as (Hab & Hb & Hno).
  unfold is_entry in Hj, Hk.
  destruct j as [|j']; [discriminate|].
  destruct k as [|k']; [discriminate|].
  destruct (_numba_overnight_logic p rows !! j') as [zj0|] eqn:Ej0;
    [|discriminate].
  destruct (_numba_overnight_logic p rows !! S j') as [zj|] eqn:Ej;
    [|discriminate].
  destruct (_numba_overnight_logic p rows !! k') as [zk0|] eqn:Ek0;
    [|discriminate].
  destruct (_numba_overnight_logic p rows !! S k') as [zk|] eqn:Ek;
    [|discriminate].
  apply andb_true_iff in Hj. destruct Hj as [Hj0 Hj1].
  apply andb_true_iff in Hk. destruct Hk as [Hk0 Hk1].
  apply negb_true_iff, Z.eqb_neq in Hj1, Hk1. apply Z.eqb_eq in Hj0, Hk0.
  destruct (overnight_signal_state _ _ Ej0) as (sj0 & Hsj0 & ->).
  destruct (overnight_signal_state _ _ Ej) as (sj & Hsj & ->).
  destruct (overnight_signal_state _ _ Ek0) as (sk0 & Hsk0 & ->).
  destruct (overnight_signal_state _ _ Ek) as (sk & Hsk & ->).
  destruct (lookup_lt_is_Some_2 rows j') as [rpj Hrpj]; [lia|].
  destruct (lookup_lt_is_Some_2 rows (S j')) as [rj Hrj]; [lia|].
  assert (Htj : traded_session sj = true).
  { rewrite (overnight_states_S _ rpj rj sj0 Hrpj Hrj Hsj0) in Hsj.
    injection Hsj as <-. apply step_entry_traded; assumption. }
  destruct (session_traded_persists a b (S j') (k' - S j') sj Hrun)
    as (s' & Hs' & Ht'); [lia|lia|assumption|assumption|].
  replace (S j' + (k' - S j'))%nat with k' in Hs' by lia.
  rewrite Hsk0 in Hs'. injection Hs' as <-.
  destruct (lookup_lt_is_Some_2 rows k') as [rp Hrp]; [lia|].
  destruct (lookup_lt_is_Some_2 rows (S k')) as [r Hr]; [lia|].
  rewrite (overnight_states_S _ rp r sk0 Hrp Hr Hsk0) in Hsk.
  injection Hsk as <-. apply Hk1.
  apply step_no_reset_flat; [|assumption|assumption].
  apply (Hno k' rp r sk0); auto; lia.
Qed.
End OvernightRun.

(** X16.  At most one fade per session: over bars [a..b] none of which after
    [a] starts a new session, the signals hold at most one flat-to-nonflat
    transition. *)
Theorem overnight_one_fade_per_session
    (p : Overnight.params) (rows : list Overnight.row) (a b : nat) :
  OvernightProps.session_run p rows a b ->
  (length (List.filter
             (KernelProps.is_entry (Overnight._numba_overnight_logic p rows))
             (List.seq a (S b - a))) <= 1)%nat.
Proof.
  intros Hrun. apply filter_at_most_one; [apply List.seq_NoDup|].
  intros x y Hx Hy Hfx Hfy.
  apply List.in_seq in Hx, Hy.
  pose proof Hrun as (Hab & Hb & _).
  destruct (Nat.lt_trichotomy x y) as [Hlt|[Heq|Hgt]]; [|exact Heq|]; exfalso.
  - apply (session_entry_unique p rows a b x y); auto; lia.
  - apply (session_entry_unique p rows a b y x); auto; lia.
Qed.

Lemma overnight_one_fade_per_session_witness :
  (length (List.filter
             (KernelProps.is_entry
                (Overnight._numba_overnight_logic OvernightExamples.default_params
                                                  OvernightExamples.midnight_rows))
             (List.seq 2 (15 - 2))) <= 1)%nat.
Proof.
  apply (overnight_one_fade_per_session OvernightExamples.default_params
           OvernightExamples.midnight_rows 2 14).
  split; [lia|]. split; [cbn; lia|].
  intros j rp r s Ha Hb Hrp Hr Hs.
  do 14 (destruct j as [|j];
         [try lia; injection Hrp as <-; injection Hr as <-;
          vm_compute in Hs; injection Hs as <-; reflexivity|]).
  lia.
Defined.

(** ** The scorer beyond the score formula *)


(** X17.  For a well-formed, non-empty candidate window and any list of
    reference windows, the time overlap is the share of the candidate's
    minutes that are reference minutes: it is 1 exactly when every candidate
    minute is a reference minute and 0 exactly when none is.  A window whose
    start equals its end overlaps 0. *)
Theorem time_overlap_is_minute_share
    (w : Scorer.window) (ws : list Scorer.window) :
  ScorerProps.valid_window w ->
  ScorerProps.minutes_of w <> ∅ ->
  let cand := ScorerProps.minutes_of w in
  let ref := Scorer.windows_minutes ws in
  Scorer.compute_time_overlap w (Some ws)
  == inject_Z (Z.of_nat (size (cand ∩ ref))) / inject_Z (Z.of_nat (size cand))
  /\ (Scorer.compute_time_overlap w (Some ws) == 1 <-> cand ⊆ ref)
  /\ (Scorer.compute_time_overlap w (Some ws) == 0 <-> cand ∩ ref = ∅)
  /\ (forall w' ws',
        Scorer.minute_of_day (fst w') = Scorer.minute_of_day (snd w') ->
        Scorer.compute_time_overlap w' ws' = 0).
Proof.
  intros Hv Hne cand ref.
  destruct (compute_time_overlap_quotient w ws Hv Hne) as (Hq & Hpos & Hle).
  fold cand ref in Hq, Hpos, Hle.
  split; [exact Hq|]. split; [|split].
  - rewrite Hq, (Qdiv_nat_eq_1 _ _ Hpos). split.
    + intros Hsz. apply subseteq_intersection_2_L.
      apply set_subseteq_size_eq; [|lia].
      intros x Hx. apply elem_of_intersection in Hx. tauto.
    + intros Hsub. rewrite (subseteq_intersection_1_L _ _ Hsub). reflexivity.
  - rewrite Hq, (Qdiv_nat_eq_0 _ _ Hpos). split.
    + intros Hz. apply leibniz_equiv, size_empty_iff. exact Hz.
    + intros ->. apply size_empty.
  - intros w' ws'. apply empty_window_overlap.
Qed.

Lemma time_overlap_is_minute_share_witness :
  Scorer.compute_time_overlap (Scorer.Dtime 16 0, Scorer.Dtime 18 0)
    (Some (Scorer.get_all_active_windows Scorer.get_nqmain_profile)) == 0.
Proof.
  pose proof (time_overlap_is_minute_share
                (Scorer.Dtime 16 0, Scorer.Dtime 18 0)
                (Scorer.get_all_active_windows Scorer.get_nqmain_profile))
    as H.
  destruct H as (_ & _ & Hz & _).
  - split; split; cbn; lia.
  - intros He. apply (not_elem_of_empty (C:=gset nat) 1000%nat).
    rewrite <- He. apply elem_of_window_to_minutes. cbn. lia.
  - apply Hz. apply set_eq. intros m.
    rewrite elem_of_intersection, elem_of_empty.
    unfold ScorerProps.minutes_of. cbn [fst snd].
    rewrite elem_of_window_to_minutes.
    change (Scorer.windows_minutes _) with ScorerProps.reference_minutes.
    rewrite elem_of_reference_minutes. cbn. lia.
Defined.

Section WindowMore.
Import Scorer ScorerProps.
Variable py_int : string -> option Z.

Lemma py_get_empty k : py_get ∅ k = PNone.
Proof. unfold py_get. rewrite lookup_empty. reflexivity. Qed.

Lemma window_no_start archetype ps :
  ps !! "session_start"%string = None -> ps !! "entry_time"%string = None ->
  ps !! "range_start"%string = None -> ps !! "orb_start"%string = None ->
  get_strategy_time_window py_int archetype (Some ps)
  = dict_get ARCHETYPE_TIME_WINDOWS archetype (Dtime 9 30, Dtime 15 45).
Proof.
  intros H1 H2 H3 H4. unfold get_strategy_time_window.
  destruct (decide (ps = ∅)); [reflexivity|].
  unfold py_get. rewrite H1, H2, H3, H4. reflexivity.
Qed.

Lemma dict_get_unknown {A} (d : list (string * A)) k dflt :
  (forall v, (k, v) ∉ d) -> dict_get d k dflt = dflt.
Proof.
  induction d as [|[k' v] rest IH]; intros H; [reflexivity|].
  cbn. destruct (String.eqb k' k) eqn:E.
  - apply String.eqb_eq in E. subst k'. exfalso. apply (H v). left.
  - apply IH. intros v' Hin. apply (H v'). right. exact Hin.
Qed.
End WindowMore.

(** X18.  The strategy window is always a pair of well-formed times.
    Without parameters, with an empty record, or with a record that has none
    of the four start keys, it is the archetype's default window, and for an
    archetype that is not in the table that default is 09:30-15:45. *)
Theorem strategy_window_fallback
    (py_int : string -> option Z) (archetype : string) :
  let dflt :=
    Scorer.dict_get Scorer.ARCHETYPE_TIME_WINDOWS archetype
                    (Scorer.Dtime 9 30, Scorer.Dtime 15 45) in
  (forall params,
     ScorerProps.valid_window
       (Scorer.get_strategy_time_window py_int archetype params))
  /\ Scorer.get_strategy_time_window py_int archetype None = dflt
  /\ Scorer.get_strategy_time_window py_int archetype (Some ∅) = dflt
  /\ (forall ps : gmap string Scorer.pyval,
        ps !! "session_start"%string = None ->
        ps !! "entry_time"%string = None ->
        ps !! "range_start"%string = None ->
        ps !! "orb_start"%string = None ->
        Scorer.get_strategy_time_window py_int archetype (Some ps) = dflt)
  /\ ((forall w, (archetype, w) ∉ Scorer.ARCHETYPE_TIME_WINDOWS) ->
      dflt = (Scorer.Dtime 9 30, Scorer.Dtime 15 45)).
Proof.
  intros dflt. subst dflt.
  split; [intros params; apply get_strategy_time_window_valid|].
  split; [reflexivity|].
  split; [apply window_no_start; apply lookup_empty|].
  split; [intros ps; apply window_no_start|].
  apply dict_get_unknown.
Qed.

Section ScoreMore.
Import Scorer ScorerProps.
Variable py_int : string -> option Z.

(** The score is the unclamped sum: the six terms never exceed 100. *)
Lemma score_is_raw archetype params :
  let res := get_complementary_score py_int archetype params in
  let s := minute_of_day (fst (strategy_window res)) in
  let e := minute_of_day (snd (strategy_window res)) in
  complementary_score res
  == 25 * (1 - time_overlap res) + 35 * bool_to_Q (regime_complement res)
     + 20 * bool_to_Q (gap_coverage res)
     + 10 * bool_to_Q (Qltb (time_overlap res) 0.5)
     + 5 * bool_to_Q (covers_lunch s e)
     + 5 * bool_to_Q (covers_post_close s e).
Proof.
  intros res s e.
  pose proof (score_unfold py_int archetype params) as Hs.
  cbv zeta in Hs. fold res in Hs. fold s in Hs. fold e in Hs.
  assert (Ho : 0 <= time_overlap res /\ time_overlap res <= 1).
  { subst res. unfold get_complementary_score.
    cbn [time_overlap]. apply compute_time_overlap_range. }
  destruct Ho as [Ho0 Ho1].
  pose proof (raw_score_bounds (time_overlap res) (regime_complement res)
                (gap_coverage res) (covers_lunch s e) (covers_post_close s e)
                Ho0 Ho1) as Hb.
  cbv zeta in Hb. destruct Hb as [_ Hb1].
  rewrite Hs. apply Q.min_r. exact Hb1.
Qed.

(** A day-time candidate that intersects a day-time gap window covers it. *)
Lemma gap_coverage_hit pf (g : window) (s e : nat) :
  g ∈ gap_windows pf ->
  (minute_of_day (fst g) <= minute_of_day (snd g))%nat ->
  (s <= e)%nat ->
  (s < minute_of_day (snd g))%nat -> (minute_of_day (fst g) < e)%nat ->
  gap_coverage_of pf s e = true.
Proof.
  intros Hin Hg Hse H1 H2. unfold gap_coverage_of.
  replace (e <? s)%nat with false by (symmetry; apply Nat.ltb_ge; lia).
  apply existsb_exists. exists g. split; [apply list_elem_of_In; exact Hin|].
  replace (minute_of_day (snd g) <? minute_of_day (fst g))%nat with false
    by (symmetry; apply Nat.ltb_ge; lia).
  apply andb_true_iff. split; apply Nat.ltb_lt; assumption.
Qed.

Lemma result_fields archetype params :
  let res := get_complementary_score py_int archetype params in
  let w := get_strategy_time_window py_int archetype params in
  strategy_window res = w
  /\ time_overlap res
     = compute_time_overlap w (Some (get_all_active_windows get_nqmain_profile))
  /\ gap_coverage res
     = gap_coverage_of get_nqmain_profile (minute_of_day (fst w))
                       (minute_of_day (snd w))
  /\ regime_complement res
     = (String.eqb (dict_get ARCHETYPE_REGIME archetype EmptyString) "mean_reversion"
        || String.eqb (dict_get ARCHETYPE_REGIME archetype EmptyString) "choppy_range").
Proof. cbv zeta. unfold get_complementary_score. cbn. auto. Qed.
End ScoreMore.

(** X19.  A candidate whose window lies inside the post-close dead zone
    (15:45-18:05) has no overlap, covers a gap window and scores 60, or 95
    when its archetype targets a gap regime. *)
Theorem dead_zone_score
    (py_int : string -> option Z) (archetype : string)
    (params : option (gmap string Scorer.pyval)) :
  let res := Scorer.get_complementary_score py_int archetype params in
  let s := Scorer.minute_of_day (fst (Scorer.strategy_window res)) in
  let e := Scorer.minute_of_day (snd (Scorer.strategy_window res)) in
  (945 <= s)%nat -> (s < e)%nat -> (e <= 1085)%nat ->
  Scorer.time_overlap res == 0
  /\ Scorer.gap_coverage res = true
  /\ Scorer.complementary_score res
     == 60 + 35 * Scorer.bool_to_Q (Scorer.regime_complement res).
Proof.
  intros res s e Hs Hse He.
  pose proof (score_is_raw py_int archetype params) as Hraw.
  cbv zeta in Hraw. fold res in Hraw. fold s in Hraw. fold e in Hraw.
  destruct (result_fields py_int archetype params) as (Hw & Ho & Hg & _).
  cbv zeta in Hw, Ho, Hg. fold res in Hw, Ho, Hg.
  assert (Hov : Scorer.time_overlap res == 0).
  { rewrite Ho, <- Hw.
    pose proof (get_strategy_time_window_valid py_int archetype params) as Hv.
    rewrite <- Hw in Hv.
    assert (Hne : ScorerProps.minutes_of (Scorer.strategy_window res) <> ∅).
    { intros E. apply (not_elem_of_empty (C:=gset nat) s).
      rewrite <- E. apply elem_of_window_to_minutes. fold s e.
      replace (e <? s)%nat with false by (symmetry; apply Nat.ltb_ge; lia).
      lia. }
    destruct (compute_time_overlap_quotient _
                (Scorer.get_all_active_windows Scorer.get_nqmain_profile) Hv Hne)
      as (Hq & Hpos & _).
    rewrite Hq. apply Qdiv_nat_eq_0; [exact Hpos|].
    apply size_empty_iff. apply set_equiv. intros m.
    rewrite elem_of_intersection, elem_of_empty.
    unfold ScorerProps.minutes_of. fold s e.
    rewrite elem_of_window_to_minutes.
    change (Scorer.windows_minutes _) with ScorerProps.reference_minutes.
    rewrite elem_of_reference_minutes.
    replace (e <? s)%nat with false by (symmetry; apply Nat.ltb_ge; lia).
    lia. }
  assert (Hgap : Scorer.gap_coverage res = true).
  { rewrite Hg, <- Hw. fold s e.
    apply (gap_coverage_hit Scorer.get_nqmain_profile
             (Scorer.Dtime 15 45, Scorer.Dtime 18 5)).
    - left.
    - cbn. lia.
    - lia.
    - cbn. lia.
    - cbn. lia. }
  assert (Hl : Scorer.covers_lunch s e = false).
  { unfold Scorer.covers_lunch.
    replace (s <=? 11 * 60 + 30)%nat with false
      by (symmetry; apply Nat.leb_gt; cbn; lia). reflexivity. }
  assert (Hp : Scorer.covers_post_close s e = true).
  { unfold Scorer.covers_post_close. apply andb_true_iff.
    split; apply Nat.leb_le; cbn; lia. }
  assert (Hlt : Qltb (Scorer.time_overlap res) 0.5 = true).
  { apply Qltb_lt. rewrite Hov. reflexivity. }
  split; [exact Hov|]. split; [exact Hgap|].
  rewrite Hraw, Hgap, Hl, Hp, Hlt, Hov. cbn [Scorer.bool_to_Q]. ring.
Qed.

Lemma dead_zone_score_witness :
  Scorer.complementary_score
    (Scorer.get_complementary_score Scorer.decimal_int "first_hour_fade"
       (Some (<["session_start"%string := Scorer.PStr "16:00"]>
              (<["session_end"%string := Scorer.PStr "18:00"]> ∅))))
  == 60 + 35 * Scorer.bool_to_Q true.
Proof.
  refine (proj2 (proj2 (dead_zone_score Scorer.decimal_int "first_hour_fade"
    (Some (<["session_start"%string := Scorer.PStr "16:00"]>
           (<["session_end"%string := Scorer.PStr "18:00"]> ∅))) _ _ _))).
  - vm_compute. lia.
  - vm_compute. lia.
  - vm_compute. lia.
Defined.

(** X20.  The archetype only enters the score through the regime bonus: two
    candidates with the same window score the same apart from 35 points for
    each one that targets a gap regime. *)
Theorem regime_bonus_is_35
    (py_int : string -> option Z) (a1 a2 : string)
    (ps1 ps2 : option (gmap string Scorer.pyval)) :
  let r1 := Scorer.get_complementary_score py_int a1 ps1 in
  let r2 := Scorer.get_complementary_score py_int a2 ps2 in
  Scorer.strategy_window r1 = Scorer.strategy_window r2 ->
  Scorer.time_overlap r1 = Scorer.time_overlap r2
  /\ Scorer.gap_coverage r1 = Scorer.gap_coverage r2
  /\ Scorer.complementary_score r1
     - 35 * Scorer.bool_to_Q (Scorer.regime_complement r1)
     == Scorer.complementary_score r2
        - 35 * Scorer.bool_to_Q (Scorer.regime_complement r2).
Proof.
  intros r1 r2 Hw.
  pose proof (score_is_raw py_int a1 ps1) as H1.
  pose proof (score_is_raw py_int a2 ps2) as H2.
  cbv zeta in H1, H2. fold r1 in H1. fold r2 in H2.
  destruct (result_fields py_int a1 ps1) as (Hw1 & Ho1 & Hg1 & _).
  destruct (result_fields py_int a2 ps2) as (Hw2 & Ho2 & Hg2 & _).
  cbv zeta in Hw1, Ho1, Hg1, Hw2, Ho2, Hg2.
  fold r1 in Hw1, Ho1, Hg1. fold r2 in Hw2, Ho2, Hg2.
  assert (Ho : Scorer.time_overlap r1 = Scorer.time_overlap r2).
  { rewrite Ho1, Ho2, <- Hw1, <- Hw2, Hw. reflexivity. }
  assert (Hg : Scorer.gap_coverage r1 = Scorer.gap_coverage r2).
  { rewrite Hg1, Hg2, <- Hw1, <- Hw2, Hw. reflexivity. }
  split; [exact Ho|]. split; [exact Hg|].
  rewrite H1, H2, Hw, Ho, Hg. ring.
Qed.

Lemma regime_bonus_is_35_witness :
  Scorer.complementary_score
    (Scorer.get_complementary_score Scorer.decimal_int "gap_fill_fade" None)
  - 35 * Scorer.bool_to_Q true
  == Scorer.complementary_score
       (Scorer.get_complementary_score Scorer.decimal_int "es_gap_combo" None)
     - 35 * Scorer.bool_to_Q false.
Proof.
  refine (proj2 (proj2 (regime_bonus_is_35 Scorer.decimal_int
                          "gap_fill_fade" "es_gap_combo" None None _))).
  reflexivity.
Defined.

(** ** The profile's minute counts against the scorer's minute sets *)

Section ProfileMore.
Import Scorer ScorerProps ProfileMethods ProfileProps.

Lemma windows_minutes_two (w1 w2 : window) :
  windows_minutes [w1; w2] = minutes_of w1 ∪ minutes_of w2.
Proof.
  unfold windows_minutes, minutes_of. cbn [foldl].
  apply leibniz_equiv. rewrite (left_id ∅ (∪)). reflexivity.
Qed.

Lemma size_union_le (X Y : gset nat) : (size (X ∪ Y) <= size X + size Y)%nat.
Proof.
  rewrite size_union_alt.
  pose proof (subseteq_size (Y ∖ X) Y) as H.
  assert (Hs : Y ∖ X ⊆ Y).
  { intros m Hm. apply elem_of_difference in Hm. tauto. }
  specialize (H Hs). lia.
Qed.

Lemma gap_step_size (g : window) :
  valid_window g ->
  (let s := Z.of_nat (minute_of_day (fst g)) in
   let e := Z.of_nat (minute_of_day (snd g)) in
   if (e <? s)%Z then ((1440 - s) + e)%Z else (e - s)%Z)
  = Z.of_nat (size (minutes_of g)).
Proof.
  intros [Hv1 Hv2]. cbv zeta. unfold minutes_of.
  pose proof (minute_of_day_bound _ Hv1) as Hs.
  rewrite (size_window_to_minutes _ _ Hs).
  destruct (Z.ltb_spec (Z.of_nat (minute_of_day (snd g)))
                       (Z.of_nat (minute_of_day (fst g))));
    destruct (Nat.ltb_spec (minute_of_day (snd g)) (minute_of_day (fst g)));
    try lia; reflexivity.
Qed.

Lemma gap_total_from_bounds ws : forall total acc,
  Forall valid_window ws ->
  (Z.of_nat (size acc) <= total)%Z ->
  (Z.of_nat (size (minutes_from acc ws)) <= gap_total_from total ws)%Z
  /\ (total <= gap_total_from total ws)%Z
  /\ (gap_total_from total ws <= total + 1440 * Z.of_nat (length ws))%Z.
Proof.
  induction ws as [|g ws IH]; intros total acc Hv Hacc.
  - cbn. lia.
  - apply Forall_cons in Hv as [Hg Hv].
    pose proof (gap_step_size g Hg) as Hstep. cbv zeta in Hstep.
    assert (Hsz : (size (minutes_of g) <= 1440)%nat).
    { destruct Hg as [Hv1 Hv2].
      pose proof (minute_of_day_bound _ Hv1).
      pose proof (minute_of_day_bound _ Hv2).
      pose proof (size_window_to_minutes (minute_of_day (fst g))
                    (minute_of_day (snd g)) ltac:(assumption)) as Hq.
      fold (minutes_of g) in Hq.
      destruct (minute_of_day (snd g) <? minute_of_day (fst g))%nat eqn:E;
        [apply Nat.ltb_lt in E|apply Nat.ltb_ge in E]; lia. }
    unfold minutes_from, gap_total_from. cbn [foldl].
    fold (minutes_of g).
    set (total' := if (Z.of_nat (minute_of_day (snd g))
                       <? Z.of_nat (minute_of_day (fst g)))%Z
                   then _ else _).
    assert (Ht : total' = (total + Z.of_nat (size (minutes_of g)))%Z).
    { subst total'. rewrite <- Hstep.
      destruct (Z.of_nat (minute_of_day (snd g))
                <? Z.of_nat (minute_of_day (fst g)))%Z; reflexivity. }
    pose proof (size_union_le acc (minutes_of g)) as Hu.
    clearbody total'.
    assert (Hacc' : (Z.of_nat (size (acc ∪ minutes_of g)) <= total')%Z) by lia.
    destruct (IH total' (acc ∪ minutes_of g) Hv Hacc') as (H1 & H2 & H3).
    fold (minutes_from (acc ∪ minutes_of g) ws).
    fold (gap_total_from total' ws).
    cbn [length]. lia.
Qed.
End ProfileMore.

(** X21.  [get_active_minutes] counts the minutes the scorer treats as
    active: for a profile whose day session does not wrap, whose overnight
    session does, and whose two sessions do not intersect, the method's
    arithmetic equals the size of the minute set that [compute_time_overlap]
    builds from [get_all_active_windows]. *)
Theorem active_minutes_is_minute_count (pf : Scorer.NQmainProfile) :
  ScorerProps.valid_time (Scorer.rth_start pf) ->
  ScorerProps.valid_time (Scorer.overnight_start pf) ->
  (Scorer.minute_of_day (Scorer.overnight_end pf)
   <= Scorer.minute_of_day (Scorer.rth_start pf))%nat ->
  (Scorer.minute_of_day (Scorer.rth_start pf)
   <= Scorer.minute_of_day (Scorer.rth_end pf))%nat ->
  (Scorer.minute_of_day (Scorer.rth_end pf)
   <= Scorer.minute_of_day (Scorer.overnight_start pf))%nat ->
  (Scorer.minute_of_day (Scorer.overnight_end pf)
   < Scorer.minute_of_day (Scorer.overnight_start pf))%nat ->
  ProfileMethods.get_active_minutes pf
  = Z.of_nat (size (Scorer.windows_minutes (Scorer.get_all_active_windows pf))).
Proof.
  intros Hv1 Hv2 H1 H2 H3 H4.
  pose proof (minute_of_day_bound _ Hv1) as Hb1.
  pose proof (minute_of_day_bound _ Hv2) as Hb2.
  unfold Scorer.get_all_active_windows. rewrite windows_minutes_two.
  unfold ScorerProps.minutes_of. cbn [fst snd].
  rewrite size_union.
  - rewrite Nat2Z.inj_add.
    rewrite (size_window_to_minutes _ _ Hb1), (size_window_to_minutes _ _ Hb2).
    replace (Scorer.minute_of_day (Scorer.rth_end pf)
             <? Scorer.minute_of_day (Scorer.rth_start pf))%nat with false
      by (symmetry; apply Nat.ltb_ge; lia).
    replace (Scorer.minute_of_day (Scorer.overnight_end pf)
             <? Scorer.minute_of_day (Scorer.overnight_start pf))%nat with true
      by (symmetry; apply Nat.ltb_lt; lia).
    unfold ProfileMethods.get_active_minutes. lia.
  - intros m Ha Hb.
    apply elem_of_window_to_minutes in Ha, Hb.
    replace (Scorer.minute_of_day (Scorer.rth_end pf)
             <? Scorer.minute_of_day (Scorer.rth_start pf))%nat with false in Ha
      by (symmetry; apply Nat.ltb_ge; lia).
    replace (Scorer.minute_of_day (Scorer.overnight_end pf)
             <? Scorer.minute_of_day (Scorer.overnight_start pf))%nat with true in Hb
      by (symmetry; apply Nat.ltb_lt; lia).
    lia.
Qed.

Lemma active_minutes_is_minute_count_witness :
  ProfileMethods.get_active_minutes Scorer.get_nqmain_profile
  = Z.of_nat (size ScorerProps.reference_minutes).
Proof.
  apply (active_minutes_is_minute_count Scorer.get_nqmain_profile).
  - unfold ScorerProps.valid_time. cbn. lia.
  - unfold ScorerProps.valid_time. cbn. lia.
  - cbn. lia.
  - cbn. lia.
  - cbn. lia.
  - cbn. lia.
Defined.

(** X22.  [get_gap_minutes] sums the gap windows one by one: with valid
    times the total is never negative, is at most a day per window, and is
    at least the number of distinct minutes the gap windows cover (windows
    that intersect are counted twice). *)
Theorem gap_minutes_bounds (pf : Scorer.NQmainProfile) :
  Forall ScorerProps.valid_window (Scorer.gap_windows pf) ->
  (0 <= ProfileMethods.get_gap_minutes pf)%Z
  /\ (ProfileMethods.get_gap_minutes pf
      <= 1440 * Z.of_nat (length (Scorer.gap_windows pf)))%Z
  /\ (Z.of_nat (size (Scorer.windows_minutes (Scorer.gap_windows pf)))
      <= ProfileMethods.get_gap_minutes pf)%Z.
Proof.
  intros Hv.
  destruct (gap_total_from_bounds (Scorer.gap_windows pf) 0%Z ∅ Hv) as (H1 & H2 & H3).
  { rewrite size_empty. lia. }
  unfold ProfileProps.minutes_from, ProfileProps.gap_total_from in *.
  unfold ProfileMethods.get_gap_minutes, Scorer.windows_minutes.
  lia.
Qed.

Lemma gap_minutes_bounds_witness :
  (0 <= ProfileMethods.get_gap_minutes Scorer.get_nqmain_profile)%Z
  /\ (ProfileMethods.get_gap_minutes Scorer.get_nqmain_profile
      <= 1440 * Z.of_nat 3)%Z
  /\ (Z.of_nat (size (Scorer.windows_minutes
                        (Scorer.gap_windows Scorer.get_nqmain_profile)))
      <= ProfileMethods.get_gap_minutes Scorer.get_nqmain_profile)%Z.
Proof.
  apply (gap_minutes_bounds Scorer.get_nqmain_profile).
  repeat first [apply List.Forall_nil
               | apply List.Forall_cons;
                 [unfold ScorerProps.valid_window, ScorerProps.valid_time;
                  cbn; lia|]].
Defined.

(** ** The daemon's control surface *)

Section DaemonMore.
Import Daemon DaemonControl DaemonProps.

Lemma restore_keys_notin keys saved : forall st k,
  k ∉ keys -> restore_keys keys saved st !! k = st !! k.
Proof.
  unfold restore_keys.
  induction keys as [|a keys IH]; intros st k Hk; [reflexivity|].
  apply not_elem_of_cons in Hk as [Hka Hk]. cbn [foldl].
  rewrite (IH _ k Hk).
  destruct (saved !! a); [|reflexivity].
  apply lookup_insert_ne. congruence.
Qed.

Lemma restore_keys_in keys saved : forall st k,
  k ∈ keys ->
  restore_keys keys saved st !! k
  = match saved !! k with Some v => Some v | None => st !! k end.
Proof.
  induction keys as [|a keys IH]; intros st k Hk.
  - apply elem_of_nil in Hk. contradiction.
  - destruct (decide (k ∈ keys)) as [Hin|Hnin].
    + unfold restore_keys. cbn [foldl].
      fold (restore_keys keys saved
              (match saved !! a with Some v => <[a:=v]> st | None => st end)).
      rewrite (IH _ k Hin).
      destruct (saved !! k) as [v|] eqn:Ek; [reflexivity|].
      destruct (decide (a = k)) as [->|Hne].
      * rewrite Ek. reflexivity.
      * destruct (saved !! a); [|reflexivity].
        apply lookup_insert_ne. exact Hne.
    + apply elem_of_cons in Hk as [->|Hk]; [|contradiction].
      unfold restore_keys. cbn [foldl].
      fold (restore_keys keys saved
              (match saved !! a with Some v => <[a:=v]> st | None => st end)).
      rewrite (restore_keys_notin keys saved _ a Hnin).
      destruct (saved !! a); [apply lookup_insert_eq|reflexivity].
Qed.

Lemma save_state_object ff w :
  disk w <> NonObject ->
  exists m, _save_state ff w = World (_state w) (Object m).
Proof.
  intros Hd. unfold _save_state.
  destruct (disk w); try contradiction; eexists; reflexivity.
Qed.

Lemma save_state_state ff w : _state (_save_state ff w) = _state w.
Proof. unfold _save_state. destruct (disk w); reflexivity. Qed.

Lemma stop_flags_nonempty : stop_flags <> ∅.
Proof.
  intros E. apply (f_equal (fun m => m !! "stopped"%string)) in E.
  unfold stop_flags in E. rewrite lookup_insert_eq, lookup_empty in E.
  discriminate.
Qed.

Lemma load_state_untouched w k :
  k ∉ ["last_cycle_at"; "last_dashboard_at"; "total_cycles"; "total_errors";
       "paused"; "stopped"; "exploration_mode"; "active_objective";
       "active_preset_id"; "guide_text"; "directive"]%string ->
  _state (_load_state w) !! k = _state w !! k.
Proof.
  intros Hk. unfold _load_state.
  destruct (disk w) as [| | |saved]; try reflexivity.
  cbn [_state].
  repeat (apply not_elem_of_cons in Hk as [? Hk]).
  rewrite restore_keys_notin.
  - rewrite !lookup_insert_ne by congruence. reflexivity.
  - repeat (apply not_elem_of_cons; split; [assumption|]).
    apply not_elem_of_nil.
Qed.

Lemma load_state_restored st saved k :
  k ∈ ["last_cycle_at"; "last_dashboard_at"; "total_cycles";
       "total_errors"]%string ->
  _state (_load_state (World st (Object saved))) !! k
  = Some (json_get saved k (restored_default k)).
Proof.
  intros Hk. unfold _load_state. cbn [disk _state].
  rewrite restore_keys_notin.
  - repeat (apply elem_of_cons in Hk as [->|Hk]);
      [..|apply elem_of_nil in Hk; contradiction];
      rewrite ?(lookup_insert_ne (M := gmap string)) by discriminate;
      rewrite lookup_insert_eq; reflexivity.
  - repeat (apply elem_of_cons in Hk as [->|Hk]);
      [..|apply elem_of_nil in Hk; contradiction];
      repeat (apply not_elem_of_cons; split; [discriminate|]);
      apply not_elem_of_nil.
Qed.

Lemma check_flags_running d saved :
  disk (world_of d) = Object saved ->
  json_truthy (json_get saved "stopped" (JBool false)) = false ->
  _check_control_flags d
  = Some (Daemon (_running d)
            (World (restore_keys
                      ["guide_text"; "directive"; "exploration_mode";
                       "active_objective"; "active_preset_id"]%string saved
                      (<["paused" := json_get saved "paused" (JBool false)]>
                         (_state (world_of d))))
                   (Object saved))).
Proof.
  intros Hd Hs. unfold _check_control_flags. rewrite Hd, Hs. reflexivity.
Qed.

Lemma check_flags_paused_lookup saved st :
  restore_keys ["guide_text"; "directive"; "exploration_mode";
                "active_objective"; "active_preset_id"]%string saved
    (<["paused" := json_get saved "paused" (JBool false)]> st) !! "paused"%string
  = Some (json_get saved "paused" (JBool false)).
Proof.
  rewrite restore_keys_notin.
  - apply lookup_insert_eq.
  - repeat (apply not_elem_of_cons; split; [discriminate|]).
    apply not_elem_of_nil.
Qed.
End DaemonMore.

(** X23.  A stop reaches every reader of the state file.  Unless the file
    holds JSON that is not an object, [stop()] leaves [_running] false and
    the file with [stopped] true and [paused] false, whatever the dashboard
    had written; any daemon that then polls that file with
    [_check_control_flags] turns its own [_running] off and changes nothing
    else of its state. *)
Theorem stop_reaches_every_reader (d d2 : DaemonControl.daemon) :
  Daemon.disk (DaemonControl.world_of d) <> Daemon.NonObject ->
  Daemon.disk (DaemonControl.world_of d2)
  = Daemon.disk (DaemonControl.world_of (DaemonControl.stop d)) ->
  DaemonControl._running (DaemonControl.stop d) = false
  /\ Daemon.file_field (Daemon.disk (DaemonControl.world_of (DaemonControl.stop d)))
       "stopped" = Some (Daemon.JBool true)
  /\ Daemon.file_field (Daemon.disk (DaemonControl.world_of (DaemonControl.stop d)))
       "paused" = Some (Daemon.JBool false)
  /\ DaemonControl._check_control_flags d2
     = Some (DaemonControl.Daemon false (DaemonControl.world_of d2)).
Proof.
  intros Hd Hd2.
  set (w1 := Daemon.set_state "paused" (Daemon.JBool false)
               (Daemon.set_state "stopped" (Daemon.JBool true)
                  (DaemonControl.world_of d))).
  assert (Hw1 : Daemon.disk w1 <> Daemon.NonObject) by exact Hd.
  assert (Hstop : DaemonControl.world_of (DaemonControl.stop d)
                  = Daemon._save_state (Some DaemonControl.stop_flags) w1)
    by reflexivity.
  assert (Hf : forall k v, DaemonControl.stop_flags !! k = Some v ->
             Daemon.file_field
               (Daemon.disk (DaemonControl.world_of (DaemonControl.stop d))) k
             = Some v).
  { intros k v Hk. rewrite Hstop, (save_state_field _ _ _ Hw1).
    destruct (decide (DaemonControl.stop_flags = ∅)) as [E|_];
      [destruct (stop_flags_nonempty E)|].
    rewrite Hk. reflexivity. }
  assert (Hs : Daemon.file_field
                 (Daemon.disk (DaemonControl.world_of (DaemonControl.stop d)))
                 "stopped" = Some (Daemon.JBool true)).
  { apply Hf. reflexivity. }
  split; [reflexivity|]. split; [exact Hs|]. split; [apply Hf; reflexivity|].
  destruct (save_state_object (Some DaemonControl.stop_flags) w1 Hw1) as [m Hm].
  rewrite Hstop, Hm in Hs. cbn [Daemon.disk Daemon.file_field] in Hs.
  rewrite Hstop, Hm in Hd2. cbn [Daemon.disk] in Hd2.
  unfold DaemonControl._check_control_flags. rewrite Hd2.
  unfold Daemon.json_get. rewrite Hs. reflexivity.
Qed.

Lemma stop_reaches_every_reader_witness :
  DaemonControl._check_control_flags
    (DaemonControl.Daemon true
       (Daemon.World Daemon.initial_state
          (Daemon.disk (DaemonControl.world_of
                          (DaemonControl.stop ClockExample.polling)))))
  = Some (DaemonControl.Daemon false
            (Daemon.World Daemon.initial_state
               (Daemon.disk (DaemonControl.world_of
                               (DaemonControl.stop ClockExample.polling))))).
Proof.
  refine (proj2 (proj2 (proj2
    (stop_reaches_every_reader ClockExample.polling
       (DaemonControl.Daemon true
          (Daemon.World Daemon.initial_state
             (Daemon.disk (DaemonControl.world_of
                             (DaemonControl.stop ClockExample.polling)))))
       _ _)))).
  - discriminate.
  - reflexivity.
Defined.

(** X24.  A start survives its first poll.  Whatever flags an earlier run
    or the dashboard left in the file (unless the file holds JSON that is
    not an object), the daemon that has run [start()] and then
    [_check_control_flags()] is still running and not paused, and remembers
    its start time. *)
Theorem start_survives_first_poll (now : string) (w : Daemon.world) :
  Daemon.disk w <> Daemon.NonObject ->
  exists d',
    DaemonControl._check_control_flags
      (DaemonControl.Daemon true (Daemon.start now w)) = Some d'
    /\ DaemonControl._running d' = true
    /\ DaemonControl.is_paused d' = false
    /\ Daemon._state (DaemonControl.world_of d') !! "started_at"%string
       = Some (Daemon.JStr now).
Proof.
  intros Hd.
  set (w1 := Daemon.set_state "stopped" (Daemon.JBool false)
               (Daemon.set_state "paused" (Daemon.JBool false)
                  (Daemon._load_state
                     (Daemon.set_state "started_at" (Daemon.JStr now) w)))).
  assert (Hstart : Daemon.start now w
                   = Daemon._save_state (Some Daemon.cleared_flags) w1)
    by reflexivity.
  assert (Hw1 : Daemon.disk w1 <> Daemon.NonObject).
  { subst w1. cbn [Daemon.set_state Daemon.disk].
    rewrite load_state_disk. exact Hd. }
  destruct (save_state_object (Some Daemon.cleared_flags) w1 Hw1) as [m Hm].
  assert (Hf : forall k, Daemon.is_control_flag k = true ->
                 m !! k = Some (Daemon.JBool false)).
  { intros k Hk.
    pose proof (save_state_field (Some Daemon.cleared_flags) w1 k Hw1) as H.
    rewrite Hm in H. cbn [Daemon.disk Daemon.file_field] in H.
    destruct (decide (Daemon.cleared_flags = ∅)) as [E|_];
      [destruct (cleared_flags_nonempty E)|].
    rewrite cleared_flags_lookup, Hk in H. exact H. }
  pose proof (Hf "stopped"%string eq_refl) as Hs.
  pose proof (Hf "paused"%string eq_refl) as Hp.
  set (d := DaemonControl.Daemon true (Daemon.start now w)).
  assert (Hdisk : Daemon.disk (DaemonControl.world_of d) = Daemon.Object m).
  { subst d. cbn [DaemonControl.world_of]. rewrite Hstart, Hm. reflexivity. }
  assert (Hst : DaemonControl.json_truthy
                  (Daemon.json_get m "stopped" (Daemon.JBool false)) = false).
  { unfold Daemon.json_get. rewrite Hs. reflexivity. }
  eexists. split; [apply (check_flags_running d m Hdisk Hst)|].
  cbn [DaemonControl._running DaemonControl.world_of Daemon._state].
  split; [reflexivity|]. split.
  - unfold DaemonControl.is_paused.
    cbn [DaemonControl.world_of Daemon._state].
    unfold Daemon.json_get at 1.
    rewrite check_flags_paused_lookup. cbn [default].
    unfold Daemon.json_get. rewrite Hp. reflexivity.
  - rewrite restore_keys_notin.
    2:{ repeat (apply not_elem_of_cons; split; [discriminate|]).
        apply not_elem_of_nil. }
    rewrite lookup_insert_ne by discriminate.
    subst d. cbn [DaemonControl.world_of].
    rewrite Hstart, save_state_state. subst w1.
    cbn [Daemon.set_state Daemon._state].
    rewrite !lookup_insert_ne by discriminate.
    rewrite load_state_untouched.
    + cbn [Daemon.set_state Daemon._state]. apply lookup_insert_eq.
    + repeat (apply not_elem_of_cons; split; [discriminate|]).
      apply not_elem_of_nil.
Qed.

Lemma start_survives_first_poll_witness :
  exists d',
    DaemonControl._check_control_flags
      (DaemonControl.Daemon true
         (Daemon.start ClockExample.stamp
            (DaemonControl.world_of (DaemonControl.stop ClockExample.polling))))
    = Some d'
    /\ DaemonControl._running d' = true
    /\ DaemonControl.is_paused d' = false
    /\ Daemon._state (DaemonControl.world_of d') !! "started_at"%string
       = Some (Daemon.JStr ClockExample.stamp).
Proof.
  apply (start_survives_first_poll ClockExample.stamp
           (DaemonControl.world_of (DaemonControl.stop ClockExample.polling))).
  discriminate.
Defined.

(** X25.  Crash recovery.  After a save, a freshly constructed daemon that
    loads the file gets back the cycle count, the error count and the times
    of the last cycle and of the last dashboard rebuild; the time of the
    last heartbeat and the start time are written to the file but not read
    back, they start again at [None]. *)
Theorem save_then_load_recovers (w : Daemon.world) :
  Daemon.disk w <> Daemon.NonObject ->
  let fresh :=
    Daemon._load_state
      (Daemon.World Daemon.initial_state
         (Daemon.disk (Daemon._save_state None w))) in
  (forall k v,
      k ∈ ["last_cycle_at"; "last_dashboard_at"; "total_cycles";
           "total_errors"]%string ->
      Daemon._state w !! k = Some v ->
      Daemon._state fresh !! k = Some v)
  /\ (forall k v,
        k ∈ ["last_heartbeat_at"; "started_at"]%string ->
        Daemon._state w !! k = Some v ->
        Daemon.file_field (Daemon.disk fresh) k = Some v
        /\ Daemon._state fresh !! k = Some Daemon.JNull).
Proof.
  intros Hd fresh.
  destruct (save_state_object None w Hd) as [m Hm].
  assert (Hfile : forall k v, Daemon.is_control_flag k = false ->
             Daemon._state w !! k = Some v -> m !! k = Some v).
  { intros k v Hk Hv.
    pose proof (save_state_field None w k Hd) as H.
    rewrite Hm in H. cbn [Daemon.disk Daemon.file_field] in H.
    rewrite daemon_metrics_lookup, Hk, Hv in H. exact H. }
  subst fresh. rewrite Hm. cbn [Daemon.disk]. split.
  - intros k v Hk Hv.
    rewrite (load_state_restored _ _ _ Hk).
    unfold Daemon.json_get. rewrite (Hfile k v); [reflexivity| |exact Hv].
    repeat (apply elem_of_cons in Hk as [->|Hk]);
      [..|apply elem_of_nil in Hk; contradiction]; reflexivity.
  - intros k v Hk Hv. split.
    + rewrite load_state_disk. cbn [Daemon.disk Daemon.file_field].
      apply Hfile; [|exact Hv].
      repeat (apply elem_of_cons in Hk as [->|Hk]);
        [..|apply elem_of_nil in Hk; contradiction]; reflexivity.
    + rewrite load_state_untouched.
      * cbn [Daemon._state].
        repeat (apply elem_of_cons in Hk as [->|Hk]);
          [..|apply elem_of_nil in Hk; contradiction]; reflexivity.
      * repeat (apply elem_of_cons in Hk as [->|Hk]);
          [..|apply elem_of_nil in Hk; contradiction];
          repeat (apply not_elem_of_cons; split; [discriminate|]);
          apply not_elem_of_nil.
Qed.

Lemma save_then_load_recovers_witness :
  Daemon._state
    (Daemon._load_state
       (Daemon.World Daemon.initial_state
          (Daemon.disk (Daemon._save_state None DaemonExamples.running))))
    !! "total_cycles"%string
  = Some (Daemon.JInt 8).
Proof.
  refine (proj1 (save_then_load_recovers DaemonExamples.running _)
            "total_cycles"%string (Daemon.JInt 8) _ _).
  - discriminate.
  - apply list_elem_of_further, list_elem_of_further, list_elem_of_here.
  - reflexivity.
Defined.

(** X26.  Saving is idempotent and never drops a key: a second
    [_save_state] with the same arguments changes neither the daemon nor the
    file, and every key the file had before a save it still has after. *)
Theorem save_state_idempotent
    (ff : option (gmap string Daemon.json)) (w : Daemon.world) :
  Daemon._save_state ff (Daemon._save_state ff w) = Daemon._save_state ff w
  /\ forall k, is_Some (Daemon.file_field (Daemon.disk w) k) ->
       is_Some (Daemon.file_field (Daemon.disk (Daemon._save_state ff w)) k).
Proof.
  assert (Hc : Daemon.disk w = Daemon.NonObject
               \/ Daemon.disk w <> Daemon.NonObject).
  { destruct (Daemon.disk w); first [left; reflexivity | right; discriminate]. }
  destruct Hc as [Hn|Hd].
  - rewrite !(save_state_non_object ff w Hn). split.
    + reflexivity.
    + intros k Hk. exact Hk.
  - split.
    + destruct (save_state_object ff w Hd) as [m Hm].
      assert (Hd' : Daemon.disk (Daemon._save_state ff w) <> Daemon.NonObject).
      { rewrite Hm. discriminate. }
      destruct (save_state_object ff _ Hd') as [m' Hm'].
      rewrite Hm', save_state_state, Hm. f_equal. f_equal.
      apply map_eq. intros k.
      pose proof (save_state_field ff _ k Hd') as H2.
      pose proof (save_state_field ff w k Hd) as H1.
      rewrite Hm', save_state_state in H2.
      cbn [Daemon.disk Daemon.file_field] in H2.
      rewrite H1 in H2. rewrite Hm in H1.
      cbn [Daemon.disk Daemon.file_field] in H1.
      rewrite H2, H1.
      destruct ff as [f|]; [destruct (decide (f = ∅)); [|destruct (f !! k)]|];
        destruct (Daemon.daemon_metrics (Daemon._state w) !! k); reflexivity.
    + intros k Hk. rewrite (save_state_field ff w k Hd).
      destruct ff as [f|]; [destruct (decide (f = ∅)); [|destruct (f !! k)]|];
        destruct (Daemon.daemon_metrics (Daemon._state w) !! k);
        first [exact Hk | eexists; reflexivity].
Qed.

(** X27.  Polling the control flags is read-only towards the file and the
    daemon's own bookkeeping: whenever [_check_control_flags()] returns, the
    file is as it was, every entry of the state other than [paused] and the
    five dashboard-written settings is unchanged (counters, timestamps and
    the in-memory [stopped] entry among them), and a daemon that was not
    running is not running afterwards. *)
Theorem check_flags_frame (d d' : DaemonControl.daemon) :
  DaemonControl._check_control_flags d = Some d' ->
  Daemon.disk (DaemonControl.world_of d') = Daemon.disk (DaemonControl.world_of d)
  /\ (forall k,
        k ∉ ["paused"; "guide_text"; "directive"; "exploration_mode";
             "active_objective"; "active_preset_id"]%string ->
        Daemon._state (DaemonControl.world_of d') !! k
        = Daemon._state (DaemonControl.world_of d) !! k)
  /\ (DaemonControl._running d' = true -> DaemonControl._running d = true).
Proof.
  intros Hc.
  destruct (Daemon.disk (DaemonControl.world_of d)) as [| | |saved] eqn:Hd.
  - unfold DaemonControl._check_control_flags in Hc. rewrite Hd in Hc.
    apply (inj Some) in Hc. subst d'. rewrite Hd. auto.
  - unfold DaemonControl._check_control_flags in Hc. rewrite Hd in Hc.
    apply (inj Some) in Hc. subst d'. rewrite Hd. auto.
  - unfold DaemonControl._check_control_flags in Hc. rewrite Hd in Hc.
    discriminate.
  - destruct (DaemonControl.json_truthy
                (Daemon.json_get saved "stopped" (Daemon.JBool false))) eqn:Hs.
    + unfold DaemonControl._check_control_flags in Hc. rewrite Hd, Hs in Hc.
      apply (inj Some) in Hc. subst d'.
      cbn [DaemonControl.world_of DaemonControl._running].
      split; [exact Hd|]. split; [reflexivity|discriminate].
    + rewrite (check_flags_running d saved Hd Hs) in Hc.
      apply (inj Some) in Hc. subst d'.
      cbn [DaemonControl.world_of DaemonControl._running Daemon.disk
           Daemon._state].
      split; [reflexivity|]. split; [|auto].
      intros k Hk. apply not_elem_of_cons in Hk as [Hp Hk].
      rewrite (restore_keys_notin _ _ _ _ Hk).
      apply lookup_insert_ne. congruence.
Qed.

Lemma check_flags_frame_witness :
  exists d',
    DaemonControl._check_control_flags ClockExample.polling = Some d'
    /\ Daemon._state (DaemonControl.world_of d') !! "total_cycles"%string
       = Some (Daemon.JInt 8).
Proof.
  eexists. split; [reflexivity|].
  etransitivity.
  - refine (proj1 (proj2 (check_flags_frame ClockExample.polling _ eq_refl))
              "total_cycles"%string _).
    repeat (apply not_elem_of_cons; split; [discriminate|]).
    apply not_elem_of_nil.
  - reflexivity.
Defined.

(** X28.  A pause set by the dashboard takes effect and stays.  When the
    file is an object whose [stopped] is not truthy, one poll keeps
    [_running] and makes the daemon's pause test equal the truthiness of the
    file's [paused] ([False] when absent); the periodic [_save_state()] that
    follows leaves the file's [paused] and [stopped] as they were, present
    or absent; and each of the five dashboard settings that the file holds
    is copied into the state and is still in the file, with the same value,
    after that save. *)
Theorem dashboard_pause_round_trip
    (d : DaemonControl.daemon) (saved : gmap string Daemon.json) :
  Daemon.disk (DaemonControl.world_of d) = Daemon.Object saved ->
  DaemonControl.json_truthy
    (Daemon.json_get saved "stopped" (Daemon.JBool false)) = false ->
  exists d',
    DaemonControl._check_control_flags d = Some d'
    /\ DaemonControl._running d' = DaemonControl._running d
    /\ DaemonControl.is_paused d'
       = DaemonControl.json_truthy
           (Daemon.json_get saved "paused" (Daemon.JBool false))
    /\ (forall k,
          Daemon.is_control_flag k = true ->
          Daemon.file_field
            (Daemon.disk (Daemon._save_state None (DaemonControl.world_of d'))) k
          = saved !! k)
    /\ (forall k v,
          k ∈ ["guide_text"; "directive"; "exploration_mode";
               "active_objective"; "active_preset_id"]%string ->
          saved !! k = Some v ->
          Daemon._state (DaemonControl.world_of d') !! k = Some v
          /\ Daemon.file_field
               (Daemon.disk (Daemon._save_state None (DaemonControl.world_of d')))
               k = Some v).
Proof.
  intros Hd Hs.
  eexists. split; [apply (check_flags_running d saved Hd Hs)|].
  cbn [DaemonControl._running DaemonControl.world_of Daemon._state].
  split; [reflexivity|]. split; [|split].
  - unfold DaemonControl.is_paused.
    cbn [DaemonControl.world_of Daemon._state].
    unfold Daemon.json_get at 1.
    rewrite check_flags_paused_lookup. reflexivity.
  - intros k Hk.
    rewrite save_state_field by (cbn [Daemon.disk]; discriminate).
    rewrite daemon_metrics_lookup, Hk. reflexivity.
  - intros k v Hk Hv.
    assert (Hst : Daemon.restore_keys
                    ["guide_text"; "directive"; "exploration_mode";
                     "active_objective"; "active_preset_id"]%string saved
                    (<["paused" := Daemon.json_get saved "paused"
                                     (Daemon.JBool false)]>
                       (Daemon._state (DaemonControl.world_of d))) !! k
                  = Some v).
    { rewrite (restore_keys_in _ _ _ _ Hk), Hv. reflexivity. }
    split; [exact Hst|].
    rewrite save_state_field by (cbn [Daemon.disk]; discriminate).
    rewrite daemon_metrics_lookup. cbn [Daemon._state].
    replace (Daemon.is_control_flag k) with false.
    2:{ repeat (apply elem_of_cons in Hk as [->|Hk]);
          [..|apply elem_of_nil in Hk; contradiction]; reflexivity. }
    rewrite Hst. reflexivity.
Qed.

Lemma dashboard_pause_round_trip_witness :
  exists d',
    DaemonControl._check_control_flags ClockExample.polling = Some d'
    /\ DaemonControl.is_paused d' = true.
Proof.
  destruct (dashboard_pause_round_trip ClockExample.polling _ eq_refl eq_refl)
    as (d' & Hc & _ & Hp & _).
  exists d'. split; [exact Hc|exact Hp].
Defined.

(** ** The schedule checks *)

Section ScheduleMore.
Import Daemon DaemonControl.
Variable fromisoformat : string -> option Q.

(** The elapsed-minutes test, without the division. *)
Lemma elapsed_due (now last interval : Q) :
  Qgeb ((now - last) / 60) interval = true <-> last + 60 * interval <= now.
Proof.
  rewrite Qgeb_ge.
  assert (E : (now - last) / 60 == (now - last) * (1 # 60)) by field.
  rewrite E. split; intros H; lra.
Qed.

(** What [_should] computes, by the timestamp found. *)
Lemma should_cases key interval now st :
  _should fromisoformat key interval now st = true
  <-> forall last last_dt,
        st !! key = Some (JStr last) -> fromisoformat last = Some last_dt ->
        last_dt + 60 * interval <= now.
Proof.
  unfold _should.
  destruct (st !! key) as [[| | | |last| |]|];
    try (split; [intros _ ? ? [=]|reflexivity]).
  destruct (fromisoformat last) as [dt|] eqn:E.
  - rewrite elapsed_due. split.
    + intros H l dt' [= <-]. rewrite E. intros [= <-]. exact H.
    + intros H. apply (H last dt); [reflexivity|exact E].
  - split; [intros _ l dt' [= <-]; rewrite E; discriminate|reflexivity].
Qed.
End ScheduleMore.

(** X29.  A task that is due stays due: for each of the three schedule
    checks (they share one body, read with a different key and interval),
    if the check answers [True] at some time it answers [True] at every
    later time, as long as the timestamp in the state is not rewritten. *)
Theorem schedule_stays_due
    (fromisoformat : string -> option Q) (key : string)
    (interval now now' : Q) (st : gmap string Daemon.json) :
  DaemonControl._should fromisoformat key interval now st = true ->
  now <= now' ->
  DaemonControl._should fromisoformat key interval now' st = true.
Proof.
  intros H Hle. apply should_cases. intros last dt Hl Hdt.
  apply (proj1 (should_cases _ _ _ _ _)) with (last := last) (last_dt := dt) in H;
    [|exact Hl|exact Hdt].
  lra.
Qed.

Lemma schedule_stays_due_witness :
  DaemonControl._should_heartbeat ClockExample.fromisoformat 5 400
    (Daemon._state
       (DaemonControl._heartbeat ClockExample.isoformat 0 DaemonExamples.running))
  = true.
Proof.
  apply (schedule_stays_due ClockExample.fromisoformat "last_heartbeat_at" 5
           300 400).
  - reflexivity.
  - lra.
Defined.

(** X30.  The heartbeat schedule.  Where [fromisoformat] reads back the
    time that [isoformat] printed: before any heartbeat the check is due at
    once; after a heartbeat at [t0] it is due exactly from
    [t0 + 60 * health_check_minutes] seconds on; and a heartbeat moves
    neither the research-cycle nor the dashboard schedule. *)
Theorem heartbeat_schedule
    (fromisoformat : string -> option Q) (isoformat : Q -> string)
    (t0 now interval : Q) (w : Daemon.world) :
  fromisoformat (isoformat t0) = Some t0 ->
  let w' := DaemonControl._heartbeat isoformat t0 w in
  DaemonControl._should_heartbeat fromisoformat interval now Daemon.initial_state
  = true
  /\ (DaemonControl._should_heartbeat fromisoformat interval now (Daemon._state w')
      = true <-> t0 + 60 * interval <= now)
  /\ (forall i,
        DaemonControl._should_run_cycle fromisoformat i now (Daemon._state w')
        = DaemonControl._should_run_cycle fromisoformat i now (Daemon._state w))
  /\ (forall i,
        DaemonControl._should_refresh_dashboard fromisoformat i now (Daemon._state w')
        = DaemonControl._should_refresh_dashboard fromisoformat i now
            (Daemon._state w)).
Proof.
  intros Hrt w'. split; [reflexivity|]. split; [|split].
  - unfold DaemonControl._should_heartbeat, DaemonControl._should.
    subst w'. unfold DaemonControl._heartbeat, Daemon.set_state.
    cbn [Daemon._state]. rewrite lookup_insert_eq, Hrt.
    apply elapsed_due.
  - intros i. unfold DaemonControl._should_run_cycle, DaemonControl._should.
    subst w'. unfold DaemonControl._heartbeat, Daemon.set_state.
    cbn [Daemon._state]. rewrite lookup_insert_ne by discriminate. reflexivity.
  - intros i.
    unfold DaemonControl._should_refresh_dashboard, DaemonControl._should.
    subst w'. unfold DaemonControl._heartbeat, Daemon.set_state.
    cbn [Daemon._state]. rewrite lookup_insert_ne by discriminate. reflexivity.
Qed.

Lemma heartbeat_schedule_witness :
  DaemonControl._should_heartbeat ClockExample.fromisoformat 5 299
    (Daemon._state
       (DaemonControl._heartbeat ClockExample.isoformat 0 DaemonExamples.running))
  = true
  <-> 0 + 60 * 5 <= 299.
Proof.
  refine (proj1 (proj2 (heartbeat_schedule ClockExample.fromisoformat
                          ClockExample.isoformat 0 299 5
                          DaemonExamples.running _))).
  reflexivity.
Defined.
